(** * Companion-file resolution (header <-> source): a shallow embedding

    The development follows the related-file finder
    ([searchFileWithBasename], [getFrameworkStructure],
    [getRelatedHeaderForSource], [findSourceFileForHeader],
    [findIncludingSourceFile], [processGrepResult]).

    Layout:
    - completions (return / throw), promises, array and string primitives;
    - [nuclideUri] : the path operations the finder calls;
    - [RegExp]     : patterns, how a pattern text is read, and a
                     backtracking matcher with capture groups;
    - [Rx]         : timed observables and the operators the finder chains;
    - the finder itself, parameterised by the file classifier and the host;
    - a concrete fixture, and then the theorems. *)

From Stdlib Require Import String Ascii List Bool Arith NArith Lia.
Import ListNotations.
Local Open Scope string_scope.
Local Open Scope list_scope.

(* ===================================================================== *)
(** ** JavaScript values the finder manipulates                          *)
(* ===================================================================== *)

(** A value of Flow type [?string] is [option string]: [null] and
    [undefined] are both [None] (the code only ever tests [x != null] and
    [x == null], which do not tell them apart). *)

Inductive JsError : Type :=
| TypeError (msg : string)
| SyntaxError (msg : string)
| TimeoutError
| IOError (msg : string)
| ProcessError (msg : string)
| Error (msg : string).

(** [String(err)] as used in [new Error(String(message.error))]. *)
Definition String_of_error (e : JsError) : string :=
  match e with
  | TypeError m => "TypeError: " ++ m
  | SyntaxError m => "SyntaxError: " ++ m
  | TimeoutError => "TimeoutError: Timeout has occurred"
  | IOError m => "Error: " ++ m
  | ProcessError m => "ProcessSystemError: " ++ m
  | Error m => "Error: " ++ m
  end.

(** Outcome of a synchronous call: normal return or a thrown exception. *)
Inductive Completion (A : Type) : Type :=
| Normal (a : A)
| Throw (e : JsError).
Arguments Normal {A} a.
Arguments Throw {A} e.

Definition cbind {A B} (c : Completion A) (k : A -> Completion B) : Completion B :=
  match c with
  | Normal a => k a
  | Throw e => Throw e
  end.

(** Outcome of awaiting a promise. *)
Inductive Promise (A : Type) : Type :=
| Resolved (a : A)
| Rejected (e : JsError)
| Pending.
Arguments Resolved {A} a.
Arguments Rejected {A} e.
Arguments Pending {A}.

(** [await p; k] inside an [async function]. *)
Definition await {A B} (p : Promise A) (k : A -> Promise B) : Promise B :=
  match p with
  | Resolved a => k a
  | Rejected e => Rejected e
  | Pending => Pending
  end.

(** A synchronous computation run in the body of an [async function]: a
    throw rejects the returned promise. *)
Definition async {A} (c : Completion A) : Promise A :=
  match c with
  | Normal a => Resolved a
  | Throw e => Rejected e
  end.

(** [p.catch(handler)] for a handler that returns a plain value. *)
Definition promise_catch {A} (p : Promise A) (handler : JsError -> A) : Promise A :=
  match p with
  | Rejected e => Resolved (handler e)
  | _ => p
  end.

(** [Promise.all(ps)]: rejects as soon as one input rejects, otherwise
    waits for all of them and keeps their order. *)
Fixpoint Promise_all {A} (ps : list (Promise A)) : Promise (list A) :=
  match ps with
  | [] => Resolved []
  | p :: ps' =>
      match p, Promise_all ps' with
      | Rejected e, _ => Rejected e
      | _, Rejected e => Rejected e
      | Pending, _ => Pending
      | _, Pending => Pending
      | Resolved a, Resolved l => Resolved (a :: l)
      end
  end.

Declare Scope js_scope.
Delimit Scope js_scope with js.
Notation "'let!' x ':=' c 'in' k" := (cbind c (fun x => k))
  (at level 10, x name, c at level 100, k at level 200) : js_scope.
Notation "'await!' x ':=' p 'in' k" := (await p (fun x => k))
  (at level 10, x name, p at level 100, k at level 200) : js_scope.

(** [Array.prototype.find] and [findIndex]. *)
Fixpoint Array_find {A} (p : A -> bool) (l : list A) : option A :=
  match l with
  | [] => None
  | x :: l' => if p x then Some x else Array_find p l'
  end.

Fixpoint Array_findIndex {A} (p : A -> bool) (l : list A) : option nat :=
  match l with
  | [] => None
  | x :: l' => if p x then Some 0 else option_map S (Array_findIndex p l')
  end.

(** [Array.prototype.slice(start)] and [slice(0, end)]. *)
Definition Array_slice_from {A} (start : nat) (l : list A) : list A := skipn start l.
Definition Array_slice_to {A} (stop : nat) (l : list A) : list A := firstn stop l.

(** Strings are sequences of code units; the model keeps the units 0-255. *)
Definition chars (s : string) : list ascii := list_ascii_of_string s.
Definition str (l : list ascii) : string := string_of_list_ascii l.

(** [s.indexOf(c)] for a one-character needle; [None] stands for [-1]. *)
Fixpoint String_indexOf (c : ascii) (s : string) : option nat :=
  match s with
  | EmptyString => None
  | String c' s' => if Ascii.eqb c' c then Some 0 else option_map S (String_indexOf c s')
  end.

(** [s.substr(start, length)] and [s.substr(start)]. *)
Definition String_substr (start len : nat) (s : string) : string := substring start len s.

Fixpoint String_substr_from (start : nat) (s : string) : string :=
  match start, s with
  | 0, _ => s
  | S n, String _ s' => String_substr_from n s'
  | S _, EmptyString => EmptyString
  end.

Definition NUL : ascii := Ascii.zero.

(** What [grep --null] prints for a matching line: the file name, a NUL,
    the line. *)
Definition grepLine (file line : string) : string :=
  file ++ String NUL line.

(* ===================================================================== *)
(** ** nuclideUri: path operations                                        *)
(* ===================================================================== *)

(** [nuclide-commons/nuclideUri] is not among the sources.  The spec asks
    for "a path-manipulation library providing
    join/normalize/relative/dirname/basename/split semantics consistent
    with the host filesystem"; the model is the POSIX one (local paths,
    [/] as separator), with the algorithms of Node's [path.posix]. *)
Module nuclideUri.

Definition sep : ascii := "/"%char.
Definition isSep (c : ascii) : bool := Ascii.eqb c sep.
Definition notSep (c : ascii) : bool := negb (isSep c).

(** A prefix of a path that is empty or ends with a separator. *)
Definition closed (z : string) : Prop :=
  z = EmptyString \/ exists w, z = (w ++ "/")%string.

(** The pieces of a string between separators (empty pieces included). *)
Fixpoint pieces (s : string) : list string :=
  match s with
  | EmptyString => [EmptyString]
  | String c s' =>
      if isSep c then EmptyString :: pieces s'
      else match pieces s' with
           | [] => [String c EmptyString]
           | p :: ps => String c p :: ps
           end
  end.

Definition isAbsolute (s : string) : bool :=
  match s with
  | String c _ => isSep c
  | EmptyString => false
  end.

Definition endsWithSep (s : string) : bool :=
  match rev (chars s) with
  | c :: _ => isSep c
  | [] => false
  end.

(** One step of [normalizeString]: [acc] holds the segments kept so far,
    innermost first. *)
Definition normalizeStep (allowAboveRoot : bool) (acc : list string) (seg : string)
  : list string :=
  if String.eqb seg "" || String.eqb seg "." then acc
  else if String.eqb seg ".." then
    match acc with
    | last :: acc' =>
        if String.eqb last ".." then (if allowAboveRoot then ".." :: acc else acc)
        else acc'
    | [] => if allowAboveRoot then [".."] else []
    end
  else seg :: acc.

Definition normalizeSegments (allowAboveRoot : bool) (segs : list string) : list string :=
  rev (fold_left (normalizeStep allowAboveRoot) segs []).

(** Modelled from the spec: [nuclideUri.normalize], with the algorithm of
    [path.posix.normalize]. *)
Definition normalize (p : string) : string :=
  if String.eqb p "" then "."
  else
    let isAbs := isAbsolute p in
    let trailing := endsWithSep p in
    let body := String.concat "/" (normalizeSegments (negb isAbs) (pieces p)) in
    if String.eqb body "" then
      (if isAbs then "/" else if trailing then "./" else ".")
    else (if isAbs then "/" else "") ++ body ++ (if trailing then "/" else "").

(** Modelled from the spec: [path.posix.join], to which [nuclideUri.join]
    hands local paths: the non-empty arguments joined by [/], normalized. *)
Definition path_join (args : list string) : string :=
  match filter (fun a => negb (String.eqb a "")) args with
  | [] => "."
  | parts => normalize (String.concat "/" parts)
  end.

(** Modelled from the spec: [nuclideUri.join(uri, ...relativePath)].  The
    first argument is mandatory; called through a spread of an empty array
    it receives [undefined] and throws. *)
Definition join (args : list string) : Completion string :=
  match args with
  | [] => Throw (TypeError "Cannot read property 'startsWith' of undefined")
  | _ => Normal (path_join args)
  end.

Fixpoint dropWhile {A} (p : A -> bool) (l : list A) : list A :=
  match l with
  | [] => []
  | x :: l' => if p x then dropWhile p l' else l
  end.

Fixpoint takeWhile {A} (p : A -> bool) (l : list A) : list A :=
  match l with
  | [] => []
  | x :: l' => if p x then x :: takeWhile p l' else []
  end.

(** Modelled from the spec: [nuclideUri.dirname], with the algorithm of
    [path.posix.dirname].  Its loop runs from the
    last index down to index 1; [r2] is what is left of that range once
    the trailing separators and the last component are skipped, so its
    length is the index [end] of the separator that stopped the loop. *)
Definition dirname (p : string) : string :=
  match chars p with
  | [] => "."
  | c0 :: cs =>
      let hasRoot := isSep c0 in
      let r1 := dropWhile isSep (rev cs) in
      let r2 := dropWhile notSep r1 in
      match r2 with
      | [] => if hasRoot then "/" else "."
      | _ :: _ =>
          let stop := List.length r2 in
          if hasRoot && Nat.eqb stop 1 then "//"
          else str (firstn stop (c0 :: cs))
      end
  end.

(** Modelled from the spec: [nuclideUri.basename] (no extension
    argument), with the algorithm of [path.posix.basename]: the last
    component, trailing separators dropped. *)
Definition basename (p : string) : string :=
  let r1 := dropWhile isSep (rev (chars p)) in
  str (rev (takeWhile notSep r1)).

(** Modelled from the spec: [nuclideUri.split], the segments of a path,
    outermost first; an absolute path starts with the root segment [/]. *)
Definition split (p : string) : list string :=
  let segs := filter (fun a => negb (String.eqb a "")) (pieces p) in
  if isAbsolute p then "/" :: segs else segs.

(** [path.resolve] of one path against the working directory, as
    segments below the root. *)
Definition resolveSegments (cwd p : string) : list string :=
  normalizeSegments false (pieces (if isAbsolute p then p else cwd ++ "/" ++ p)).

Fixpoint dropCommonPrefix (a b : list string) : list string * list string :=
  match a, b with
  | x :: a', y :: b' => if String.eqb x y then dropCommonPrefix a' b' else (a, b)
  | _, _ => (a, b)
  end.

(** Modelled from the spec: [nuclideUri.relative(from, to)], both paths
    resolved against the working directory: one [..] per segment of [from]
    left after the common prefix, then what is left of [to]. *)
Definition relative (cwd from to : string) : string :=
  if String.eqb from to then ""
  else
    let '(up, down) := dropCommonPrefix (resolveSegments cwd from) (resolveSegments cwd to) in
    String.concat "/" (map (fun _ => "..") up ++ down).

End nuclideUri.

(* ===================================================================== *)
(** ** RegExp: backtracking matching with capture groups                  *)
(* ===================================================================== *)

(** The fragment of the JavaScript pattern language that the include
    pattern uses, with the matching semantics of the language: ordered
    alternatives, greedy quantifiers, backtracking, captures reset at each
    iteration of a quantified group, an iteration that consumes nothing
    rejected. *)
Module RegExp.

Inductive Pattern : Type :=
| Empty
| Char (c : ascii)                 (* a literal character, escaped or not *)
| Dot                              (* .   any character but a line terminator *)
| Space                            (* \s *)
| Class (cs : list ascii)          (* [abc] *)
| Bol                              (* ^ *)
| Eol                              (* $ *)
| Seq (r1 r2 : Pattern)
| Alt (r1 r2 : Pattern)            (* r1|r2 *)
| Star (r : Pattern)               (* r* *)
| Plus (r : Pattern)               (* r+ *)
| Group (n : nat) (r : Pattern).   (* (r), the n-th capturing group *)

(** The literal text [s], then [r]. *)
Fixpoint literalThen (s : list ascii) (r : Pattern) : Pattern :=
  match s with
  | [] => r
  | c :: s' => Seq (Char c) (literalThen s' r)
  end.

Definition isLineTerminator (c : ascii) : bool :=
  let n := nat_of_ascii c in Nat.eqb n 10 || Nat.eqb n 13.

Definition isWhiteSpace (c : ascii) : bool :=
  let n := nat_of_ascii c in
  (Nat.leb 9 n && Nat.leb n 13) || Nat.eqb n 32 || Nat.eqb n 160.

Definition startsWithSpace (l : list ascii) : bool :=
  match l with
  | c :: _ => isWhiteSpace c
  | [] => false
  end.

Definition Captures := list (nat * list ascii).

Fixpoint capture (n : nat) (cs : Captures) : option (list ascii) :=
  match cs with
  | [] => None
  | (m, v) :: cs' => if Nat.eqb m n then Some v else capture n cs'
  end.

Fixpoint groupsOf (r : Pattern) : list nat :=
  match r with
  | Seq r1 r2 | Alt r1 r2 => groupsOf r1 ++ groupsOf r2
  | Star r' | Plus r' => groupsOf r'
  | Group n r' => n :: groupsOf r'
  | _ => []
  end.

Definition clearCaptures (gs : list nat) (cs : Captures) : Captures :=
  filter (fun e => negb (existsb (Nat.eqb (fst e)) gs)) cs.

(** Matcher state: index in the input, what is left of the input from
    there, the captures so far. *)
Record State : Type := mkState {
  index : nat;
  rest : list ascii;
  captures : Captures
}.

Definition Cont := State -> option State.

(** [y] is a state further along the input of [x]. *)
Definition advances (x y : State) : Prop :=
  index y + List.length (rest y) = index x + List.length (rest x) /\ index x <= index y.

Definition step1 (ok : ascii -> bool) (x : State) (k : Cont) : option State :=
  match rest x with
  | c :: rest' => if ok c then k (mkState (S (index x)) rest' (captures x)) else None
  | [] => None
  end.

Definition orElse (a : option State) (b : unit -> option State) : option State :=
  match a with
  | Some _ => a
  | None => b tt
  end.

(** [r*] from state [x]: try one more iteration of [r] (with the groups
    of [r] reset, and rejected if it consumes nothing), else continue
    with [k].  [fuel] bounds the number of iterations; each consumes at
    least one character, so one more than the length left is enough. *)
Fixpoint repeat (body : State -> Cont -> option State) (gs : list nat)
         (fuel : nat) (x : State) (k : Cont) : option State :=
  match fuel with
  | 0 => k x
  | S fuel' =>
      orElse
        (body (mkState (index x) (rest x) (clearCaptures gs (captures x)))
              (fun y => if Nat.eqb (index y) (index x) then None
                        else repeat body gs fuel' y k))
        (fun _ => k x)
  end.

Fixpoint matcher (r : Pattern) (x : State) (k : Cont) : option State :=
  match r with
  | Empty => k x
  | Char c => step1 (Ascii.eqb c) x k
  | Dot => step1 (fun c => negb (isLineTerminator c)) x k
  | Space => step1 isWhiteSpace x k
  | Class cs => step1 (fun c => existsb (Ascii.eqb c) cs) x k
  | Bol => if Nat.eqb (index x) 0 then k x else None
  | Eol => match rest x with [] => k x | _ :: _ => None end
  | Seq r1 r2 => matcher r1 x (fun y => matcher r2 y k)
  | Alt r1 r2 => orElse (matcher r1 x k) (fun _ => matcher r2 x k)
  | Star r' => repeat (matcher r') (groupsOf r') (S (List.length (rest x))) x k
  | Plus r' =>
      matcher r' (mkState (index x) (rest x) (clearCaptures (groupsOf r') (captures x)))
        (fun y => repeat (matcher r') (groupsOf r') (S (List.length (rest y))) y k)
  | Group n r' =>
      matcher r' x
        (fun y => k (mkState (index y) (rest y)
                       ((n, firstn (index y - index x) (rest x))
                          :: clearCaptures [n] (captures y))))
  end.

(** Try the pattern at every start index, leftmost first. *)
Fixpoint search (r : Pattern) (start : nat) (input : list ascii) : option State :=
  orElse (matcher r (mkState start input []) Some)
         (fun _ => match input with
                   | [] => None
                   | _ :: input' => search r (S start) input'
                   end).

(** [regex.exec(s)]: [None] is [null]; otherwise [group m n] is [m[n]]
    for [n >= 1], [None] when the group did not take part in the match. *)
Definition Match := Captures.

Definition exec (r : Pattern) (s : string) : option Match :=
  option_map captures (search r 0 (chars s)).

Definition group (m : Match) (n : nat) : option string :=
  option_map str (capture n m).

(** *** Reading a pattern

    [new RegExp(pattern)] for the fragment above.  An alternative is the
    sequence of its terms, closed by [Empty]; groups are numbered by their
    opening parenthesis, from left to right.  A pattern outside the
    fragment (a class with a range, a negation or an escape, the
    quantifiers [?] and [{n}], a character escape other than [\s] and the
    escaped syntax characters) is refused like a malformed one. *)

Definition isSyntaxCharacter (c : ascii) : bool :=
  existsb (Ascii.eqb c) (chars "^$\.*+?()[]{}|").

Fixpoint parseClass (input : list ascii) : option (list ascii * list ascii) :=
  match input with
  | [] => None
  | c :: rest =>
      if Ascii.eqb c "]" then Some ([], rest)
      else if Ascii.eqb c "\" || Ascii.eqb c "^" || Ascii.eqb c "-" then None
      else match parseClass rest with
           | Some (cs, rest') => Some (c :: cs, rest')
           | None => None
           end
  end.

Definition parseQuantifier (atom : Pattern) (input : list ascii)
  : option (Pattern * list ascii) :=
  match input with
  | c :: rest =>
      if Ascii.eqb c "*" then Some (Star atom, rest)
      else if Ascii.eqb c "+" then Some (Plus atom, rest)
      else if Ascii.eqb c "?" || Ascii.eqb c "{" then None
      else Some (atom, input)
  | [] => Some (atom, input)
  end.

(** What was read, the number of groups opened so far, what is left. *)
Definition Parsed : Type := Pattern * nat * list ascii.

Fixpoint parseDisjunction (fuel : nat) (n : nat) (input : list ascii) : option Parsed :=
  match fuel with
  | 0 => None
  | S fuel' =>
      match parseAlternative fuel' n input with
      | Some (a, n1, rest) =>
          match rest with
          | c :: rest' =>
              if Ascii.eqb c "|" then
                match parseDisjunction fuel' n1 rest' with
                | Some (d, n2, rest'') => Some (Alt a d, n2, rest'')
                | None => None
                end
              else Some (a, n1, rest)
          | [] => Some (a, n1, rest)
          end
      | None => None
      end
  end
with parseAlternative (fuel : nat) (n : nat) (input : list ascii) : option Parsed :=
  match fuel with
  | 0 => None
  | S fuel' =>
      let term (t : Pattern) (n1 : nat) (rest : list ascii) : option Parsed :=
        match parseAlternative fuel' n1 rest with
        | Some (tail, n2, rest') => Some (Seq t tail, n2, rest')
        | None => None
        end in
      let atom (a : Pattern) (n1 : nat) (rest : list ascii) : option Parsed :=
        match parseQuantifier a rest with
        | Some (t, rest') => term t n1 rest'
        | None => None
        end in
      match input with
      | [] => Some (Empty, n, [])
      | c :: rest =>
          if Ascii.eqb c "|" || Ascii.eqb c ")" then Some (Empty, n, input)
          else if Ascii.eqb c "^" then term Bol n rest
          else if Ascii.eqb c "$" then term Eol n rest
          else if Ascii.eqb c "." then atom Dot n rest
          else if Ascii.eqb c "\" then
            match rest with
            | e :: rest' =>
                if Ascii.eqb e "s" then atom Space n rest'
                else if isSyntaxCharacter e || Ascii.eqb e "/" then atom (Char e) n rest'
                else None
            | [] => None
            end
          else if Ascii.eqb c "[" then
            match parseClass rest with
            | Some (cs, rest') => atom (Class cs) n rest'
            | None => None
            end
          else if Ascii.eqb c "(" then
            match parseDisjunction fuel' (S n) rest with
            | Some (r, n1, d :: rest') =>
                if Ascii.eqb d ")" then atom (Group (S n) r) n1 rest' else None
            | _ => None
            end
          else if isSyntaxCharacter c then None
          else atom (Char c) n rest
      end
  end.

(** The fuel bounds the depth of the calls of the two functions above;
    each of them reads a character or follows a call that did, hence twice
    the length of the pattern.  [parse_includePattern] below shows that it
    is enough for every pattern the finder builds. *)
Definition parse (pattern : string) : option Pattern :=
  match parseDisjunction (2 * String.length pattern + 2) 0 (chars pattern) with
  | Some (r, _, []) => Some r
  | _ => None
  end.

(** [new RegExp(pattern)]. *)
Definition new (pattern : string) : Completion Pattern :=
  match parse pattern with
  | Some r => Normal r
  | None => Throw (SyntaxError "Invalid regular expression")
  end.

(** No quantifier at the head of the input. *)
Definition quantifierFree (input : list ascii) : bool :=
  match input with
  | c :: _ => negb (Ascii.eqb c "*" || Ascii.eqb c "+" || Ascii.eqb c "?" || Ascii.eqb c "{")
  | [] => true
  end.

(** The input is at the end of an alternative. *)
Definition stops (input : list ascii) : bool :=
  match input with
  | c :: _ => Ascii.eqb c "|" || Ascii.eqb c ")"
  | [] => true
  end.

Definition startsWithBar (input : list ascii) : bool :=
  match input with
  | c :: _ => Ascii.eqb c "|"
  | [] => false
  end.

End RegExp.

(** [escapeStringRegExp(s)]: a backslash before each character that is
    special in a pattern. *)
Definition isRegExpSpecial (c : ascii) : bool :=
  existsb (Ascii.eqb c) (chars "|\{}()[]^$+*?.").

Fixpoint escapeChars (s : list ascii) : list ascii :=
  match s with
  | [] => []
  | c :: s' =>
      if isRegExpSpecial c then "\"%char :: c :: escapeChars s'
      else c :: escapeChars s'
  end.

Fixpoint escapeStringRegExp (s : string) : string :=
  match s with
  | EmptyString => EmptyString
  | String c s' =>
      if isRegExpSpecial c then String "\"%char (String c (escapeStringRegExp s'))
      else String c (escapeStringRegExp s')
  end.

(* ===================================================================== *)
(** ** Rx: timed observables                                              *)
(* ===================================================================== *)

(** An observable, as seen by one subscriber: the values it delivers,
    each with its time of delivery (milliseconds since subscription), and
    how it ends.  The operators below are those the finder chains. *)
Module Rx.

Definition Time := N.

Inductive Ending : Type :=
| Completed (t : Time)
| Failed (t : Time) (e : JsError)
| Unfinished.                      (* never completes nor fails *)

Record Observable (A : Type) : Type := mkObservable {
  emissions : list (Time * A);
  ending : Ending
}.
Arguments mkObservable {A} emissions ending.
Arguments emissions {A} o.
Arguments ending {A} o.

(** The observables created inside the operators' callbacks
    ([Observable.of(x)], [Observable.empty()]) deliver their values at
    once on subscription and complete: they are the list of these
    values. *)
Definition Sync (A : Type) := list A.
Definition Observable_of {A} (x : A) : Sync A := [x].
Definition Observable_empty {A} : Sync A := [].

Definition emit {A} (t : Time) (x : A) (o : Observable A) : Observable A :=
  mkObservable ((t, x) :: emissions o) (ending o).

Definition emitAll {A} (t : Time) (xs : Sync A) (o : Observable A) : Observable A :=
  mkObservable (map (pair t) xs ++ emissions o) (ending o).

(** [o.catch(selector)]: when [o] fails, continue with the observable
    the selector returns for the error. *)
Definition catch {A} (o : Observable A) (selector : JsError -> Sync A) : Observable A :=
  match ending o with
  | Failed t e => mkObservable (emissions o ++ map (pair t) (selector e)) (Completed t)
  | _ => o
  end.

(** [o.flatMap(project)]: each value is replaced by the values of the
    observable it is projected to; a throw in [project] fails the result
    and ends the subscription to [o]. *)
Fixpoint flatMapFrom {A B} (project : A -> Completion (Sync B))
         (es : list (Time * A)) (e : Ending) : Observable B :=
  match es with
  | [] => mkObservable [] e
  | (t, a) :: es' =>
      match project a with
      | Throw err => mkObservable [] (Failed t err)
      | Normal bs => emitAll t bs (flatMapFrom project es' e)
      end
  end.

Definition flatMap {A B} (o : Observable A) (project : A -> Completion (Sync B))
  : Observable B :=
  flatMapFrom project (emissions o) (ending o).

(** [o.take(count)]: completes with the [count]-th value. *)
Fixpoint takeFrom {A} (count : nat) (es : list (Time * A)) (e : Ending) : Observable A :=
  match count, es with
  | 0, _ => mkObservable [] (Completed 0%N)
  | _, [] => mkObservable [] e
  | 1, (t, a) :: _ => mkObservable [(t, a)] (Completed t)
  | S n, (t, a) :: es' => emit t a (takeFrom n es' e)
  end.

Definition take {A} (count : nat) (o : Observable A) : Observable A :=
  takeFrom count (emissions o) (ending o).

(** [o.timeout(due)]: fails with a [TimeoutError] when nothing arrives
    within [due] milliseconds of the subscription or of the previous
    value.  [last] is the time of the previous arrival. *)
Definition inTime (due last t : Time) : bool := N.ltb t (N.add last due).

Fixpoint timeoutFrom {A} (due last : Time) (es : list (Time * A)) (e : Ending)
  : Observable A :=
  match es with
  | (t, a) :: es' =>
      if inTime due last t then emit t a (timeoutFrom due t es' e)
      else mkObservable [] (Failed (N.add last due) TimeoutError)
  | [] =>
      match e with
      | Completed t =>
          mkObservable [] (if inTime due last t then e else Failed (N.add last due) TimeoutError)
      | Failed t _ =>
          mkObservable [] (if inTime due last t then e else Failed (N.add last due) TimeoutError)
      | Unfinished => mkObservable [] (Failed (N.add last due) TimeoutError)
      end
  end.

Definition timeout {A} (due : Time) (o : Observable A) : Observable A :=
  timeoutFrom due 0%N (emissions o) (ending o).

(** Nothing happens in [o] before the time [due]. *)
Definition late {A} (due : Time) (o : Observable A) : Prop :=
  Forall (fun x => N.le due (fst x)) (emissions o) /\
  match ending o with
  | Completed t | Failed t _ => N.le due t
  | Unfinished => True
  end.

(** [o.toPromise()]: settles when [o] ends, with the last value
    delivered ([undefined] when there was none). *)
Definition toPromise {A} (undefined : A) (o : Observable A) : Promise A :=
  match ending o with
  | Completed _ => Resolved (last (map snd (emissions o)) undefined)
  | Failed _ e => Rejected e
  | Unfinished => Pending
  end.

End Rx.

(* ===================================================================== *)
(** ** The finder                                                         *)
(* ===================================================================== *)

(** [./utils] is not among the sources; the spec treats the file
    classification as "a supplied predicate", and so does the model: the
    finder is parameterised by the three functions it imports. *)
Class Utils : Type := {
  getFileBasename : string -> string;
  isHeaderFile : string -> bool;
  isSourceFile : string -> bool
}.

(** A message of [observeProcess], with the [error] kind that the finder
    adds in its [catch]. *)
Inductive ProcessMessage : Type :=
| stdout (data : string)
| stderr (data : string)
| exit (exitCode : nat)
| error (err : JsError).

(** The host the finder runs on: what a directory lists ([None] when it
    cannot be listed), the working directory, and what [observeProcess]
    delivers for a command and its arguments. *)
Class Host : Type := {
  listing : string -> option (list string);
  cwd : string;
  observeProcess : string -> list string -> Rx.Observable ProcessMessage
}.

(** What [readdir] lists: file names, never empty, never [.] or [..], and
    without a separator. *)
Definition isEntryName (name : string) : bool :=
  negb (String.eqb name "") && negb (String.eqb name ".") && negb (String.eqb name "..")
  && forallb nuclideUri.notSep (chars name).

Definition INCLUDE_SEARCH_TIMEOUT : Rx.Time := 15000%N.

Definition dquote : string := String (ascii_of_nat 34) EmptyString.

Record FrameworkStructure : Type := mkFrameworkStructure {
  frameworkPath : string;
  frameworkName : string;
  frameworkSubFolder : string
}.

Section Finder.
Context {utils : Utils} {host : Host}.
Local Open Scope js_scope.

(** [fsPromise.readdir(dir)]. *)
Definition fsPromise_readdir (dir : string) : Promise (list string) :=
  match listing dir with
  | Some files => Resolved files
  | None => Rejected (IOError "ENOENT: no such file or directory, scandir")
  end.

(** The test of the loop of [searchFileWithBasename]. *)
Definition selects (basename : string) (condition : string -> bool) (file : string) : bool :=
  condition file && String.eqb (getFileBasename file) basename.

(** The [for (const file of files)] loop of [searchFileWithBasename]. *)
Fixpoint searchFiles (dir basename : string) (condition : string -> bool)
         (files : list string) : Completion (option string) :=
  match files with
  | [] => Normal None
  | file :: files' =>
      if selects basename condition file
      then let! found := nuclideUri.join [dir; file] in Normal (Some found)
      else searchFiles dir basename condition files'
  end.

Definition searchFileWithBasename (dir basename : string) (condition : string -> bool)
  : Promise (option string) :=
  await! files := promise_catch (fsPromise_readdir dir) (fun _ => []) in
  async (searchFiles dir basename condition files).

(** [paths[sourcesIndex + 1]] is [undefined] when [Sources] is the
    outermost segment; [nuclideUri.join] of the empty slice then throws
    before the name is used, so the default is never returned. *)
Definition getFrameworkStructure (dir : string) : Completion (option FrameworkStructure) :=
  let paths := rev (nuclideUri.split dir) in
  match Array_findIndex (fun folderName => String.eqb folderName "Sources") paths with
  | None => Normal None
  | Some sourcesIndex =>
      let frameworkName := nth (sourcesIndex + 1) paths "" in
      let! frameworkPath :=
        nuclideUri.join (rev (Array_slice_from (sourcesIndex + 1) paths)) in
      let frameworkSubPaths := Array_slice_to sourcesIndex paths in
      let! frameworkSubFolder :=
        (if Nat.eqb (List.length frameworkSubPaths) 0 then Normal ""
         else nuclideUri.join (rev frameworkSubPaths)) in
      Normal (Some (mkFrameworkStructure frameworkPath frameworkName frameworkSubFolder))
  end.

Definition isNotNull (file : option string) : bool :=
  match file with Some _ => true | None => false end.

(** [headers.find(file => file != null)]: the element found, or
    [undefined]. *)
Definition findNotNull (headers : list (option string)) : option string :=
  match Array_find isNotNull headers with
  | Some file => file
  | None => None
  end.

(** The callback of the [map] over the two header folders; a throw of
    [nuclideUri.join] there would reject the caller's promise, as a
    rejected element of [Promise.all] does. *)
Definition searchHeaderFolder (st : FrameworkStructure) (basename headerFolder : string)
  : Promise (option string) :=
  match nuclideUri.join
          [frameworkPath st; headerFolder; frameworkName st; frameworkSubFolder st] with
  | Normal dir => searchFileWithBasename dir basename isHeaderFile
  | Throw e => Rejected e
  end.

Definition getRelatedHeaderForSourceFromFramework (src : string) : Promise (option string) :=
  await! frameworkStructure := async (getFrameworkStructure (nuclideUri.dirname src)) in
  match frameworkStructure with
  | None => Resolved None
  | Some st =>
      let basename := getFileBasename src in
      await! headers :=
        Promise_all (map (searchHeaderFolder st basename) ["Headers"; "PrivateHeaders"]) in
      Resolved (findNotNull headers)
  end.

Definition getRelatedHeaderForSource (src : string) : Promise (option string) :=
  (* search in folder *)
  await! header :=
    searchFileWithBasename (nuclideUri.dirname src) (getFileBasename src) isHeaderFile in
  match header with
  | Some h => Resolved (Some h)
  | None =>
      (* special case for obj-c frameworks *)
      getRelatedHeaderForSourceFromFramework src
  end.

(** The text of the include pattern, as passed to [grep]. *)
Definition includePattern (relativePath basename : string) : string :=
  "^\s*#include\s+[" ++ dquote ++ "<](" ++ relativePath ++ "|(../)*" ++ basename
    ++ ")[" ++ dquote ++ ">]\s*$".

(** What [new RegExp(pattern)] is for that text, [relativePath] and
    [basename] being the texts before [escapeStringRegExp], which makes
    each of their characters a literal one ([new_includePattern] below).
    Group 1 is the whole include path, group 2 the last [../] of the
    source-relative branch. *)
Definition includeRegex (relativePath basename : string) : RegExp.Pattern :=
  let quoteOr c := RegExp.Class (chars dquote ++ [c]) in
  RegExp.Seq RegExp.Bol
 (RegExp.Seq (RegExp.Star RegExp.Space)
 (RegExp.literalThen (chars "#include")
 (RegExp.Seq (RegExp.Plus RegExp.Space)
 (RegExp.Seq (quoteOr "<"%char)
 (RegExp.Seq (RegExp.Group 1
                (RegExp.Alt (RegExp.literalThen (chars relativePath) RegExp.Empty)
                   (RegExp.Seq
                      (RegExp.Star
                         (RegExp.Group 2
                            (RegExp.Seq RegExp.Dot
                               (RegExp.Seq RegExp.Dot
                                  (RegExp.Seq (RegExp.Char "/"%char) RegExp.Empty)))))
                      (RegExp.literalThen (chars basename) RegExp.Empty))))
 (RegExp.Seq (quoteOr ">"%char)
 (RegExp.Seq (RegExp.Star RegExp.Space)
 (RegExp.Seq RegExp.Eol RegExp.Empty)))))))).

Definition processGrepResult (result headerFile : string) (includeRegex : RegExp.Pattern)
  : Completion (option string) :=
  match String_indexOf NUL result with
  | None => Normal None
  | Some splitIndex =>
      let filename := String_substr 0 splitIndex result in
      if negb (isSourceFile filename) then Normal None
      else
        match RegExp.exec includeRegex (String_substr_from (splitIndex + 1) result) with
        | None => Normal None
        | Some m =>
            (* Source-relative includes have to be verified.
               Relative paths will match the (../)* rule (at index 2). *)
            match RegExp.group m 2 with
            | Some _ =>
                let! joined :=
                  match RegExp.group m 1 with
                  | Some include => nuclideUri.join [nuclideUri.dirname filename; include]
                  | None => Throw (TypeError "Path must be a string. Received undefined")
                  end in
                let includePath := nuclideUri.normalize joined in
                if negb (String.eqb includePath headerFile) then Normal None
                else Normal (Some filename)
            | None => Normal (Some filename)
            end
        end
  end.

(** The callback of [flatMap] in [findIncludingSourceFile]. *)
Definition onMessage (headerFile : string) (regex : RegExp.Pattern) (message : ProcessMessage)
  : Completion (Rx.Sync (option string)) :=
  match message with
  | stdout data =>
      let! file := processGrepResult data headerFile regex in
      Normal (match file with
              | None => Rx.Observable_empty
              | Some f => Rx.Observable_of (Some f)
              end)
  | error err => Throw (Error (String_of_error err))
  | exit _ => Normal (Rx.Observable_of None)
  | stderr _ => Normal Rx.Observable_empty
  end.

Definition grepArguments (headerFile projectRoot : string) : list string :=
  let basename := escapeStringRegExp (nuclideUri.basename headerFile) in
  let relativePath :=
    escapeStringRegExp (nuclideUri.relative cwd projectRoot headerFile) in
  [ "-RE";      (* recursive, extended *)
    "--null";   (* separate file/match with \0 *)
    includePattern relativePath basename;
    nuclideUri.dirname headerFile ].

(** The pattern of the search for [headerFile], read. *)
Definition searchRegex (headerFile projectRoot : string) : RegExp.Pattern :=
  includeRegex (nuclideUri.relative cwd projectRoot headerFile)
               (nuclideUri.basename headerFile).

(** [observeProcess('grep', [...], {isExitError: () => false})]. *)
Definition grepProcess (headerFile projectRoot : string) : Rx.Observable ProcessMessage :=
  observeProcess "grep" (grepArguments headerFile projectRoot).

(** A throw is that of [new RegExp]. *)
Definition findIncludingSourceFile (headerFile projectRoot : string)
  : Completion (Rx.Observable (option string)) :=
  let basename := escapeStringRegExp (nuclideUri.basename headerFile) in
  let relativePath :=
    escapeStringRegExp (nuclideUri.relative cwd projectRoot headerFile) in
  let pattern := includePattern relativePath basename in
  let! regex := RegExp.new pattern in
  (* We need both the file and the match to verify relative includes.
     Relative includes may not always be correct, so we may have to go
     through all the results. *)
  Normal
    (Rx.take 1
       (Rx.flatMap
          (Rx.catch (grepProcess headerFile projectRoot)
                    (fun err => Rx.Observable_of (error err)))
          (onMessage headerFile regex))).

(** A message that makes [findIncludingSourceFile] deliver nothing and
    does not fail it: output on [stderr], or a line of [grep] that
    [processGrepResult] rejects. *)
Definition quiet (headerFile projectRoot : string) (message : ProcessMessage) : Prop :=
  onMessage headerFile (searchRegex headerFile projectRoot) message
  = Normal Rx.Observable_empty.

Definition findSourceFileForHeader (header projectRoot : string) : Promise (option string) :=
  (* Basic implementation: look at files in the same directory for paths
     with matching file names. *)
  await! source :=
    searchFileWithBasename (nuclideUri.dirname header) (getFileBasename header) isSourceFile in
  match source with
  | Some s => Resolved (Some s)
  | None =>
      (* Try searching all subdirectories for source files that include
         this header.  Give up after INCLUDE_SEARCH_TIMEOUT. *)
      await! found := async (findIncludingSourceFile header projectRoot) in
      Rx.toPromise None
        (Rx.catch (Rx.timeout INCLUDE_SEARCH_TIMEOUT found)
                  (fun _ => Rx.Observable_of None))
  end.

End Finder.

(* ===================================================================== *)
(** ** A concrete classifier and concrete hosts                           *)
(* ===================================================================== *)

Module Fixture.

Definition toLower (c : ascii) : ascii :=
  let n := nat_of_ascii c in
  if Nat.leb 65 n && Nat.leb n 90 then ascii_of_nat (n + 32) else c.

Definition isDot (c : ascii) : bool := Ascii.eqb c "."%char.

(** The file name of [path] cut at its last dot: the name without the
    extension, and the extension (with its dot).  A name without a dot,
    or whose only dot is its first character, has no extension. *)
Definition splitExtension (path : string) : string * string :=
  let name := chars (nuclideUri.basename path) in
  let revExt := nuclideUri.takeWhile (fun c => negb (isDot c)) (rev name) in
  match nuclideUri.dropWhile (fun c => negb (isDot c)) (rev name) with
  | _dot :: (_ :: _) as revStem => (str (rev revStem), str ("."%char :: rev revExt))
  | _ => (str name, "")
  end.

Definition extension (path : string) : string :=
  str (map toLower (chars (snd (splitExtension path)))).

Definition HEADER_EXTENSIONS : list string := [".h"; ".hpp"].
Definition SOURCE_EXTENSIONS : list string := [".c"; ".cpp"; ".m"; ".mm"].

(** Modelled from the spec: [isHeaderFile], [isSourceFile] and
    [getFileBasename] of [./utils] ("Path Classifier": a "table lookup on
    normalized lowercase extension", with [.h]/[.hpp] as Header and
    [.c]/[.cpp]/[.m]/[.mm] as Source; the basename is the file's name
    with its extension stripped). *)
#[export] Instance classifier : Utils := {|
  getFileBasename := fun path => fst (splitExtension path);
  isHeaderFile := fun path => existsb (String.eqb (extension path)) HEADER_EXTENSIONS;
  isSourceFile := fun path => existsb (String.eqb (extension path)) SOURCE_EXTENSIONS
|}.

Fixpoint stripPrefix (prefix l : list string) : option (list string) :=
  match prefix, l with
  | [], _ => Some l
  | p :: prefix', x :: l' => if String.eqb p x then stripPrefix prefix' l' else None
  | _ :: _, [] => None
  end.

Definition segmentsOf (p : string) : list string :=
  nuclideUri.normalizeSegments (negb (nuclideUri.isAbsolute p)) (nuclideUri.pieces p).

(** The entries of [dir] in a tree that holds exactly the files [files];
    [None] when [dir] is not a directory of the tree. *)
Definition treeListing (files : list string) (dir : string) : option (list string) :=
  let child f :=
    match stripPrefix (segmentsOf dir) (segmentsOf f) with
    | Some (entry :: _) => [entry]
    | _ => []
    end in
  match nodup string_dec (flat_map child files) with
  | [] => None
  | entries => Some entries
  end.

(** A process that cannot be spawned. *)
Definition spawnFailure : Rx.Observable ProcessMessage :=
  Rx.mkObservable [] (Rx.Failed 1%N (ProcessError "spawn grep ENOENT")).

(** A host whose tree holds [files] and whose [grep] delivers [output]. *)
Definition hostOf (files : list string) (output : Rx.Observable ProcessMessage) : Host := {|
  listing := treeListing files;
  cwd := "/work";
  observeProcess := fun command _ =>
    if String.eqb command "grep" then output else spawnFailure
|}.

Definition silent : Rx.Observable ProcessMessage := Rx.mkObservable [] Rx.Unfinished.

(** A host with the tree [files], on which [grep] stays silent. *)
Definition onTree (files : list string) : Host := hostOf files silent.

Definition fwk : FrameworkStructure :=
  {| frameworkPath := "Fwk"; frameworkName := "Fwk"; frameworkSubFolder := "Sub" |}.

(** The header of the tree search examples, its project root, and
    include lines for it: relative to the root, by parent ascents, and
    two that the pattern does not match. *)
Definition headerFile : string := "root/a/b/x.h".
Definition projectRoot : string := "root".
Definition rootRelativeLine : string := "#include <a/b/x.h>".
Definition ascentLine : string := "#include " ++ dquote ++ "../x.h" ++ dquote.
Definition wrongLine : string := "#include " ++ dquote ++ "../wrong/x.h" ++ dquote.
Definition descentLine : string := "#include " ++ dquote ++ "../../a/b/x.h" ++ dquote.

(** Outputs of [grep]: the claimed relative include of [root/c/y.m]; an
    include by ascent that resolves elsewhere, then one that resolves to
    the header; no match at all; a root-relative include. *)
Definition descentOutput : Rx.Observable ProcessMessage :=
  Rx.mkObservable
    [(40%N, stdout (grepLine "root/c/y.m" descentLine)); (90%N, exit 0)]
    (Rx.Completed 90%N).

Definition ascentOutput : Rx.Observable ProcessMessage :=
  Rx.mkObservable
    [(30%N, stderr "grep: root/a/b/bin: Permission denied");
     (50%N, stdout (grepLine "root/a/b/c/d/z.m" ascentLine));
     (70%N, stdout (grepLine "root/a/b/c/y.m" ascentLine));
     (90%N, exit 0)]
    (Rx.Completed 90%N).

Definition noMatchOutput : Rx.Observable ProcessMessage :=
  Rx.mkObservable
    [(30%N, stderr "grep: root/a/b/bin: Permission denied"); (90%N, exit 1)]
    (Rx.Completed 90%N).

Definition rootRelativeOutput : Rx.Observable ProcessMessage :=
  Rx.mkObservable
    [(20%N, stdout (grepLine "root/a/b/deep/z.m" rootRelativeLine)); (90%N, exit 0)]
    (Rx.Completed 90%N).

(** The framework layout of the spec's example. *)
Definition specLayout : list string :=
  ["Fwk/Sources/Fwk/Sub/Foo.m"; "Fwk/Headers/Sub/Foo.h"].

(** The layout the code looks for, for the same source file. *)
Definition codeLayout : list string :=
  ["Fwk/Sources/Fwk/Sub/Foo.m"; "Fwk/Headers/Fwk/Fwk/Sub/Foo.h"].

Definition bothLayout : list string :=
  ["Fwk/Sources/Sub/Foo.m"; "Fwk/PrivateHeaders/Fwk/Sub/Foo.h"; "Fwk/Headers/Fwk/Sub/Foo.h"].

(** Two headers for one source in a directory. *)
Definition twoHeaders : list string :=
  ["proj/Foo.h"; "proj/Foo.hpp"; "proj/Foo.m"].

End Fixture.

(* ===================================================================== *)
(** ** The entry point of the package                                     *)
(* ===================================================================== *)

(** The body of the module [atom-ide-ui]: the check for a duplicate
    package, then the list of the features found under [pkg], which is
    handed to [FeatureLoader].  [atom], [fs] and [JSON.parse] are the
    host's; [path.join] is Node's, in its POSIX form
    ([nuclideUri.path_join]).  [FeatureLoader] and [UniversalDisposable]
    are not among the sources: the model stops at the arguments of
    [new FeatureLoader]. *)
Module Package.

(** What [fs] and [JSON.parse] throw: a system error with its [code]
    ([ENOENT], [ENOTDIR], [EACCES], ...), or an error without one. *)
Inductive Exception : Type :=
| SystemError (code : string) (message : string)
| Plain (e : JsError).

(** [err.code === code]. *)
Definition hasCode (err : Exception) (code : string) : bool :=
  match err with
  | SystemError c _ => String.eqb c code
  | Plain _ => false
  end.

Inductive Result (A : Type) : Type :=
| Return (a : A)
| Raise (err : Exception).
Arguments Return {A} a.
Arguments Raise {A} err.

(** The host: [atom.packages.getAvailablePackageNames()], [__dirname],
    [fs.readdirSync], [fs.readFileSync(_, 'utf8')] and [JSON.parse]. *)
Record Node (Json : Type) : Type := mkNode {
  availablePackageNames : list string;
  __dirname : string;
  readdirSync : string -> Result (list string);
  readFileSync : string -> Result string;
  JSON_parse : string -> Result Json
}.
Arguments mkNode {Json}.
Arguments availablePackageNames {Json} n.
Arguments __dirname {Json} n.
Arguments readdirSync {Json} n path.
Arguments readFileSync {Json} n path.
Arguments JSON_parse {Json} n text.

Record Feature (Json : Type) : Type := mkFeature {
  dirname : string;
  pkg : Json
}.
Arguments mkFeature {Json}.
Arguments dirname {Json} f.
Arguments pkg {Json} f.

Inductive Notification : Type :=
| Warning (title description : string) (dismissable : bool).

(** How the module body ends: with the warning, with a loader made for
    the features, or with an exception. *)
Inductive Outcome (Json : Type) : Type :=
| Warned (n : Notification)
| Loaded (pkgName : string) (features : list (Feature Json))
| Thrown (err : Exception).
Arguments Warned {Json} n.
Arguments Loaded {Json} pkgName features.
Arguments Thrown {Json} err.

(** [Array.prototype.map] with a callback that may throw. *)
Fixpoint Array_map {A B} (f : A -> Result B) (l : list A) : Result (list B) :=
  match l with
  | [] => Return []
  | x :: l' =>
      match f x with
      | Raise err => Raise err
      | Return y =>
          match Array_map f l' with
          | Raise err => Raise err
          | Return ys => Return (y :: ys)
          end
      end
  end.

(** [.filter(Boolean)] on an array of objects and [undefined]. *)
Fixpoint filter_Boolean {A} (l : list (option A)) : list A :=
  match l with
  | [] => []
  | Some x :: l' => x :: filter_Boolean l'
  | None :: l' => filter_Boolean l'
  end.

Section Body.
Context {Json : Type} (node : Node Json).

(** The [try] block of the callback. *)
Definition readPackage (dirname : string) : Result (option (Feature Json)) :=
  match readFileSync node (nuclideUri.path_join [dirname; "package.json"]) with
  | Raise err => Raise err
  | Return pkgJson =>
      match JSON_parse node pkgJson with
      | Raise err => Raise err
      | Return pkg => Return (Some (mkFeature dirname pkg))
      end
  end.

(** The callback of [map]: the feature of [item], [undefined] when the
    [catch] swallows the exception. *)
Definition readFeature (featureDir item : string) : Result (option (Feature Json)) :=
  let dirname := nuclideUri.path_join [featureDir; item] in
  match readPackage dirname with
  | Return feature => Return feature
  | Raise err =>
      if negb (hasCode err "ENOENT") then Raise err
      else Return None
  end.

Definition featureDir : string := nuclideUri.path_join [__dirname node; "pkg"].

Definition main : Outcome Json :=
  if existsb (String.eqb "nuclide") (availablePackageNames node) then
    Warned (Warning "Duplicate package: `atom-ide-ui`"
                    ("`atom-ide-ui` is already included as part of `nuclide`.<br>"
                       ++ "Please uninstall `atom-ide-ui` to avoid conflicts.")
                    true)
  else
    match readdirSync node featureDir with
    | Raise err => Thrown err
    | Return items =>
        match Array_map (readFeature featureDir) items with
        | Raise err => Thrown err
        | Return found => Loaded "atom-ide-ui" (filter_Boolean found)
        end
    end.

End Body.

(** Hosts to run the body on: [pkg] lists a feature, a directory
    without [package.json], a second feature; in [withFile] the second
    entry is a plain file, in [malformed] its [package.json] does not
    parse.  The parsed value is kept as its text. *)
Definition parseText (text : string) : Result string :=
  match text with
  | String "{" _ => Return text
  | _ => Raise (Plain (SyntaxError "Unexpected token in JSON at position 0"))
  end.

Definition noEntry : Exception :=
  SystemError "ENOENT" "no such file or directory, open".
Definition notDirectory : Exception :=
  SystemError "ENOTDIR" "not a directory, open".

Definition pkgTree (second : Result string) (names : list string) : Node string :=
  mkNode names "/app"
    (fun path => if String.eqb path "/app/pkg" then Return ["alpha"; "beta"; "gamma"]
                 else Raise noEntry)
    (fun path =>
       if String.eqb path "/app/pkg/alpha/package.json" then Return "{1}"
       else if String.eqb path "/app/pkg/beta/package.json" then second
       else if String.eqb path "/app/pkg/gamma/package.json" then Return "{3}"
       else Raise noEntry)
    parseText.

Definition standalone : Node string := pkgTree (Raise noEntry) ["atom-ide-ui"; "linter"].
Definition withFile : Node string := pkgTree (Raise notDirectory) ["atom-ide-ui"].
Definition malformed : Node string := pkgTree (Return "oops") ["atom-ide-ui"].

(** The same tree, with [nuclide] installed beside the package. *)
Definition bundled : Node string := pkgTree (Raise notDirectory) ["nuclide"; "atom-ide-ui"].

End Package.

(** An include of a header by its file name alone. *)
Definition bareInclude (name : string) : string :=
  "#include " ++ dquote ++ name ++ dquote.

Module Samples.

(** A match of [grep], after a complaint on [stderr]. *)
Definition promptOutput : Rx.Observable ProcessMessage :=
  Rx.mkObservable
    [(30%N, stderr "grep: root/a/b/bin: Permission denied");
     (70%N, stdout (grepLine "root/a/b/c/y.m" Fixture.ascentLine));
     (90%N, exit 0)]
    (Rx.Completed 90%N).

(** A [grep] that complains, prints a line that is rejected, prints a
    line that is accepted only after the time limit, and goes on
    running. *)
Definition lateMatch : Rx.Observable ProcessMessage :=
  Rx.mkObservable
    [(30%N, stderr "grep: root/a/b/bin: Permission denied");
     (200%N, stdout (grepLine "root/a/b/c/d/z.m" Fixture.ascentLine));
     (16000%N, stdout (grepLine "root/a/b/c/y.m" Fixture.ascentLine))]
    Rx.Unfinished.

(** A framework whose header is private. *)
Definition privateLayout : list string :=
  ["App/Fwk/Sources/Sub/Foo.m"; "App/Fwk/PrivateHeaders/Fwk/Sub/Foo.h"].

Definition appFwk : FrameworkStructure :=
  {| frameworkPath := "App/Fwk"; frameworkName := "Fwk"; frameworkSubFolder := "Sub" |}.

(** A source file and its header side by side, the source listed
    first. *)
Definition sideBySide : list string :=
  ["proj/Foo.m"; "proj/Foo.h"; "proj/Foo.hpp"; "proj/Bar.h"].

End Samples.

(* ===================================================================== *)
(** ** Paths                                                              *)
(* ===================================================================== *)

Lemma chars_app a b : chars (a ++ b)%string = (chars a ++ chars b)%list.
Proof. induction a as [|c a IH]; simpl; [reflexivity | now rewrite <- IH]. Qed.

Lemma str_chars s : str (chars s) = s.
Proof. apply string_of_list_ascii_of_string. Qed.

Lemma chars_str l : chars (str l) = l.
Proof. apply list_ascii_of_string_of_list_ascii. Qed.

Lemma append_empty_r s : (s ++ EmptyString)%string = s.
Proof. induction s as [|c s IH]; simpl; [reflexivity | now rewrite IH]. Qed.

Lemma append_assoc (a b c : string) : ((a ++ b) ++ c = a ++ b ++ c)%string.
Proof. induction a as [|x a IH]; simpl; [reflexivity | now rewrite IH]. Qed.

Lemma append_nonempty_r a b : b <> EmptyString -> (a ++ b)%string <> EmptyString.
Proof. destruct a; simpl; [auto | discriminate]. Qed.

Module nuclideUriFacts.
Import nuclideUri.
Local Open Scope string_scope.

Lemma pieces_nonempty s : pieces s <> [].
Proof.
  destruct s as [|c s]; simpl; [discriminate|].
  destruct (isSep c); [discriminate|]. destruct (pieces s); discriminate.
Qed.

Lemma pieces_plain s : forallb notSep (chars s) = true -> pieces s = [s].
Proof.
  induction s as [|c s IH]; simpl; [reflexivity|].
  unfold notSep at 1. intros H. apply andb_prop in H as [Hc Hs].
  apply negb_true_iff in Hc. rewrite Hc, (IH Hs). reflexivity.
Qed.

Lemma pieces_app_sep a b :
  pieces (a ++ String sep b) = (pieces a ++ pieces b)%list.
Proof.
  induction a as [|c a IH]; simpl.
  - reflexivity.
  - destruct (isSep c); [now rewrite IH|].
    rewrite IH. generalize (pieces_nonempty a). destruct (pieces a); [congruence|].
    reflexivity.
Qed.

Lemma concat_snoc sp l x :
  l <> [] -> String.concat sp (l ++ [x])%list = String.concat sp l ++ sp ++ x.
Proof.
  induction l as [|y l IH]; [congruence|]. intros _.
  destruct l as [|z l]; [reflexivity|].
  change (String.concat sp ((y :: z :: l) ++ [x])%list)
    with (y ++ sp ++ String.concat sp ((z :: l) ++ [x])%list).
  rewrite IH by discriminate.
  change (String.concat sp (y :: z :: l)) with (y ++ sp ++ String.concat sp (z :: l)).
  now rewrite !append_assoc.
Qed.

Lemma normalizeSegments_snoc allow l name :
  isEntryName name = true ->
  normalizeSegments allow (l ++ [name])%list = (normalizeSegments allow l ++ [name])%list.
Proof.
  intros H. unfold isEntryName in H.
  apply andb_prop in H as [H _]. apply andb_prop in H as [H H3].
  apply andb_prop in H as [H1 H2]. apply negb_true_iff in H1, H2, H3.
  unfold normalizeSegments. rewrite fold_left_app. simpl.
  unfold normalizeStep at 1. rewrite H1, H2, H3. reflexivity.
Qed.

Lemma takeWhile_all {A} (p : A -> bool) l tail :
  forallb p l = true ->
  (tail = [] \/ exists x tail', tail = x :: tail' /\ p x = false) ->
  takeWhile p (l ++ tail)%list = l.
Proof.
  intros Hl Ht. induction l as [|x l IH]; simpl in *.
  - destruct Ht as [->|(x & t & -> & Hx)]; simpl; [reflexivity | now rewrite Hx].
  - apply andb_prop in Hl as [Hx Hl]. rewrite Hx, (IH Hl). reflexivity.
Qed.

Lemma forallb_rev {A} (p : A -> bool) l : forallb p (rev l) = forallb p l.
Proof.
  induction l as [|x l IH]; simpl; [reflexivity|].
  rewrite forallb_app, IH. simpl. rewrite andb_true_r. apply andb_comm.
Qed.

Lemma basename_closed_name z name :
  closed z -> isEntryName name = true -> basename (z ++ name) = name.
Proof.
  intros Hz H. unfold isEntryName in H. apply andb_prop in H as [H Hplain].
  apply andb_prop in H as [H _]. apply andb_prop in H as [Hne _].
  apply negb_true_iff, String.eqb_neq in Hne.
  unfold basename. rewrite chars_app, rev_app_distr.
  assert (Hr : forallb notSep (rev (chars name)) = true) by now rewrite forallb_rev.
  assert (Hd : dropWhile isSep (rev (chars name) ++ rev (chars z))%list
               = (rev (chars name) ++ rev (chars z))%list).
  { destruct (rev (chars name)) as [|c r] eqn:E.
    - apply (f_equal (@rev ascii)) in E. rewrite rev_involutive in E. simpl in E.
      destruct name; [congruence | discriminate].
    - simpl in Hr. apply andb_prop in Hr as [Hc _]. unfold notSep in Hc.
      apply negb_true_iff in Hc. simpl. now rewrite Hc. }
  rewrite Hd, takeWhile_all; [now rewrite rev_involutive, str_chars | exact Hr |].
  destruct Hz as [->|[w ->]]; [now left | right].
  rewrite chars_app, rev_app_distr. simpl. eexists _, _. split; [reflexivity|].
  reflexivity.
Qed.

Lemma endsWithSep_name z name :
  isEntryName name = true -> endsWithSep (z ++ name) = false.
Proof.
  intros H. unfold isEntryName in H. apply andb_prop in H as [H Hplain].
  apply andb_prop in H as [H _]. apply andb_prop in H as [Hne _].
  apply negb_true_iff, String.eqb_neq in Hne.
  unfold endsWithSep. rewrite chars_app, rev_app_distr.
  rewrite <- forallb_rev in Hplain.
  destruct (rev (chars name)) as [|c r] eqn:E.
  - apply (f_equal (@rev ascii)) in E. rewrite rev_involutive in E. simpl in E.
    destruct name; [congruence | discriminate].
  - simpl in *. apply andb_prop in Hplain as [Hc _]. now apply negb_true_iff in Hc.
Qed.

(** Normalizing a path that ends with an entry name keeps the name as
    the last component. *)
Lemma normalize_name p name :
  isEntryName name = true ->
  (p = name \/ exists d, p = d ++ "/" ++ name) ->
  exists z, closed z /\ normalize p = z ++ name.
Proof.
  intros Hname Hp.
  assert (Hne : name <> "").
  { unfold isEntryName in Hname. apply andb_prop in Hname as [H _].
    apply andb_prop in H as [H _]. apply andb_prop in H as [H _].
    now apply negb_true_iff, String.eqb_neq in H. }
  assert (Hplain : forallb notSep (chars name) = true).
  { unfold isEntryName in Hname. now apply andb_prop in Hname as [_ H]. }
  assert (Hpieces : exists l, pieces p = (l ++ [name])%list).
  { destruct Hp as [->|[d ->]].
    - exists []. now apply pieces_plain.
    - exists (pieces d). simpl. rewrite pieces_app_sep. now rewrite (pieces_plain name). }
  assert (Hend : endsWithSep p = false).
  { destruct Hp as [->|[d ->]].
    - apply (endsWithSep_name "" name Hname).
    - rewrite <- append_assoc. now apply endsWithSep_name. }
  assert (Hp0 : p <> "").
  { destruct Hp as [->|[d ->]]; [exact Hne|].
    apply append_nonempty_r. simpl. discriminate. }
  destruct Hpieces as [l Hl].
  unfold normalize. apply String.eqb_neq in Hp0. rewrite Hp0, Hl, Hend.
  rewrite normalizeSegments_snoc by exact Hname.
  set (kept := normalizeSegments (negb (isAbsolute p)) l).
  assert (Hbody : exists y, closed y /\ String.concat "/" (kept ++ [name])%list = y ++ name).
  { destruct kept as [|k kept'] eqn:Ek.
    - exists "". split; [now left | reflexivity].
    - exists (String.concat "/" (k :: kept') ++ "/"). split.
      + right. now eexists.
      + rewrite concat_snoc by discriminate. now rewrite append_assoc. }
  destruct Hbody as (y & Hy & ->).
  assert (Hnz : String.eqb (y ++ name) "" = false).
  { apply String.eqb_neq. now apply append_nonempty_r. }
  rewrite Hnz, append_empty_r.
  destruct (isAbsolute p).
  - exists ("/" ++ y). split.
    + destruct Hy as [->|[w ->]]; right; [now exists "" | exists ("/" ++ w); reflexivity].
    + reflexivity.
  - exists y. split; [exact Hy | reflexivity].
Qed.

(** The file name of [join(dir, file)] is [file]. *)
Lemma basename_join dir name :
  isEntryName name = true -> basename (path_join [dir; name]) = name.
Proof.
  intros Hname.
  assert (Hne : String.eqb name "" = false).
  { unfold isEntryName in Hname. apply andb_prop in Hname as [H _].
    apply andb_prop in H as [H _]. apply andb_prop in H as [H _].
    now apply negb_true_iff in H. }
  assert (H : exists p, path_join [dir; name] = normalize p /\
                        (p = name \/ exists d, p = d ++ "/" ++ name)).
  { unfold path_join. simpl. rewrite Hne. simpl.
    destruct (String.eqb dir ""); simpl.
    - exists name. split; [reflexivity | now left].
    - exists (dir ++ "/" ++ name). split; [reflexivity | right; now exists dir]. }
  destruct H as (p & -> & Hp).
  destruct (normalize_name p name Hname Hp) as (z & Hz & ->).
  now apply basename_closed_name.
Qed.

Lemma normalize_not_empty p : normalize p <> "".
Proof.
  unfold normalize. destruct (String.eqb p ""); [discriminate|].
  destruct (String.eqb (String.concat "/" _) "") eqn:E.
  - destruct (isAbsolute p); [discriminate|]. destruct (endsWithSep p); discriminate.
  - apply String.eqb_neq in E. destruct (isAbsolute p); simpl.
    + discriminate.
    + intros H. destruct (String.concat "/" _); [congruence | discriminate].
Qed.

Lemma path_join_not_empty args : path_join args <> "".
Proof.
  unfold path_join. destruct (filter _ args); [discriminate | apply normalize_not_empty].
Qed.

End nuclideUriFacts.

(* ===================================================================== *)
(** ** Directory probe                                                    *)
(* ===================================================================== *)

Section ProbeFacts.
Context {utils : Utils} {host : Host}.

Lemma searchFiles_returns dir basename condition files :
  exists found, searchFiles dir basename condition files = Normal found.
Proof.
  induction files as [|file files IH]; simpl.
  - now exists None.
  - destruct (selects basename condition file); [eexists; reflexivity | exact IH].
Qed.

(** The loop returns the first selected entry, joined to the directory. *)
Lemma searchFiles_first dir basename condition before file after :
  Forall (fun f => selects basename condition f = false) before ->
  selects basename condition file = true ->
  searchFiles dir basename condition (before ++ file :: after)
  = Normal (Some (nuclideUri.path_join [dir; file])).
Proof.
  intros Hb Hf. induction Hb as [|f before Hf' _ IH]; simpl.
  - now rewrite Hf.
  - now rewrite Hf'.
Qed.

Lemma searchFiles_some dir basename condition files found :
  searchFiles dir basename condition files = Normal (Some found) ->
  exists file, In file files /\ condition file = true /\
               getFileBasename file = basename /\
               found = nuclideUri.path_join [dir; file].
Proof.
  induction files as [|file files IH]; simpl; [discriminate|].
  destruct (selects basename condition file) eqn:E.
  - intros [= <-]. apply andb_prop in E as [Hc Hb]. apply String.eqb_eq in Hb.
    exists file. auto.
  - intros H. destruct (IH H) as (f & Hin & Hrest). exists f. auto.
Qed.

Lemma searchFileWithBasename_unfold dir basename condition :
  searchFileWithBasename dir basename condition
  = async (searchFiles dir basename condition
             (match listing dir with Some files => files | None => [] end)).
Proof.
  unfold searchFileWithBasename, fsPromise_readdir.
  now destruct (listing dir).
Qed.

(** The probe always settles, and never with a rejection. *)
Lemma searchFileWithBasename_resolves dir basename condition :
  exists found, searchFileWithBasename dir basename condition = Resolved found.
Proof.
  rewrite searchFileWithBasename_unfold.
  destruct (searchFiles_returns dir basename condition
              (match listing dir with Some files => files | None => [] end)) as [found ->].
  now exists found.
Qed.

Lemma searchFileWithBasename_some dir basename condition found :
  searchFileWithBasename dir basename condition = Resolved (Some found) ->
  exists files file,
    listing dir = Some files /\ In file files /\ condition file = true /\
    getFileBasename file = basename /\ found = nuclideUri.path_join [dir; file].
Proof.
  rewrite searchFileWithBasename_unfold. intros H.
  destruct (searchFiles dir basename condition _) as [r|e] eqn:E; [|discriminate].
  injection H as ->. apply searchFiles_some in E as (file & Hin & Hrest).
  destruct (listing dir) as [files|]; [|contradiction].
  exists files, file. auto.
Qed.

(** C8.  When listing the directory fails (the promise of
    [fsPromise.readdir] rejects: unreadable or missing directory), the
    probe [searchFileWithBasename] goes on with zero entries and resolves
    to [null]; the failure does not reach the caller, whatever the
    directory, the basename and the role filter are. *)
Theorem C8_unreadable_directory_is_empty :
  forall (dir basename : string) (condition : string -> bool) (e : JsError),
    fsPromise_readdir dir = Rejected e ->
    searchFileWithBasename dir basename condition = Resolved None.
Proof.
  intros dir basename condition e H.
  unfold searchFileWithBasename. rewrite H. reflexivity.
Qed.

End ProbeFacts.

(* ===================================================================== *)
(** ** Framework structure                                                *)
(* ===================================================================== *)

Lemma Array_findIndex_first {A} (p : A -> bool) before x after :
  Forall (fun y => p y = false) before -> p x = true ->
  Array_findIndex p (before ++ x :: after) = Some (List.length before).
Proof.
  intros Hb Hx. induction Hb as [|y before Hy _ IH]; simpl.
  - now rewrite Hx.
  - now rewrite Hy, IH.
Qed.

Lemma skipn_past {A} (l1 : list A) x l2 :
  skipn (S (List.length l1)) (l1 ++ x :: l2) = l2.
Proof. induction l1 as [|y l1 IH]; [reflexivity | exact IH]. Qed.

Lemma firstn_upto {A} (l1 : list A) l2 :
  firstn (List.length l1) (l1 ++ l2) = l1.
Proof.
  induction l1 as [|y l1 IH]; simpl; [now destruct l2 | now rewrite IH].
Qed.

Lemma nth_past {A} (l1 : list A) x l2 d :
  nth (S (List.length l1)) (l1 ++ x :: l2) d = hd d l2.
Proof.
  induction l1 as [|y l1 IH]; [now destruct l2 | exact IH].
Qed.

Lemma not_Sources_rev (l : list string) :
  ~ In "Sources" l ->
  Forall (fun folderName => String.eqb folderName "Sources" = false) (rev l).
Proof.
  intros H. apply Forall_forall. intros x Hx. apply String.eqb_neq.
  intros ->. apply H. now apply in_rev.
Qed.

Lemma hd_rev_last {A} (l : list A) d : hd d (rev l) = last l d.
Proof.
  induction l as [|x l IH] using rev_ind; [reflexivity|].
  now rewrite rev_app_distr, last_last.
Qed.

(** What [getFrameworkStructure] computes from the segments of [dir]:
    [Sources] is looked for from the innermost segment outwards, so it is
    the last [Sources] segment that counts. *)
Lemma getFrameworkStructure_segments dir before after :
  nuclideUri.split dir = before ++ "Sources" :: after ->
  ~ In "Sources" after ->
  before <> [] ->
  getFrameworkStructure dir
  = Normal (Some {| frameworkPath := nuclideUri.path_join before;
                    frameworkName := last before "";
                    frameworkSubFolder :=
                      match after with
                      | [] => ""
                      | _ :: _ => nuclideUri.path_join after
                      end |}).
Proof.
  intros Hsplit Hafter Hbefore. unfold getFrameworkStructure.
  rewrite Hsplit, rev_app_distr. simpl rev. rewrite <- app_assoc. simpl app.
  rewrite (Array_findIndex_first _ (rev after) "Sources" (rev before));
    [| now apply not_Sources_rev | reflexivity].
  unfold Array_slice_from, Array_slice_to.
  replace (List.length (rev after) + 1) with (S (List.length (rev after))) by lia.
  assert (Hskip : skipn (S (List.length (rev after))) (rev after ++ "Sources" :: rev before)
                  = rev before).
  { apply skipn_past. }
  assert (Hfirst : firstn (List.length (rev after)) (rev after ++ "Sources" :: rev before)
                   = rev after).
  { apply firstn_upto. }
  assert (Hnth : nth (S (List.length (rev after))) (rev after ++ "Sources" :: rev before) ""
                 = last before "").
  { rewrite nth_past. apply hd_rev_last. }
  rewrite Hskip, Hfirst, Hnth, !rev_involutive.
  destruct before as [|b before]; [congruence|]. simpl nuclideUri.join at 1. simpl cbind.
  destruct after as [|a after]; [reflexivity|].
  assert (Hlen : Nat.eqb (List.length (rev (a :: after))) 0 = false).
  { apply Nat.eqb_neq. rewrite length_rev. simpl. lia. }
  rewrite Hlen. reflexivity.
Qed.

(** C9 (as the code has it).  For every directory whose segments contain
    [Sources], with a segment before it, [getFrameworkStructure] returns a
    structure whose [frameworkSubFolder] is the path of all the segments
    after the last [Sources], the directory's own last segment included;
    it is the empty string exactly when [Sources] is the last segment of
    the directory. *)
Theorem C9_frameworkSubFolder_is_what_follows_Sources :
  forall (dir : string) (before after : list string),
    nuclideUri.split dir = before ++ "Sources" :: after ->
    ~ In "Sources" after ->
    before <> [] ->
    exists st,
      getFrameworkStructure dir = Normal (Some st) /\
      frameworkSubFolder st
      = match after with [] => "" | _ :: _ => nuclideUri.path_join after end /\
      (frameworkSubFolder st = "" <-> after = []).
Proof.
  intros dir before after Hsplit Hafter Hbefore.
  eexists. split; [apply (getFrameworkStructure_segments dir before after); assumption|].
  simpl.
  split; [reflexivity|]. destruct after as [|a after].
  - split; reflexivity.
  - split; [|discriminate]. intros H.
    now apply nuclideUriFacts.path_join_not_empty in H.
Qed.

(** C9, the claim as written, fails: for the directory [Fwk/Sources/Fwk],
    directly under [Sources/<name>], the sub folder is [Fwk] and not the
    empty string. *)
Lemma C9_counterexample :
  exists st,
    getFrameworkStructure "Fwk/Sources/Fwk" = Normal (Some st) /\
    frameworkSubFolder st = "Fwk" /\
    frameworkSubFolder st <> "".
Proof.
  eexists. split; [reflexivity|]. simpl. split; [reflexivity | discriminate].
Qed.

(** The theorem of C9 at the directory [App/Fwk/Sources/Sub/Deep]. *)
Lemma C9_witness :
  (nuclideUri.split "App/Fwk/Sources/Sub/Deep" = ["App"; "Fwk"] ++ "Sources" :: ["Sub"; "Deep"]
   /\ ~ In "Sources" ["Sub"; "Deep"] /\ ["App"; "Fwk"] <> [])
  /\ exists st,
      getFrameworkStructure "App/Fwk/Sources/Sub/Deep" = Normal (Some st) /\
      frameworkSubFolder st = "Sub/Deep" /\
      (frameworkSubFolder st = "" <-> ["Sub"; "Deep"] = []).
Proof.
  assert (H1 : nuclideUri.split "App/Fwk/Sources/Sub/Deep"
               = ["App"; "Fwk"] ++ "Sources" :: ["Sub"; "Deep"]) by reflexivity.
  assert (H2 : ~ In "Sources" ["Sub"; "Deep"]).
  { simpl. intros [H|[H|[]]]; discriminate. }
  assert (H3 : ["App"; "Fwk"] <> @nil string) by discriminate.
  split; [auto|].
  exact (C9_frameworkSubFolder_is_what_follows_Sources
           "App/Fwk/Sources/Sub/Deep" ["App"; "Fwk"] ["Sub"; "Deep"] H1 H2 H3).
Defined.

(* ===================================================================== *)
(** ** Header of a source file                                            *)
(* ===================================================================== *)

Section HeaderFacts.
Context {utils : Utils} {host : Host}.

Lemma searchHeaderFolder_unfold st basename headerFolder :
  searchHeaderFolder st basename headerFolder
  = searchFileWithBasename
      (nuclideUri.path_join
         [frameworkPath st; headerFolder; frameworkName st; frameworkSubFolder st])
      basename isHeaderFile.
Proof. reflexivity. Qed.

Lemma searchHeaderFolder_resolves st basename headerFolder :
  exists found, searchHeaderFolder st basename headerFolder = Resolved found.
Proof. rewrite searchHeaderFolder_unfold. apply searchFileWithBasename_resolves. Qed.

(** The framework fallback, once the structure is known: the result of
    the [Headers] probe if it is not null, else that of the
    [PrivateHeaders] probe. *)
Lemma fromFramework_probes src st inHeaders inPrivate :
  getFrameworkStructure (nuclideUri.dirname src) = Normal (Some st) ->
  searchHeaderFolder st (getFileBasename src) "Headers" = Resolved inHeaders ->
  searchHeaderFolder st (getFileBasename src) "PrivateHeaders" = Resolved inPrivate ->
  getRelatedHeaderForSourceFromFramework src
  = Resolved (match inHeaders with Some h => Some h | None => inPrivate end).
Proof.
  intros Hst HH HP. unfold getRelatedHeaderForSourceFromFramework.
  rewrite Hst. simpl. rewrite HH, HP. simpl.
  unfold findNotNull. simpl.
  destruct inHeaders as [h|]; [reflexivity|]. simpl. now destruct inPrivate.
Qed.

(** C7.  In the framework fallback of [getRelatedHeaderForSource], the
    result of the [Headers] probe is returned whenever it finds a header,
    whatever the [PrivateHeaders] directory holds: when both hold a
    matching header, [Headers] takes priority. *)
Theorem C7_Headers_before_PrivateHeaders :
  forall (src : string) (st : FrameworkStructure) (inHeaders : string),
    searchFileWithBasename (nuclideUri.dirname src) (getFileBasename src) isHeaderFile
    = Resolved None ->
    getFrameworkStructure (nuclideUri.dirname src) = Normal (Some st) ->
    searchHeaderFolder st (getFileBasename src) "Headers" = Resolved (Some inHeaders) ->
    getRelatedHeaderForSourceFromFramework src = Resolved (Some inHeaders) /\
    getRelatedHeaderForSource src = Resolved (Some inHeaders).
Proof.
  intros src st inHeaders Hdir Hst HH.
  destruct (searchHeaderFolder_resolves st (getFileBasename src) "PrivateHeaders")
    as [inPrivate HP].
  pose proof (fromFramework_probes src st (Some inHeaders) inPrivate Hst HH HP) as H.
  split; [exact H|].
  unfold getRelatedHeaderForSource. rewrite Hdir. simpl. exact H.
Qed.

(** C3 (as the code has it).  For every file [f] whose directory lists
    an entry [h] that is a header with the basename of [f], and lists no
    such entry before [h], [getRelatedHeaderForSource f] resolves to [h]
    in that directory. *)
Theorem C3_first_header_of_the_directory :
  forall (f h : string) (before after : list string),
    listing (nuclideUri.dirname f) = Some (before ++ h :: after) ->
    isHeaderFile h = true ->
    getFileBasename h = getFileBasename f ->
    Forall (fun e => ~ (isHeaderFile e = true /\ getFileBasename e = getFileBasename f))
           before ->
    getRelatedHeaderForSource f
    = Resolved (Some (nuclideUri.path_join [nuclideUri.dirname f; h])).
Proof.
  intros f h before after Hlist Hh Hb Hbefore.
  unfold getRelatedHeaderForSource. rewrite searchFileWithBasename_unfold, Hlist.
  rewrite searchFiles_first; [reflexivity | | ].
  - apply Forall_forall. intros e He.
    rewrite Forall_forall in Hbefore. specialize (Hbefore e He).
    unfold selects. destruct (isHeaderFile e); [|reflexivity]. simpl.
    apply String.eqb_neq. intros Heq. apply Hbefore. auto.
  - unfold selects. rewrite Hh, Hb. apply String.eqb_refl.
Qed.

(** Every path the finder returns is an entry of some directory, joined
    to that directory, that is a header with the basename of [src]. *)
Lemma getRelatedHeaderForSource_entry src p :
  getRelatedHeaderForSource src = Resolved (Some p) ->
  exists dir files file,
    listing dir = Some files /\ In file files /\
    isHeaderFile file = true /\ getFileBasename file = getFileBasename src /\
    p = nuclideUri.path_join [dir; file].
Proof.
  unfold getRelatedHeaderForSource.
  destruct (searchFileWithBasename_resolves
              (nuclideUri.dirname src) (getFileBasename src) isHeaderFile) as [found Hf].
  rewrite Hf. simpl. destruct found as [h|].
  - intros [= ->]. apply searchFileWithBasename_some in Hf as (files & file & H).
    exists (nuclideUri.dirname src), files, file. exact H.
  - unfold getRelatedHeaderForSourceFromFramework.
    destruct (getFrameworkStructure (nuclideUri.dirname src)) as [[st|]|e];
      simpl; try discriminate.
    destruct (searchHeaderFolder_resolves st (getFileBasename src) "Headers")
      as [inHeaders HH].
    destruct (searchHeaderFolder_resolves st (getFileBasename src) "PrivateHeaders")
      as [inPrivate HP].
    rewrite HH, HP. simpl. unfold findNotNull. simpl.
    rewrite searchHeaderFolder_unfold in HH, HP.
    destruct inHeaders as [h|]; simpl.
    + intros [= ->]. apply searchFileWithBasename_some in HH as (files & file & H).
      eexists _, files, file. exact H.
    + destruct inPrivate as [h|]; simpl; [|discriminate].
      intros [= ->]. apply searchFileWithBasename_some in HP as (files & file & H).
      eexists _, files, file. exact H.
Qed.

(** C10.  On a host whose directories list file names, and with a
    basename function that looks at the file name of a path only,
    whenever [getRelatedHeaderForSource src] resolves to a path [p]
    (from the directory of [src] or from the framework fallback), the
    file name of [p] satisfies [isHeaderFile] and the basename of [p] is
    that of [src]. *)
Theorem C10_result_is_a_header_companion :
  forall (src p : string),
    (forall dir files, listing dir = Some files -> Forall (fun e => isEntryName e = true) files) ->
    (forall q, getFileBasename q = getFileBasename (nuclideUri.basename q)) ->
    getRelatedHeaderForSource src = Resolved (Some p) ->
    isHeaderFile (nuclideUri.basename p) = true /\
    getFileBasename p = getFileBasename src.
Proof.
  intros src p Hnames Hbase H.
  apply getRelatedHeaderForSource_entry in H
    as (dir & files & file & Hlist & Hin & Hheader & Hsame & ->).
  assert (Hname : isEntryName file = true).
  { specialize (Hnames dir files Hlist). rewrite Forall_forall in Hnames. auto. }
  rewrite Hbase, (nuclideUriFacts.basename_join dir file Hname), Hheader, Hsame. auto.
Qed.

End HeaderFacts.

(* ===================================================================== *)
(** ** The fixture                                                        *)
(* ===================================================================== *)

Module FixtureFacts.
Import nuclideUri Fixture.

Lemma takeWhile_forallb {A} (p : A -> bool) l : forallb p (takeWhile p l) = true.
Proof.
  induction l as [|x l IH]; simpl; [reflexivity|].
  destruct (p x) eqn:E; simpl; [now rewrite E | reflexivity].
Qed.

Lemma basename_idempotent q : basename (basename q) = basename q.
Proof.
  unfold basename.
  set (t := takeWhile notSep (dropWhile isSep (rev (chars q)))).
  assert (Ht : forallb notSep t = true) by apply takeWhile_forallb.
  rewrite chars_str, rev_involutive.
  assert (Hd : dropWhile isSep t = t).
  { destruct t as [|c t']; [reflexivity|]. simpl in *.
    apply andb_prop in Ht as [Hc _]. unfold notSep in Hc.
    apply negb_true_iff in Hc. now rewrite Hc. }
  rewrite Hd. rewrite <- (app_nil_r t) at 1.
  rewrite nuclideUriFacts.takeWhile_all; auto.
Qed.

(** The fixture's basename looks at the file name of the path only. *)
Lemma getFileBasename_of_name q :
  getFileBasename q = getFileBasename (nuclideUri.basename q).
Proof.
  simpl. unfold splitExtension. now rewrite basename_idempotent.
Qed.

Lemma stripPrefix_In prefix l entry others :
  stripPrefix prefix l = Some (entry :: others) -> In entry l.
Proof.
  revert l. induction prefix as [|p prefix IH]; intros l; simpl.
  - intros [= ->]. now left.
  - destruct l as [|x l]; [discriminate|].
    destruct (String.eqb p x); [|discriminate]. intros H. right. now apply IH.
Qed.

(** The entries of a tree are segments of its files. *)
Lemma treeListing_In files dir entries entry :
  treeListing files dir = Some entries -> In entry entries ->
  In entry (flat_map segmentsOf files).
Proof.
  unfold treeListing. intros H Hin.
  destruct (nodup string_dec _) as [|e es] eqn:E; [discriminate|].
  injection H as <-. rewrite <- E in Hin. apply nodup_In in Hin.
  apply in_flat_map in Hin as (f & Hf & Hin). apply in_flat_map.
  exists f. split; [exact Hf|].
  destruct (stripPrefix (segmentsOf dir) (segmentsOf f)) as [[|x others]|] eqn:Es;
    try contradiction.
  destruct Hin as [<-|[]]. eapply stripPrefix_In. exact Es.
Qed.

Lemma treeListing_names files :
  forallb isEntryName (flat_map segmentsOf files) = true ->
  forall dir entries,
    treeListing files dir = Some entries -> Forall (fun e => isEntryName e = true) entries.
Proof.
  intros Hall dir entries H. apply Forall_forall. intros e He.
  rewrite forallb_forall in Hall. apply Hall. eapply treeListing_In; eauto.
Qed.

End FixtureFacts.

(* ===================================================================== *)
(** ** The framework layout and the directory probe on concrete trees     *)
(* ===================================================================== *)

Section ConcreteTrees.
Import Fixture.

(** C2, the claim as written, fails: with [Fwk/Sources/Fwk/Sub/Foo.m]
    and [Fwk/Headers/Sub/Foo.h] in the tree, the finder resolves to
    [null]; the directory [Fwk/Headers/Sub] is not probed. *)
Lemma C2_counterexample :
  getRelatedHeaderForSource (host := onTree specLayout) "Fwk/Sources/Fwk/Sub/Foo.m"
  = Resolved None
  /\ getRelatedHeaderForSource (host := onTree specLayout) "Fwk/Sources/Fwk/Sub/Foo.m"
     <> Resolved (Some "Fwk/Headers/Sub/Foo.h").
Proof. split; [vm_compute; reflexivity | vm_compute; discriminate]. Qed.

(** C2 (as the code has it).  For [Fwk/Sources/Fwk/Sub/Foo.m] the
    framework is [Fwk], its name [Fwk] (the segment before [Sources]) and
    the sub folder [Fwk/Sub] (all that follows [Sources]); the header is
    looked for in [Fwk/Headers/Fwk/Fwk/Sub], and with
    [Fwk/Headers/Fwk/Fwk/Sub/Foo.h] in the tree the finder resolves to
    it. *)
Theorem C2_framework_layout :
  getFrameworkStructure (nuclideUri.dirname "Fwk/Sources/Fwk/Sub/Foo.m")
  = Normal (Some {| frameworkPath := "Fwk";
                    frameworkName := "Fwk";
                    frameworkSubFolder := "Fwk/Sub" |})
  /\ getRelatedHeaderForSource (host := onTree codeLayout) "Fwk/Sources/Fwk/Sub/Foo.m"
     = Resolved (Some "Fwk/Headers/Fwk/Fwk/Sub/Foo.h").
Proof. split; vm_compute; reflexivity. Qed.

(** C3, the claim as written, fails: [proj/Foo.hpp] is a header next to
    the source [proj/Foo.m], with its basename, and the finder resolves
    to [proj/Foo.h], listed before it. *)
Lemma C3_counterexample :
  isSourceFile "proj/Foo.m" = true
  /\ isHeaderFile "proj/Foo.hpp" = true
  /\ nuclideUri.dirname "proj/Foo.hpp" = nuclideUri.dirname "proj/Foo.m"
  /\ getFileBasename "proj/Foo.hpp" = getFileBasename "proj/Foo.m"
  /\ listing (Host := onTree twoHeaders) "proj" = Some ["Foo.h"; "Foo.hpp"; "Foo.m"]
  /\ getRelatedHeaderForSource (host := onTree twoHeaders) "proj/Foo.m"
     = Resolved (Some "proj/Foo.h")
  /\ getRelatedHeaderForSource (host := onTree twoHeaders) "proj/Foo.m"
     <> Resolved (Some "proj/Foo.hpp").
Proof. repeat split; vm_compute; (reflexivity || discriminate). Qed.

(** The theorem of C3 at [proj/Foo.m], with [Foo.h] listed first. *)
Lemma C3_witness :
  (listing (Host := onTree twoHeaders) (nuclideUri.dirname "proj/Foo.m")
   = Some ([] ++ "Foo.h" :: ["Foo.hpp"; "Foo.m"])
   /\ isHeaderFile "Foo.h" = true
   /\ getFileBasename "Foo.h" = getFileBasename "proj/Foo.m"
   /\ Forall (fun e => ~ (isHeaderFile e = true
                          /\ getFileBasename e = getFileBasename "proj/Foo.m")) [])
  /\ getRelatedHeaderForSource (host := onTree twoHeaders) "proj/Foo.m"
     = Resolved (Some "proj/Foo.h").
Proof.
  assert (H1 : listing (Host := onTree twoHeaders) (nuclideUri.dirname "proj/Foo.m")
               = Some ([] ++ "Foo.h" :: ["Foo.hpp"; "Foo.m"])) by (vm_compute; reflexivity).
  assert (H2 : isHeaderFile "Foo.h" = true) by (vm_compute; reflexivity).
  assert (H3 : getFileBasename "Foo.h" = getFileBasename "proj/Foo.m")
    by (vm_compute; reflexivity).
  assert (H4 : Forall (fun e => ~ (isHeaderFile e = true
                          /\ getFileBasename e = getFileBasename "proj/Foo.m")) [])
    by constructor.
  split; [auto|].
  exact (C3_first_header_of_the_directory (host := onTree twoHeaders)
           "proj/Foo.m" "Foo.h" [] ["Foo.hpp"; "Foo.m"] H1 H2 H3 H4).
Defined.

(** The theorem of C7 on a tree with [Foo.h] under both [Headers] and
    [PrivateHeaders]. *)
Lemma C7_witness :
  (searchFileWithBasename (host := onTree bothLayout)
     (nuclideUri.dirname "Fwk/Sources/Sub/Foo.m") (getFileBasename "Fwk/Sources/Sub/Foo.m")
     isHeaderFile = Resolved None
   /\ getFrameworkStructure (nuclideUri.dirname "Fwk/Sources/Sub/Foo.m") = Normal (Some fwk)
   /\ searchHeaderFolder (host := onTree bothLayout) fwk
        (getFileBasename "Fwk/Sources/Sub/Foo.m") "Headers"
      = Resolved (Some "Fwk/Headers/Fwk/Sub/Foo.h")
   /\ searchHeaderFolder (host := onTree bothLayout) fwk
        (getFileBasename "Fwk/Sources/Sub/Foo.m") "PrivateHeaders"
      = Resolved (Some "Fwk/PrivateHeaders/Fwk/Sub/Foo.h"))
  /\ getRelatedHeaderForSourceFromFramework (host := onTree bothLayout) "Fwk/Sources/Sub/Foo.m"
     = Resolved (Some "Fwk/Headers/Fwk/Sub/Foo.h")
  /\ getRelatedHeaderForSource (host := onTree bothLayout) "Fwk/Sources/Sub/Foo.m"
     = Resolved (Some "Fwk/Headers/Fwk/Sub/Foo.h").
Proof.
  assert (H1 : searchFileWithBasename (host := onTree bothLayout)
     (nuclideUri.dirname "Fwk/Sources/Sub/Foo.m") (getFileBasename "Fwk/Sources/Sub/Foo.m")
     isHeaderFile = Resolved None) by (vm_compute; reflexivity).
  assert (H2 : getFrameworkStructure (nuclideUri.dirname "Fwk/Sources/Sub/Foo.m")
               = Normal (Some fwk)) by (vm_compute; reflexivity).
  assert (H3 : searchHeaderFolder (host := onTree bothLayout) fwk
        (getFileBasename "Fwk/Sources/Sub/Foo.m") "Headers"
      = Resolved (Some "Fwk/Headers/Fwk/Sub/Foo.h")) by (vm_compute; reflexivity).
  assert (H4 : searchHeaderFolder (host := onTree bothLayout) fwk
        (getFileBasename "Fwk/Sources/Sub/Foo.m") "PrivateHeaders"
      = Resolved (Some "Fwk/PrivateHeaders/Fwk/Sub/Foo.h")) by (vm_compute; reflexivity).
  split; [auto|].
  exact (C7_Headers_before_PrivateHeaders (host := onTree bothLayout)
           "Fwk/Sources/Sub/Foo.m" fwk "Fwk/Headers/Fwk/Sub/Foo.h" H1 H2 H3).
Defined.

(** The theorem of C8 at a directory the tree does not have. *)
Lemma C8_witness :
  fsPromise_readdir (host := onTree codeLayout) "Fwk/Missing"
  = Rejected (IOError "ENOENT: no such file or directory, scandir")
  /\ searchFileWithBasename (host := onTree codeLayout) "Fwk/Missing" "Foo" isHeaderFile
     = Resolved None.
Proof.
  assert (H : fsPromise_readdir (host := onTree codeLayout) "Fwk/Missing"
              = Rejected (IOError "ENOENT: no such file or directory, scandir"))
    by (vm_compute; reflexivity).
  split; [exact H|].
  exact (C8_unreadable_directory_is_empty (host := onTree codeLayout)
           "Fwk/Missing" "Foo" isHeaderFile _ H).
Defined.

(** The theorem of C10 on the same tree, with the fixture's classifier. *)
Lemma C10_witness :
  getRelatedHeaderForSource (host := onTree bothLayout) "Fwk/Sources/Sub/Foo.m"
  = Resolved (Some "Fwk/Headers/Fwk/Sub/Foo.h")
  /\ isHeaderFile (nuclideUri.basename "Fwk/Headers/Fwk/Sub/Foo.h") = true
  /\ getFileBasename "Fwk/Headers/Fwk/Sub/Foo.h" = getFileBasename "Fwk/Sources/Sub/Foo.m".
Proof.
  assert (H : getRelatedHeaderForSource (host := onTree bothLayout) "Fwk/Sources/Sub/Foo.m"
              = Resolved (Some "Fwk/Headers/Fwk/Sub/Foo.h")) by (vm_compute; reflexivity).
  split; [exact H|].
  exact (C10_result_is_a_header_companion (host := onTree bothLayout)
           "Fwk/Sources/Sub/Foo.m" "Fwk/Headers/Fwk/Sub/Foo.h"
           (FixtureFacts.treeListing_names bothLayout eq_refl)
           FixtureFacts.getFileBasename_of_name H).
Defined.

End ConcreteTrees.

(* ===================================================================== *)
(** ** Observables                                                        *)
(* ===================================================================== *)

Module RxFacts.
Import Rx.

Lemma emitAll_nil {A} t (o : Observable A) : emitAll t [] o = o.
Proof. now destruct o. Qed.

(** [take(1)] delivers nothing, or one value and completes with it. *)
Lemma take1_cases {A} (o : Observable A) :
  (take 1 o = mkObservable [] (ending o) /\ emissions o = []) \/
  (exists t v rest, emissions o = (t, v) :: rest /\
                    take 1 o = mkObservable [(t, v)] (Completed t)).
Proof.
  unfold take. destruct (emissions o) as [|[t v] rest]; simpl.
  - now left.
  - right. now exists t, v, rest.
Qed.

(** [flatMap] goes past the values that are projected to an empty
    observable. *)
Lemma flatMapFrom_skip {A B} (project : A -> Completion (Sync B)) before rest e :
  Forall (fun x => project (snd x) = Normal []) before ->
  flatMapFrom project (before ++ rest) e = flatMapFrom project rest e.
Proof.
  intros H. induction H as [|[t a] before Ha _ IH]; simpl; [reflexivity|].
  simpl in Ha. now rewrite Ha, emitAll_nil.
Qed.

Lemma catch_emissions {A} (o : Observable A) selector before x after :
  emissions o = before ++ x :: after ->
  exists after', emissions (catch o selector) = before ++ x :: after'.
Proof.
  intros H. unfold catch. destruct (ending o); simpl; rewrite H.
  - now exists after.
  - rewrite <- app_assoc. simpl. now eexists.
  - now exists after.
Qed.

Lemma timeoutFrom_ends {A} due last (es : list (Time * A)) e :
  ending (timeoutFrom due last es e) <> Unfinished.
Proof.
  revert last. induction es as [|[t a] es IH]; intros last; simpl.
  - destruct e; simpl; try destruct (inTime due last t); discriminate.
  - destruct (inTime due last t); simpl; [apply IH | discriminate].
Qed.

(** A caught, timed observable always completes: its promise resolves. *)
Lemma toPromise_catch_timeout {A} (undefined : A) due (o : Observable A) selector :
  exists v, toPromise undefined (catch (timeout due o) selector) = Resolved v.
Proof.
  unfold toPromise, catch, timeout.
  pose proof (timeoutFrom_ends due 0%N (emissions o) (ending o)) as H.
  destruct (ending (timeoutFrom due 0%N (emissions o) (ending o))) eqn:E; simpl.
  - rewrite E. now eexists.
  - now eexists.
  - congruence.
Qed.

Lemma timeout_late {A} due (o : Observable A) :
  late due o -> timeout due o = mkObservable [] (Failed due TimeoutError).
Proof.
  intros [Hes He]. unfold timeout.
  assert (Hin : forall t, N.le due t -> inTime due 0%N t = false).
  { intros t Ht. unfold inTime. apply N.ltb_ge. simpl. exact Ht. }
  destruct (emissions o) as [|[t a] es]; simpl.
  - destruct (ending o) as [t|t err|]; simpl; try rewrite (Hin t He); reflexivity.
  - inversion Hes; subst. simpl in *. now rewrite Hin.
Qed.

Lemma late_catch {A} due (o : Observable A) selector :
  late due o -> late due (catch o selector).
Proof.
  intros [Hes He]. unfold catch. destruct (ending o) as [t|t err|] eqn:E.
  - split; [exact Hes | now rewrite E].
  - split; simpl; [|exact He]. apply Forall_app. split; [exact Hes|].
    apply Forall_forall. intros [t' x] Hx. apply in_map_iff in Hx as (y & [= <- <-] & _).
    exact He.
  - split; [exact Hes | now rewrite E].
Qed.

Lemma late_flatMap {A B} due (o : Observable A) (project : A -> Completion (Sync B)) :
  late due o -> late due (flatMap o project).
Proof.
  intros [Hes He]. unfold flatMap.
  induction Hes as [|[t a] es Ht _ IH]; simpl.
  - split; [constructor | exact He].
  - destruct (project a) as [bs|err]; simpl.
    + destruct IH as [IH1 IH2]. split; [|exact IH2]. simpl.
      apply Forall_app. split; [|exact IH1].
      apply Forall_forall. intros [t' x] Hx.
      apply in_map_iff in Hx as (y & [= <- <-] & _). exact Ht.
    + split; [constructor | exact Ht].
Qed.

Lemma late_take1 {A} due (o : Observable A) : late due o -> late due (take 1 o).
Proof.
  intros [Hes He]. destruct (take1_cases o) as [[-> _]|(t & v & rest & Hem & ->)].
  - split; [constructor | exact He].
  - rewrite Hem in Hes. inversion Hes; subst. split; simpl; auto.
Qed.

End RxFacts.

(* ===================================================================== *)
(** ** Matching, step by step                                             *)
(* ===================================================================== *)

Module RegExpFacts.
Import RegExp.

Lemma matcher_Seq r1 r2 x k :
  matcher (Seq r1 r2) x k = matcher r1 x (fun y => matcher r2 y k).
Proof. reflexivity. Qed.

Lemma matcher_Group n r x k :
  matcher (Group n r) x k
  = matcher r x
      (fun y => k (mkState (index y) (rest y)
                     ((n, firstn (index y - index x) (rest x))
                        :: clearCaptures [n] (captures y)))).
Proof. reflexivity. Qed.

Lemma matcher_Bol x k : index x = 0 -> matcher Bol x k = k x.
Proof. intros H. simpl. now rewrite H. Qed.

Lemma matcher_Eol x k : rest x = [] -> matcher Eol x k = k x.
Proof. intros H. simpl. now rewrite H. Qed.

Lemma matcher_Empty x k : matcher Empty x k = k x.
Proof. reflexivity. Qed.

(** A literal text at the head of the input is consumed as a whole. *)
Lemma matcher_literalThen (s : list ascii) :
  forall (r : Pattern) (x : State) (k : Cont) tail,
    rest x = s ++ tail ->
    matcher (literalThen s r) x k
    = matcher r (mkState (index x + List.length s) tail (captures x)) k.
Proof.
  induction s as [|c s IH]; intros r x k tail Hrest; simpl.
  - rewrite Nat.add_0_r. destruct x; simpl in *. now subst.
  - unfold step1. rewrite Hrest. simpl. rewrite Ascii.eqb_refl.
    rewrite (IH r (mkState (S (index x)) (s ++ tail) (captures x)) k tail eq_refl).
    simpl. f_equal. f_equal. lia.
Qed.

Lemma matcher_Star_Space_stop x k :
  startsWithSpace (rest x) = false -> matcher (Star Space) x k = k x.
Proof.
  intros H. simpl. unfold step1. simpl.
  destruct (rest x) as [|c tl]; simpl in *; [reflexivity | now rewrite H].
Qed.

Lemma matcher_Plus_Space_one x k c tl :
  rest x = c :: tl -> isWhiteSpace c = true -> startsWithSpace tl = false ->
  matcher (Plus Space) x k = k (mkState (S (index x)) tl (clearCaptures [] (captures x))).
Proof.
  intros Hrest Hc Htl. simpl. unfold step1. simpl. rewrite Hrest, Hc. simpl.
  unfold step1. simpl.
  destruct tl as [|c' tl']; simpl in *; [reflexivity | now rewrite Htl].
Qed.

Lemma matcher_Class cs x k c tl :
  rest x = c :: tl -> existsb (Ascii.eqb c) cs = true ->
  matcher (Class cs) x k = k (mkState (S (index x)) tl (captures x)).
Proof. intros Hrest Hc. simpl. unfold step1. now rewrite Hrest, Hc. Qed.

(** The first alternative wins when the rest of the pattern matches
    after it. *)
Lemma matcher_Alt_left r1 r2 x k y :
  matcher r1 x k = Some y -> matcher (Alt r1 r2) x k = Some y.
Proof. intros H. simpl. now rewrite H. Qed.

Lemma advances_refl x : advances x x.
Proof. split; lia. Qed.

Lemma advances_trans x y z : advances x y -> advances y z -> advances x z.
Proof. unfold advances. intros [] []. split; lia. Qed.

Lemma step1_ext ok x k k' :
  (forall y, advances x y -> k y = k' y) -> step1 ok x k = step1 ok x k'.
Proof.
  intros H. unfold step1. destruct (rest x) as [|c tl] eqn:E; [reflexivity|].
  destruct (ok c); [|reflexivity]. apply H. unfold advances. simpl. rewrite E. simpl. lia.
Qed.

Lemma repeat_ext body gs :
  (forall x k k', (forall y, advances x y -> k y = k' y) -> body x k = body x k') ->
  forall fuel x k k',
    (forall y, advances x y -> k y = k' y) ->
    repeat body gs fuel x k = repeat body gs fuel x k'.
Proof.
  intros Hbody. induction fuel as [|fuel IH]; intros x k k' H; simpl.
  - apply H, advances_refl.
  - rewrite (H x (advances_refl x)).
    erewrite Hbody; [reflexivity|].
    intros y Hy. simpl. destruct (Nat.eqb (index y) (index x)); [reflexivity|].
    apply IH. intros z Hz. apply H. eapply advances_trans; [|exact Hz]. exact Hy.
Qed.

(** The matcher calls its continuation on states further along the same
    input only. *)
Lemma matcher_ext r :
  forall x k k', (forall y, advances x y -> k y = k' y) -> matcher r x k = matcher r x k'.
Proof.
  induction r; intros x k k' H; cbn [matcher].
  - apply H, advances_refl.
  - now apply step1_ext.
  - now apply step1_ext.
  - now apply step1_ext.
  - now apply step1_ext.
  - destruct (Nat.eqb (index x) 0); [apply H, advances_refl | reflexivity].
  - destruct (rest x); [apply H, advances_refl | reflexivity].
  - apply IHr1. intros y Hy. apply IHr2. intros z Hz. apply H.
    eapply advances_trans; eauto.
  - rewrite (IHr1 x k k' H), (IHr2 x k k' H). reflexivity.
  - apply repeat_ext; auto.
  - apply IHr. intros y Hy. apply repeat_ext; auto.
    intros z Hz. apply H. eapply advances_trans; eauto.
  - apply IHr. intros y Hy. apply H. exact Hy.
Qed.

(** The fuel of [repeat] is never used up: with more than the length of
    the input left, one more unit does not change the result. *)
Lemma repeat_fuel r gs :
  forall fuel x k,
    List.length (rest x) < fuel ->
    repeat (matcher r) gs (S fuel) x k = repeat (matcher r) gs fuel x k.
Proof.
  induction fuel as [|fuel IH]; intros x k Hlen; [lia|].
  change (repeat (matcher r) gs (S (S fuel)) x k)
    with (orElse
            (matcher r (mkState (index x) (rest x) (clearCaptures gs (captures x)))
               (fun y => if Nat.eqb (index y) (index x) then None
                         else repeat (matcher r) gs (S fuel) y k))
            (fun _ => k x)).
  change (repeat (matcher r) gs (S fuel) x k)
    with (orElse
            (matcher r (mkState (index x) (rest x) (clearCaptures gs (captures x)))
               (fun y => if Nat.eqb (index y) (index x) then None
                         else repeat (matcher r) gs fuel y k))
            (fun _ => k x)).
  f_equal. apply matcher_ext. intros y [Hsum Hle]. simpl in Hsum, Hle.
  destruct (Nat.eqb (index y) (index x)) eqn:E; [reflexivity|].
  apply Nat.eqb_neq in E. apply IH. lia.
Qed.

Lemma repeat_enough r gs extra x k :
  repeat (matcher r) gs (S (List.length (rest x)) + extra) x k
  = repeat (matcher r) gs (S (List.length (rest x))) x k.
Proof.
  induction extra as [|extra IH].
  - now rewrite Nat.add_0_r.
  - rewrite <- IH. rewrite Nat.add_succ_r. apply repeat_fuel. lia.
Qed.
(** *** Reading the include pattern *)

(** The characters that [escapeStringRegExp] escapes are the syntax
    characters of the pattern language. *)
Lemma isRegExpSpecial_syntax c : isRegExpSpecial c = isSyntaxCharacter c.
Proof. destruct c as [[] [] [] [] [] [] [] []]; reflexivity. Qed.

Lemma parseQuantifier_none a input :
  quantifierFree input = true -> parseQuantifier a input = Some (a, input).
Proof.
  destruct input as [|c rest]; simpl; [reflexivity|].
  intros H. apply negb_true_iff in H.
  apply orb_false_elim in H as [H H4]. apply orb_false_elim in H as [H H3].
  apply orb_false_elim in H as [H1 H2]. now rewrite H1, H2, H3, H4.
Qed.

Lemma isRegExpSpecial_cases c :
  isRegExpSpecial c = true ->
  In c (chars "|\{}()[]^$+*?.").
Proof.
  unfold isRegExpSpecial. intros H. apply existsb_exists in H as (x & Hin & Hx).
  apply Ascii.eqb_eq in Hx. now subst.
Qed.

Lemma quantifierFree_escape s tail :
  quantifierFree tail = true -> quantifierFree (escapeChars s ++ tail) = true.
Proof.
  intros H. destruct s as [|c s]; simpl; [exact H|].
  destruct (isRegExpSpecial c) eqn:E; simpl; [reflexivity|].
  unfold isRegExpSpecial in E. simpl in E.
  repeat (apply orb_false_elim in E as [? E]).
  repeat match goal with H : (_ =? _)%char = false |- _ => rewrite H; clear H end.
  reflexivity.
Qed.

Lemma parseAlternative_literal s :
  forall fuel n tail,
    quantifierFree tail = true ->
    parseAlternative (List.length s + fuel) n (escapeChars s ++ tail)
    = match parseAlternative fuel n tail with
      | Some (r, n', rest) => Some (literalThen s r, n', rest)
      | None => None
      end.
Proof.
  induction s as [|c s IH]; intros fuel n tail Hq.
  - simpl. destruct (parseAlternative fuel n tail) as [[[r n'] rest]|]; reflexivity.
  - pose proof (quantifierFree_escape s tail Hq) as Hq'.
    pose proof (IH fuel n tail Hq) as IH'.
    destruct (isRegExpSpecial c) eqn:E.
    + apply isRegExpSpecial_cases in E. simpl in E.
      repeat (destruct E as [<-|E]; [
        simpl; rewrite (parseQuantifier_none _ _ Hq'), IH';
        destruct (parseAlternative fuel n tail) as [[[r n'] rest]|]; reflexivity |]).
      contradiction.
    + simpl escapeChars. rewrite E. simpl app. simpl List.length. simpl Nat.add.
      cbn [parseAlternative]. rewrite <- isRegExpSpecial_syntax, E.
      unfold isRegExpSpecial in E. simpl in E.
      repeat (apply orb_false_elim in E as [? E]).
      repeat match goal with H : (_ =? _)%char = false |- _ => rewrite H; clear H end.
      simpl. rewrite (parseQuantifier_none _ _ Hq'), IH'.
      destruct (parseAlternative fuel n tail) as [[[r n'] rest]|]; reflexivity.
Qed.

Lemma length_escapeChars s : List.length s <= List.length (escapeChars s).
Proof.
  induction s as [|c s IH]; simpl; [lia|].
  destruct (isRegExpSpecial c); simpl; lia.
Qed.

Section Steps.
Variables (n : nat).

Lemma alt_stop input fuel :
  stops input = true -> 1 <= fuel ->
  parseAlternative fuel n input = Some (Empty, n, input).
Proof.
  intros Hs Hf. destruct fuel as [|f]; [lia|]. destruct input as [|c rest]; [reflexivity|].
  simpl in Hs. simpl. now rewrite Hs.
Qed.

Lemma alt_Bol rest tl n2 r3 :
  (forall g, 2 * List.length rest + 1 <= g -> parseAlternative g n rest = Some (tl, n2, r3)) ->
  forall fuel, 2 * List.length ("^"%char :: rest) + 1 <= fuel ->
  parseAlternative fuel n ("^"%char :: rest) = Some (Seq Bol tl, n2, r3).
Proof.
  intros H fuel Hf. destruct fuel as [|f]; [lia|]. simpl in Hf. simpl.
  rewrite H by lia. reflexivity.
Qed.

Lemma alt_Eol rest tl n2 r3 :
  (forall g, 2 * List.length rest + 1 <= g -> parseAlternative g n rest = Some (tl, n2, r3)) ->
  forall fuel, 2 * List.length ("$"%char :: rest) + 1 <= fuel ->
  parseAlternative fuel n ("$"%char :: rest) = Some (Seq Eol tl, n2, r3).
Proof.
  intros H fuel Hf. destruct fuel as [|f]; [lia|]. simpl in Hf. simpl.
  rewrite H by lia. reflexivity.
Qed.

Lemma alt_Dot rest tl n2 r3 :
  quantifierFree rest = true ->
  (forall g, 2 * List.length rest + 1 <= g -> parseAlternative g n rest = Some (tl, n2, r3)) ->
  forall fuel, 2 * List.length ("."%char :: rest) + 1 <= fuel ->
  parseAlternative fuel n ("."%char :: rest) = Some (Seq Dot tl, n2, r3).
Proof.
  intros Hq H fuel Hf. destruct fuel as [|f]; [lia|]. simpl in Hf. simpl.
  rewrite (parseQuantifier_none _ _ Hq), H by lia. reflexivity.
Qed.

Lemma alt_Space_Star rest tl n2 r3 :
  (forall g, 2 * List.length rest + 1 <= g -> parseAlternative g n rest = Some (tl, n2, r3)) ->
  forall fuel, 2 * List.length ("\"%char :: "s"%char :: "*"%char :: rest) + 1 <= fuel ->
  parseAlternative fuel n ("\"%char :: "s"%char :: "*"%char :: rest)
  = Some (Seq (Star Space) tl, n2, r3).
Proof.
  intros H fuel Hf. destruct fuel as [|f]; [lia|]. simpl in Hf. simpl.
  rewrite H by lia. reflexivity.
Qed.

Lemma alt_Space_Plus rest tl n2 r3 :
  (forall g, 2 * List.length rest + 1 <= g -> parseAlternative g n rest = Some (tl, n2, r3)) ->
  forall fuel, 2 * List.length ("\"%char :: "s"%char :: "+"%char :: rest) + 1 <= fuel ->
  parseAlternative fuel n ("\"%char :: "s"%char :: "+"%char :: rest)
  = Some (Seq (Plus Space) tl, n2, r3).
Proof.
  intros H fuel Hf. destruct fuel as [|f]; [lia|]. simpl in Hf. simpl.
  rewrite H by lia. reflexivity.
Qed.

Lemma alt_Class body cs rest tl n2 r3 :
  parseClass body = Some (cs, rest) ->
  quantifierFree rest = true ->
  List.length rest <= List.length body ->
  (forall g, 2 * List.length rest + 1 <= g -> parseAlternative g n rest = Some (tl, n2, r3)) ->
  forall fuel, 2 * List.length ("["%char :: body) + 1 <= fuel ->
  parseAlternative fuel n ("["%char :: body) = Some (Seq (Class cs) tl, n2, r3).
Proof.
  intros Hc Hq Hlen H fuel Hf. destruct fuel as [|f]; [lia|]. simpl in Hf. simpl.
  rewrite Hc, (parseQuantifier_none _ _ Hq), H by lia. reflexivity.
Qed.

Lemma alt_literal s tail r n' rest :
  quantifierFree tail = true ->
  (forall g, 2 * List.length tail + 1 <= g -> parseAlternative g n tail = Some (r, n', rest)) ->
  forall fuel, 2 * List.length (escapeChars s ++ tail) + 1 <= fuel ->
  parseAlternative fuel n (escapeChars s ++ tail) = Some (literalThen s r, n', rest).
Proof.
  intros Hq H fuel Hf. rewrite length_app in Hf.
  pose proof (length_escapeChars s) as Hs.
  replace fuel with (List.length s + (fuel - List.length s)) by lia.
  rewrite parseAlternative_literal by exact Hq. rewrite H by lia. reflexivity.
Qed.

Lemma alt_Char c rest tl n2 r3 :
  isRegExpSpecial c = false ->
  quantifierFree rest = true ->
  (forall g, 2 * List.length rest + 1 <= g -> parseAlternative g n rest = Some (tl, n2, r3)) ->
  forall fuel, 2 * List.length (c :: rest) + 1 <= fuel ->
  parseAlternative fuel n (c :: rest) = Some (Seq (Char c) tl, n2, r3).
Proof.
  intros Hc Hq H fuel Hf.
  pose proof (alt_literal [c] rest tl n2 r3 Hq H fuel) as Hl.
  simpl in Hl. rewrite Hc in Hl. apply Hl. exact Hf.
Qed.

Lemma alt_Group body r n1 after t after' tl n2 r3 :
  (forall g, 2 * List.length body + 2 <= g ->
             parseDisjunction g (S n) body = Some (r, n1, ")"%char :: after)) ->
  parseQuantifier (Group (S n) r) after = Some (t, after') ->
  List.length after' <= List.length body ->
  (forall g, 2 * List.length after' + 1 <= g -> parseAlternative g n1 after' = Some (tl, n2, r3)) ->
  forall fuel, 2 * List.length ("("%char :: body) + 1 <= fuel ->
  parseAlternative fuel n ("("%char :: body) = Some (Seq t tl, n2, r3).
Proof.
  intros Hin Hq Hlen H fuel Hf. destruct fuel as [|f]; [lia|]. simpl in Hf.
  cbn [parseAlternative]. simpl orb. cbv iota.
  change (Ascii.eqb "(" "^") with false. change (Ascii.eqb "(" "$") with false.
  change (Ascii.eqb "(" ".") with false. change (Ascii.eqb "(" "\") with false.
  change (Ascii.eqb "(" "[") with false. change (Ascii.eqb "(" "(") with true.
  cbv iota. rewrite Hin by lia. change (Ascii.eqb ")" ")") with true. cbv iota.
  rewrite Hq, H by lia. reflexivity.
Qed.

Lemma disj_single input a n1 rest :
  (forall g, 2 * List.length input + 1 <= g -> parseAlternative g n input = Some (a, n1, rest)) ->
  startsWithBar rest = false ->
  forall fuel, 2 * List.length input + 2 <= fuel ->
  parseDisjunction fuel n input = Some (a, n1, rest).
Proof.
  intros H Hb fuel Hf. destruct fuel as [|f]; [lia|]. cbn [parseDisjunction].
  rewrite H by lia. destruct rest as [|c rest']; [reflexivity|].
  simpl in Hb. now rewrite Hb.
Qed.

Lemma disj_Alt input a n1 rest d n2 rest' :
  (forall g, 2 * List.length input + 1 <= g ->
             parseAlternative g n input = Some (a, n1, "|"%char :: rest)) ->
  List.length rest < List.length input ->
  (forall g, 2 * List.length rest + 2 <= g -> parseDisjunction g n1 rest = Some (d, n2, rest')) ->
  forall fuel, 2 * List.length input + 2 <= fuel ->
  parseDisjunction fuel n input = Some (Alt a d, n2, rest').
Proof.
  intros H Hlen Hd fuel Hf. destruct fuel as [|f]; [lia|]. cbn [parseDisjunction].
  rewrite H by lia. change (Ascii.eqb "|" "|") with true. cbv iota.
  rewrite Hd by lia. reflexivity.
Qed.

End Steps.


Lemma search_at_start r input st :
  matcher r (mkState 0 input []) Some = Some st -> search r 0 input = Some st.
Proof. intros H. destruct input; simpl; now rewrite H. Qed.

End RegExpFacts.

(* ===================================================================== *)
(** ** Tree search                                                        *)
(* ===================================================================== *)

Lemma String_indexOf_grepLine file line :
  String_indexOf NUL file = None ->
  String_indexOf NUL (grepLine file line) = Some (String.length file).
Proof.
  unfold grepLine. induction file as [|c file IH]; simpl; [reflexivity|].
  destruct (Ascii.eqb c NUL); [discriminate|].
  destruct (String_indexOf NUL file); [discriminate|]. intros _.
  now rewrite IH.
Qed.

Lemma String_substr_grepLine file line :
  String_substr 0 (String.length file) (grepLine file line) = file.
Proof.
  unfold String_substr, grepLine.
  induction file as [|c file IH]; simpl; [reflexivity | now rewrite IH].
Qed.

Lemma String_substr_from_grepLine file line :
  String_substr_from (String.length file + 1) (grepLine file line) = line.
Proof.
  unfold grepLine. induction file as [|c file IH]; simpl; [reflexivity | exact IH].
Qed.

Lemma dropCommonPrefix_app common a b :
  nuclideUri.dropCommonPrefix (common ++ a) (common ++ b) = nuclideUri.dropCommonPrefix a b.
Proof.
  induction common as [|x common IH]; simpl; [reflexivity|].
  now rewrite String.eqb_refl.
Qed.

(** The header of the examples, relative to the project root [root],
    whatever the working directory is. *)
Lemma relative_to_root cwd : nuclideUri.relative cwd "root" "root/a/b/x.h" = "a/b/x.h".
Proof.
  unfold nuclideUri.relative, nuclideUri.resolveSegments. simpl String.eqb.
  simpl nuclideUri.isAbsolute. cbv iota.
  change ("/" ++ "root")%string with (String nuclideUri.sep "root").
  change ("/" ++ "root/a/b/x.h")%string with (String nuclideUri.sep "root/a/b/x.h").
  rewrite !nuclideUriFacts.pieces_app_sep. unfold nuclideUri.normalizeSegments.
  rewrite !fold_left_app.
  set (kept := fold_left (nuclideUri.normalizeStep false) (nuclideUri.pieces cwd) []).
  change (rev (fold_left (nuclideUri.normalizeStep false) (nuclideUri.pieces "root") kept))
    with (rev kept ++ ["root"]).
  change (rev (fold_left (nuclideUri.normalizeStep false)
                 (nuclideUri.pieces "root/a/b/x.h") kept))
    with ((((rev kept ++ ["root"]) ++ ["a"]) ++ ["b"]) ++ ["x.h"]).
  rewrite <- !app_assoc, dropCommonPrefix_app. reflexivity.
Qed.

Lemma length_chars s : List.length (chars s) = String.length s.
Proof. induction s as [|c s IH]; simpl; [reflexivity | now rewrite IH]. Qed.

Lemma chars_escape s : chars (escapeStringRegExp s) = escapeChars (chars s).
Proof.
  induction s as [|c s IH]; simpl; [reflexivity|].
  destruct (isRegExpSpecial c); simpl; now rewrite IH.
Qed.

(** The pattern that [findIncludingSourceFile] builds always reads, and
    reads as [includeRegex]: the escaped texts are read back as the
    literal texts they come from. *)
Theorem parse_includePattern rel base :
  RegExp.parse (includePattern (escapeStringRegExp rel) (escapeStringRegExp base))
  = Some (includeRegex rel base).
Proof.
  unfold RegExp.parse. rewrite <- length_chars.
  unfold includePattern. rewrite !chars_app, !chars_escape.
  set (R := chars rel). set (B := chars base).
  cbn [chars list_ascii_of_string app dquote].
  match goal with
  | |- match RegExp.parseDisjunction ?f 0 ?i with _ => _ end = _ =>
      assert (H : RegExp.parseDisjunction f 0 i = Some (includeRegex rel base, 2, []));
      [|now rewrite H]
  end.
  apply RegExpFacts.disj_single; [|reflexivity | lia].
  unfold includeRegex. fold R B.
  cbn [RegExp.literalThen chars list_ascii_of_string app dquote].
  intros g Hg. revert g Hg.
  apply RegExpFacts.alt_Bol. apply RegExpFacts.alt_Space_Star.
  do 8 (apply RegExpFacts.alt_Char; [reflexivity | reflexivity |]).
  apply RegExpFacts.alt_Space_Plus.
  eapply RegExpFacts.alt_Class; [reflexivity | reflexivity | simpl; lia |].
  eapply RegExpFacts.alt_Group.
  - (* the two branches of group 1 *)
    eapply RegExpFacts.disj_Alt.
    + apply RegExpFacts.alt_literal; [reflexivity|].
      intros g Hg. apply RegExpFacts.alt_stop; [reflexivity | lia].
    + rewrite length_app. simpl. lia.
    + apply RegExpFacts.disj_single; [|reflexivity].
      eapply RegExpFacts.alt_Group.
      * apply RegExpFacts.disj_single; [|reflexivity].
        apply RegExpFacts.alt_Dot; [reflexivity|].
        apply RegExpFacts.alt_Dot; [reflexivity|].
        apply RegExpFacts.alt_Char; [reflexivity | reflexivity |].
        intros g Hg. apply RegExpFacts.alt_stop; [reflexivity | lia].
      * reflexivity.
      * simpl. lia.
      * apply RegExpFacts.alt_literal; [reflexivity|].
        intros g Hg. apply RegExpFacts.alt_stop; [reflexivity | lia].
  - reflexivity.
  - rewrite !length_app. simpl. rewrite !length_app. simpl. lia.
  - eapply RegExpFacts.alt_Class; [reflexivity | reflexivity | simpl; lia |].
    apply RegExpFacts.alt_Space_Star. apply RegExpFacts.alt_Eol.
    intros g Hg. apply RegExpFacts.alt_stop; [reflexivity | lia].
Qed.

(** [new RegExp(pattern)] never throws in [findIncludingSourceFile]. *)
Lemma new_includePattern rel base :
  RegExp.new (includePattern (escapeStringRegExp rel) (escapeStringRegExp base))
  = Normal (includeRegex rel base).
Proof. unfold RegExp.new. now rewrite parse_includePattern. Qed.

(** Whatever the header and the project root are, the include of the
    header by its path relative to the root matches the first branch of
    the pattern: group 1 is that path and group 2 is unset. *)
Lemma exec_root_relative_include rel base :
  RegExp.exec (includeRegex rel base) ("#include <" ++ rel ++ ">")
  = Some [(1, chars rel)].
Proof.
  unfold RegExp.exec, includeRegex.
  change (chars ("#include <" ++ rel ++ ">"))
    with (chars "#include" ++ " "%char :: "<"%char :: chars (rel ++ ">"))%list.
  rewrite chars_app. change (chars ">") with [">"%char].
  match goal with
  | |- option_map _ (RegExp.search ?r 0 ?i) = _ =>
      assert (H : exists idx,
                 RegExp.search r 0 i = Some (RegExp.mkState idx [] [(1, chars rel)]))
  end.
  { eexists. apply RegExpFacts.search_at_start.
    rewrite RegExpFacts.matcher_Seq, RegExpFacts.matcher_Bol by reflexivity.
    rewrite RegExpFacts.matcher_Seq, RegExpFacts.matcher_Star_Space_stop by reflexivity.
    rewrite (RegExpFacts.matcher_literalThen
               _ _ _ _ (" "%char :: "<"%char :: chars rel ++ [">"%char])) by reflexivity.
    cbn [RegExp.index RegExp.rest RegExp.captures].
    rewrite RegExpFacts.matcher_Seq.
    rewrite (RegExpFacts.matcher_Plus_Space_one
               _ _ " "%char ("<"%char :: chars rel ++ [">"%char])) by reflexivity.
    cbn [RegExp.index RegExp.rest RegExp.captures].
    rewrite RegExpFacts.matcher_Seq.
    rewrite (RegExpFacts.matcher_Class _ _ _ "<"%char (chars rel ++ [">"%char]))
      by reflexivity.
    cbn [RegExp.index RegExp.rest RegExp.captures].
    rewrite RegExpFacts.matcher_Seq, RegExpFacts.matcher_Group.
    apply RegExpFacts.matcher_Alt_left.
    rewrite (RegExpFacts.matcher_literalThen _ _ _ _ [">"%char]) by reflexivity.
    rewrite RegExpFacts.matcher_Empty.
    cbn [RegExp.index RegExp.rest RegExp.captures].
    rewrite RegExpFacts.matcher_Seq.
    rewrite (RegExpFacts.matcher_Class _ _ _ ">"%char []) by reflexivity.
    cbn [RegExp.index RegExp.rest RegExp.captures].
    rewrite RegExpFacts.matcher_Seq, RegExpFacts.matcher_Star_Space_stop by reflexivity.
    rewrite RegExpFacts.matcher_Seq, RegExpFacts.matcher_Eol by reflexivity.
    rewrite RegExpFacts.matcher_Empty.
    match goal with
    | |- context [firstn ?n _] => replace n with (List.length (chars rel)) by lia
    end.
    rewrite firstn_upto. reflexivity. }
  destruct H as [idx ->]. reflexivity.
Qed.

Section TreeSearchFacts.
Context {utils : Utils} {host : Host}.

Lemma searchRegex_of_example :
  searchRegex "root/a/b/x.h" "root" = includeRegex "a/b/x.h" "x.h".
Proof. unfold searchRegex. now rewrite relative_to_root. Qed.

(** [findIncludingSourceFile] returns its observable, for every header
    and project root: the pattern it builds is well formed. *)
Lemma findIncludingSourceFile_returns headerFile projectRoot :
  findIncludingSourceFile headerFile projectRoot
  = Normal
      (Rx.take 1
         (Rx.flatMap
            (Rx.catch (grepProcess headerFile projectRoot)
                      (fun err => Rx.Observable_of (error err)))
            (onMessage headerFile (searchRegex headerFile projectRoot)))).
Proof.
  unfold findIncludingSourceFile, searchRegex. now rewrite new_includePattern.
Qed.

(** The result of [findIncludingSourceFile] is decided by the first
    message that is not quiet. *)
Lemma findIncludingSourceFile_first headerFile projectRoot before t message after v :
  Rx.emissions (grepProcess headerFile projectRoot) = before ++ (t, message) :: after ->
  Forall (quiet headerFile projectRoot) (map snd before) ->
  onMessage headerFile (searchRegex headerFile projectRoot) message
  = Normal (Rx.Observable_of v) ->
  findIncludingSourceFile headerFile projectRoot
  = Normal (Rx.mkObservable [(t, v)] (Rx.Completed t)).
Proof.
  intros Hm Hq Hv. rewrite findIncludingSourceFile_returns. f_equal.
  destruct (RxFacts.catch_emissions _ (fun err => Rx.Observable_of (error err)) _ _ _ Hm)
    as [after' Hc].
  unfold Rx.flatMap. rewrite Hc, RxFacts.flatMapFrom_skip.
  - simpl. rewrite Hv. reflexivity.
  - apply Forall_forall. intros x Hx. rewrite Forall_forall in Hq.
    apply Hq. now apply in_map.
Qed.

(** C5.  [findIncludingSourceFile] returns an observable that delivers at
    most one value, and completes as it delivers it.  The value is the
    first file that [processGrepResult] accepts, when the messages before
    it are quiet; it is [null], delivered once, when the scan ends (the
    [exit] message) after quiet messages only. *)
Theorem C5_one_result_then_complete :
  forall (headerFile projectRoot : string),
  exists result,
    findIncludingSourceFile headerFile projectRoot = Normal result
    /\ List.length (Rx.emissions result) <= 1
    /\ (forall t v, In (t, v) (Rx.emissions result) ->
                    result = Rx.mkObservable [(t, v)] (Rx.Completed t))
    /\ (forall before t data file after,
           Rx.emissions (grepProcess headerFile projectRoot)
           = before ++ (t, stdout data) :: after ->
           Forall (quiet headerFile projectRoot) (map snd before) ->
           processGrepResult data headerFile (searchRegex headerFile projectRoot)
           = Normal (Some file) ->
           result = Rx.mkObservable [(t, Some file)] (Rx.Completed t))
    /\ (forall before t code after,
           Rx.emissions (grepProcess headerFile projectRoot)
           = before ++ (t, exit code) :: after ->
           Forall (quiet headerFile projectRoot) (map snd before) ->
           result = Rx.mkObservable [(t, None)] (Rx.Completed t)).
Proof.
  intros headerFile projectRoot. eexists.
  split; [apply findIncludingSourceFile_returns|].
  set (source := Rx.flatMap
                   (Rx.catch (grepProcess headerFile projectRoot)
                             (fun err => Rx.Observable_of (error err)))
                   (onMessage headerFile (searchRegex headerFile projectRoot))).
  assert (Hfirst : forall before t message after v,
             Rx.emissions (grepProcess headerFile projectRoot)
             = before ++ (t, message) :: after ->
             Forall (quiet headerFile projectRoot) (map snd before) ->
             onMessage headerFile (searchRegex headerFile projectRoot) message
             = Normal (Rx.Observable_of v) ->
             Rx.take 1 source = Rx.mkObservable [(t, v)] (Rx.Completed t)).
  { intros before t message after v Hm Hq Hv.
    pose proof (findIncludingSourceFile_first _ _ _ _ _ _ _ Hm Hq Hv) as H.
    rewrite findIncludingSourceFile_returns in H. now injection H. }
  repeat split.
  - destruct (RxFacts.take1_cases source) as [[-> _]|(t & v & rest & _ & ->)]; simpl; lia.
  - intros t v.
    destruct (RxFacts.take1_cases source) as [[-> _]|(t' & v' & rest & _ & ->)]; simpl.
    + contradiction.
    + intros [[= <- <-]|[]]. reflexivity.
  - intros before t data file after Hm Hq Hfile.
    apply (Hfirst before t (stdout data) after); auto.
    simpl. now rewrite Hfile.
  - intros before t code after Hm Hq.
    apply (Hfirst before t (exit code) after); auto.
Qed.

End TreeSearchFacts.

Section IncludeFacts.
Context {utils : Utils} {host : Host}.

Lemma exec_ascent :
  RegExp.exec (includeRegex "a/b/x.h" "x.h") Fixture.ascentLine
  = Some [(1, chars "../x.h"); (2, chars "../")].
Proof. vm_compute. reflexivity. Qed.

Lemma exec_wrong :
  RegExp.exec (includeRegex "a/b/x.h" "x.h")
              Fixture.wrongLine
  = None.
Proof. vm_compute. reflexivity. Qed.

Lemma exec_descent :
  RegExp.exec (includeRegex "a/b/x.h" "x.h")
              Fixture.descentLine
  = None.
Proof. vm_compute. reflexivity. Qed.

(** [processGrepResult] on a line of [grep] for a file whose name holds
    no NUL: the name and the line are split as printed. *)
Ltac split_grepLine Hnul :=
  unfold processGrepResult;
  rewrite (String_indexOf_grepLine _ _ Hnul), String_substr_grepLine,
    String_substr_from_grepLine.

(** An include of the header by its path relative to the project root is
    accepted for every source file, wherever it is: nothing is resolved,
    group 2 being unset. *)
Lemma processGrepResult_root_relative headerFile projectRoot filename :
  isSourceFile filename = true ->
  String_indexOf NUL filename = None ->
  processGrepResult
    (grepLine filename ("#include <" ++ nuclideUri.relative cwd projectRoot headerFile ++ ">"))
    headerFile (searchRegex headerFile projectRoot)
  = Normal (Some filename).
Proof.
  intros Hsource Hnul. split_grepLine Hnul. rewrite Hsource. simpl negb. cbv iota.
  unfold searchRegex. rewrite exec_root_relative_include. reflexivity.
Qed.

Lemma rootRelativeLine_is_relative :
  Fixture.rootRelativeLine
  = ("#include <"
       ++ nuclideUri.relative cwd Fixture.projectRoot Fixture.headerFile ++ ">")%string.
Proof.
  unfold Fixture.projectRoot, Fixture.headerFile. now rewrite relative_to_root.
Qed.

(** C6.  For the header [root/a/b/x.h] of the project [root] (the
    fixture's [headerFile] and [projectRoot]), the line
    [#include <a/b/x.h>] matches the first branch of the pattern, group 2
    is unset, and [processGrepResult] accepts the line for every file
    name that [isSourceFile] accepts (a file name holds no NUL), with no
    path resolution and no look at the file system;
    [findIncludingSourceFile] delivers that file when the messages before
    the line are quiet. *)
Theorem C6_root_relative_include_is_accepted :
  forall (filename : string),
    isSourceFile filename = true ->
    String_indexOf NUL filename = None ->
    (exists m,
        RegExp.exec (searchRegex Fixture.headerFile Fixture.projectRoot)
                    Fixture.rootRelativeLine = Some m
        /\ RegExp.group m 1 = Some "a/b/x.h"
        /\ RegExp.group m 2 = None)
    /\ processGrepResult (grepLine filename Fixture.rootRelativeLine) Fixture.headerFile
         (searchRegex Fixture.headerFile Fixture.projectRoot)
       = Normal (Some filename)
    /\ (forall before t after,
           Rx.emissions (grepProcess Fixture.headerFile Fixture.projectRoot)
           = before ++ (t, stdout (grepLine filename Fixture.rootRelativeLine)) :: after ->
           Forall (quiet Fixture.headerFile Fixture.projectRoot) (map snd before) ->
           findIncludingSourceFile Fixture.headerFile Fixture.projectRoot
           = Normal (Rx.mkObservable [(t, Some filename)] (Rx.Completed t))).
Proof.
  intros filename Hsource Hnul.
  assert (Haccept : processGrepResult (grepLine filename Fixture.rootRelativeLine)
                      Fixture.headerFile
                      (searchRegex Fixture.headerFile Fixture.projectRoot)
                    = Normal (Some filename)).
  { rewrite rootRelativeLine_is_relative.
    now apply processGrepResult_root_relative. }
  split; [|split; [exact Haccept|]].
  - rewrite rootRelativeLine_is_relative. unfold searchRegex.
    rewrite exec_root_relative_include.
    eexists. split; [reflexivity|]. split; [|reflexivity].
    unfold RegExp.group. simpl. rewrite str_chars.
    unfold Fixture.projectRoot, Fixture.headerFile. now rewrite relative_to_root.
  - intros before t after Hm Hq.
    eapply findIncludingSourceFile_first; [exact Hm | exact Hq |].
    simpl. now rewrite Haccept.
Qed.

(** C1 (as the code has it).  For the header [root/a/b/x.h], the source
    file [root/a/b/c/y.m] with the line [#include "../x.h"] (parent
    ascents, then the header's file name; it resolves from the directory
    of [y.m] to the header) is accepted: [findIncludingSourceFile]
    delivers [y.m].  A line [#include "../wrong/x.h"] is rejected, for
    every file; so is [#include "../x.h"] in [root/a/b/c/d/z.m], which
    resolves to [root/a/b/c/x.h]; and so is, for every file, the line
    [#include "../../a/b/x.h"], which the pattern does not match. *)
Theorem C1_source_relative_include :
  isSourceFile "root/a/b/c/y.m" = true ->
  (forall before t after,
      Rx.emissions (grepProcess Fixture.headerFile Fixture.projectRoot)
      = before ++ (t, stdout (grepLine "root/a/b/c/y.m" Fixture.ascentLine)) :: after ->
      Forall (quiet Fixture.headerFile Fixture.projectRoot) (map snd before) ->
      findIncludingSourceFile Fixture.headerFile Fixture.projectRoot
      = Normal (Rx.mkObservable [(t, Some "root/a/b/c/y.m")] (Rx.Completed t)))
  /\ (forall file,
         String_indexOf NUL file = None ->
         quiet Fixture.headerFile Fixture.projectRoot
           (stdout (grepLine file Fixture.wrongLine)))
  /\ (quiet Fixture.headerFile Fixture.projectRoot
         (stdout (grepLine "root/a/b/c/d/z.m" Fixture.ascentLine))
      /\ nuclideUri.normalize
           (nuclideUri.path_join [nuclideUri.dirname "root/a/b/c/d/z.m"; "../x.h"])
         = "root/a/b/c/x.h")
  /\ (forall file,
         String_indexOf NUL file = None ->
         quiet Fixture.headerFile Fixture.projectRoot
           (stdout (grepLine file Fixture.descentLine))).
Proof.
  intros Hsource. split; [|split; [|split; [split|]]].
  - intros before t after Hm Hq.
    eapply findIncludingSourceFile_first; [exact Hm | exact Hq |].
    simpl. split_grepLine (eq_refl : String_indexOf NUL "root/a/b/c/y.m" = None).
    rewrite Hsource. simpl negb. cbv iota.
    unfold Fixture.headerFile, Fixture.projectRoot.
    rewrite searchRegex_of_example, exec_ascent. reflexivity.
  - intros file Hnul. unfold quiet. simpl. split_grepLine Hnul.
    unfold Fixture.headerFile, Fixture.projectRoot.
    rewrite searchRegex_of_example, exec_wrong.
    now destruct (negb (isSourceFile file)).
  - unfold quiet. simpl.
    split_grepLine (eq_refl : String_indexOf NUL "root/a/b/c/d/z.m" = None).
    unfold Fixture.headerFile, Fixture.projectRoot.
    rewrite searchRegex_of_example, exec_ascent.
    now destruct (negb (isSourceFile "root/a/b/c/d/z.m")).
  - reflexivity.
  - intros file Hnul. unfold quiet. simpl. split_grepLine Hnul.
    unfold Fixture.headerFile, Fixture.projectRoot.
    rewrite searchRegex_of_example, exec_descent.
    now destruct (negb (isSourceFile file)).
Qed.

End IncludeFacts.

(* ===================================================================== *)
(** ** Source of a header                                                 *)
(* ===================================================================== *)

Section SourceFacts.
Context {utils : Utils} {host : Host}.

Lemma resolves_null (o : Rx.Observable (option string)) :
  Rx.emissions o = [] ->
  (exists t e, Rx.ending o = Rx.Failed t e) ->
  Rx.toPromise None (Rx.catch o (fun _ => Rx.Observable_of None)) = Resolved None.
Proof.
  intros Hem (t & e & Hend). unfold Rx.toPromise, Rx.catch. rewrite Hend, Hem.
  reflexivity.
Qed.

(** The tree search fails when the process does, after quiet messages. *)
Lemma findIncludingSourceFile_failure headerFile projectRoot t e :
  Rx.ending (grepProcess headerFile projectRoot) = Rx.Failed t e ->
  Forall (quiet headerFile projectRoot)
         (map snd (Rx.emissions (grepProcess headerFile projectRoot))) ->
  findIncludingSourceFile headerFile projectRoot
  = Normal (Rx.mkObservable [] (Rx.Failed t (Error (String_of_error e)))).
Proof.
  intros Hend Hq. rewrite findIncludingSourceFile_returns. f_equal.
  unfold Rx.flatMap.
  unfold Rx.catch at 1 2. rewrite Hend. cbn [Rx.emissions Rx.ending].
  rewrite RxFacts.flatMapFrom_skip; [reflexivity|].
  apply Forall_forall. intros x Hx. rewrite Forall_forall in Hq.
  apply Hq. now apply in_map.
Qed.

(** A failure of an observable, whenever it comes and whatever was
    delivered before it, is a failure after [timeout] too: that of the
    observable, or the [TimeoutError]. *)
Lemma timeoutFrom_failed {A} due (es : list (Rx.Time * A)) :
  forall last t e,
  exists t' e', Rx.ending (Rx.timeoutFrom due last es (Rx.Failed t e)) = Rx.Failed t' e'.
Proof.
  induction es as [|[t0 a] es IH]; intros last t e; simpl.
  - destruct (Rx.inTime due last t); now eexists _, _.
  - destruct (Rx.inTime due last t0); simpl; [apply IH | now eexists _, _].
Qed.

(** After [catch(() => Observable.of(null))], a failure resolves the
    promise to [null], whatever was delivered before it. *)
Lemma failure_resolves_null (o : Rx.Observable (option string)) :
  (exists t e, Rx.ending o = Rx.Failed t e) ->
  Rx.toPromise None (Rx.catch o (fun _ => Rx.Observable_of None)) = Resolved None.
Proof.
  intros (t & e & Hend). unfold Rx.toPromise, Rx.catch. rewrite Hend.
  cbn [Rx.ending Rx.emissions]. rewrite map_app. unfold Rx.Observable_of. cbn [map snd].
  now rewrite last_last.
Qed.

(** [flatMap] delivers nothing, and does not end, before the time [due]
    when the values that arrive before [due] are projected to the empty
    observable and the source does not end before [due]. *)
Lemma flatMapFrom_late {A B} due (project : A -> Completion (Rx.Sync B)) es e :
  Forall (fun x => N.le due (fst x) \/ project (snd x) = Normal []) es ->
  match e with
  | Rx.Completed t | Rx.Failed t _ => N.le due t
  | Rx.Unfinished => True
  end ->
  Rx.late due (Rx.flatMapFrom project es e).
Proof.
  intros Hes He. induction Hes as [|[t a] es Hx _ IH]; simpl.
  - split; [constructor | exact He].
  - simpl in Hx. destruct (project a) as [[|b bs]|err] eqn:Hp.
    + now rewrite RxFacts.emitAll_nil.
    + destruct Hx as [Ht|Hx]; [|discriminate]. destruct IH as [IHe IHend].
      split; [|exact IHend]. cbn [Rx.emitAll Rx.emissions].
      apply Forall_app. split; [|exact IHe].
      apply Forall_forall. intros x Hin. apply in_map_iff in Hin.
      destruct Hin as (y & <- & _). exact Ht.
    + destruct Hx as [Ht|Hx]; [|discriminate]. split; [constructor | exact Ht].
Qed.

(** The tree search delivers nothing, and does not end, before the time
    limit when every message of the process that arrives before the
    limit is quiet and the process does not end before the limit. *)
Lemma findIncludingSourceFile_late headerFile projectRoot found :
  findIncludingSourceFile headerFile projectRoot = Normal found ->
  Forall (fun m => N.le INCLUDE_SEARCH_TIMEOUT (fst m) \/ quiet headerFile projectRoot (snd m))
         (Rx.emissions (grepProcess headerFile projectRoot)) ->
  match Rx.ending (grepProcess headerFile projectRoot) with
  | Rx.Completed t | Rx.Failed t _ => N.le INCLUDE_SEARCH_TIMEOUT t
  | Rx.Unfinished => True
  end ->
  Rx.late INCLUDE_SEARCH_TIMEOUT found.
Proof.
  rewrite findIncludingSourceFile_returns. intros [= <-] Hmessages Hending.
  apply RxFacts.late_take1. unfold Rx.flatMap.
  assert (Hquiet : Forall (fun x => N.le INCLUDE_SEARCH_TIMEOUT (fst x)
                                    \/ onMessage headerFile (searchRegex headerFile projectRoot)
                                         (snd x) = Normal [])
                          (Rx.emissions (grepProcess headerFile projectRoot))).
  { eapply Forall_impl; [|exact Hmessages]. intros x [H|H]; [now left | now right]. }
  unfold Rx.catch.
  destruct (Rx.ending (grepProcess headerFile projectRoot)) as [t|t e|] eqn:He;
    apply flatMapFrom_late; cbn [Rx.emissions Rx.ending]; rewrite ?He;
    try exact Hquiet; try exact Hending.
  apply Forall_app. split; [exact Hquiet|]. repeat constructor. exact Hending.
Qed.

(** C4.  Whenever [findIncludingSourceFile] returns its observable
    (building the pattern is the only step of [findSourceFileForHeader]
    that is not guarded), the promise of [findSourceFileForHeader]
    resolves: it is never rejected, nor left pending.  When moreover the
    directory of the header holds no source for it, the promise resolves
    to [null] in each of these cases:
    - the tree search times out: its observable delivers nothing and
      does not end before [INCLUDE_SEARCH_TIMEOUT];
    - the tree search fails, whenever it does;
    - every message of the process that arrives before
      [INCLUDE_SEARCH_TIMEOUT] is quiet (output on [stderr], rejected
      lines) and the process does not end before it: the time limit is
      on the results, not on the output of the process;
    - the process observable fails after quiet messages. *)
Theorem C4_timeout_and_failure_resolve_to_null :
  forall (header projectRoot : string) (found : Rx.Observable (option string)),
    findIncludingSourceFile header projectRoot = Normal found ->
    (exists result, findSourceFileForHeader header projectRoot = Resolved result)
    /\ (searchFileWithBasename (nuclideUri.dirname header) (getFileBasename header)
          isSourceFile = Resolved None ->
        (Rx.late INCLUDE_SEARCH_TIMEOUT found ->
         findSourceFileForHeader header projectRoot = Resolved None)
        /\ (forall t e,
               Rx.ending found = Rx.Failed t e ->
               findSourceFileForHeader header projectRoot = Resolved None)
        /\ (Forall (fun m => N.le INCLUDE_SEARCH_TIMEOUT (fst m)
                             \/ quiet header projectRoot (snd m))
                   (Rx.emissions (grepProcess header projectRoot)) ->
            match Rx.ending (grepProcess header projectRoot) with
            | Rx.Completed t | Rx.Failed t _ => N.le INCLUDE_SEARCH_TIMEOUT t
            | Rx.Unfinished => True
            end ->
            findSourceFileForHeader header projectRoot = Resolved None)
        /\ (forall t e,
               Rx.ending (grepProcess header projectRoot) = Rx.Failed t e ->
               Forall (quiet header projectRoot)
                      (map snd (Rx.emissions (grepProcess header projectRoot))) ->
               findSourceFileForHeader header projectRoot = Resolved None)).
Proof.
  intros header projectRoot found Hfound.
  assert (Hlate : Rx.late INCLUDE_SEARCH_TIMEOUT found ->
                  Rx.toPromise None
                    (Rx.catch (Rx.timeout INCLUDE_SEARCH_TIMEOUT found)
                              (fun _ => Rx.Observable_of None))
                  = Resolved None).
  { intros H. now rewrite RxFacts.timeout_late. }
  assert (Hfailed : forall t e,
             Rx.ending found = Rx.Failed t e ->
             Rx.toPromise None
               (Rx.catch (Rx.timeout INCLUDE_SEARCH_TIMEOUT found)
                         (fun _ => Rx.Observable_of None))
             = Resolved None).
  { intros t e Hend. apply failure_resolves_null. unfold Rx.timeout. rewrite Hend.
    apply timeoutFrom_failed. }
  split.
  - unfold findSourceFileForHeader.
    destruct (searchFileWithBasename_resolves
                (nuclideUri.dirname header) (getFileBasename header) isSourceFile)
      as [[s|] ->]; simpl.
    + now exists (Some s).
    + rewrite Hfound. simpl. apply RxFacts.toPromise_catch_timeout.
  - intros Hdir. unfold findSourceFileForHeader. rewrite Hdir, Hfound. simpl.
    split; [exact Hlate|]. split; [exact Hfailed|]. split.
    + intros Hmessages Hending. apply Hlate.
      now apply (findIncludingSourceFile_late header projectRoot).
    + intros t e Hend Hq.
      rewrite (findIncludingSourceFile_failure header projectRoot t e Hend Hq) in Hfound.
      injection Hfound as <-. now apply (Hfailed t (Error (String_of_error e))).
Qed.

End SourceFacts.

(* ===================================================================== *)
(** ** The tree search on concrete outputs                                *)
(* ===================================================================== *)

Section ConcreteSearches.
Import Fixture.

(** C1, the claim as written, fails: for the header [root/a/b/x.h],
    the line [#include "../../a/b/x.h"] of [root/c/y.m] does not match
    the pattern (the source-relative branch is parent ascents followed by
    the header's file name), [processGrepResult] rejects it and
    [findIncludingSourceFile] delivers [null], not [y.m]; joined to the
    directory of [y.m], the path of that include is [a/b/x.h], not the
    header. *)
Lemma C1_counterexample :
  isSourceFile "root/c/y.m" = true
  /\ RegExp.exec (searchRegex (host := hostOf [] descentOutput) headerFile projectRoot)
       descentLine = None
  /\ processGrepResult (grepLine "root/c/y.m" descentLine) headerFile
       (searchRegex (host := hostOf [] descentOutput) headerFile projectRoot)
     = Normal None
  /\ findIncludingSourceFile (host := hostOf [] descentOutput) headerFile projectRoot
     = Normal (Rx.mkObservable [(90%N, None)] (Rx.Completed 90%N))
  /\ nuclideUri.normalize
       (nuclideUri.path_join [nuclideUri.dirname "root/c/y.m"; "../../a/b/x.h"])
     = "a/b/x.h".
Proof. repeat split; vm_compute; reflexivity. Qed.

(** The theorem of C1 on an output of [grep] where [y.m] comes third. *)
Lemma C1_witness :
  (isSourceFile "root/a/b/c/y.m" = true
   /\ Rx.emissions (grepProcess (host := hostOf [] ascentOutput) headerFile projectRoot)
      = [(30%N, stderr "grep: root/a/b/bin: Permission denied");
         (50%N, stdout (grepLine "root/a/b/c/d/z.m" ascentLine))]
          ++ (70%N, stdout (grepLine "root/a/b/c/y.m" ascentLine)) :: [(90%N, exit 0)]
   /\ Forall (quiet (host := hostOf [] ascentOutput) headerFile projectRoot)
        (map snd [(30%N, stderr "grep: root/a/b/bin: Permission denied");
                  (50%N, stdout (grepLine "root/a/b/c/d/z.m" ascentLine))]))
  /\ findIncludingSourceFile (host := hostOf [] ascentOutput) headerFile projectRoot
     = Normal (Rx.mkObservable [(70%N, Some "root/a/b/c/y.m")] (Rx.Completed 70%N)).
Proof.
  assert (H1 : isSourceFile "root/a/b/c/y.m" = true) by (vm_compute; reflexivity).
  assert (H2 : Rx.emissions (grepProcess (host := hostOf [] ascentOutput)
                               headerFile projectRoot)
      = [(30%N, stderr "grep: root/a/b/bin: Permission denied");
         (50%N, stdout (grepLine "root/a/b/c/d/z.m" ascentLine))]
          ++ (70%N, stdout (grepLine "root/a/b/c/y.m" ascentLine)) :: [(90%N, exit 0)])
    by (vm_compute; reflexivity).
  assert (H3 : Forall (quiet (host := hostOf [] ascentOutput) headerFile projectRoot)
        (map snd [(30%N, stderr "grep: root/a/b/bin: Permission denied");
                  (50%N, stdout (grepLine "root/a/b/c/d/z.m" ascentLine))]))
    by (repeat constructor; vm_compute; reflexivity).
  split; [auto|].
  exact (proj1 (C1_source_relative_include (host := hostOf [] ascentOutput) H1)
           _ _ _ H2 H3).
Defined.

(** The theorem of C5 on an output with an accepted line, and on one
    that ends without a match. *)
Lemma C5_witness :
  (Rx.emissions (grepProcess (host := hostOf [] ascentOutput) headerFile projectRoot)
   = [(30%N, stderr "grep: root/a/b/bin: Permission denied");
      (50%N, stdout (grepLine "root/a/b/c/d/z.m" ascentLine))]
       ++ (70%N, stdout (grepLine "root/a/b/c/y.m" ascentLine)) :: [(90%N, exit 0)]
   /\ Forall (quiet (host := hostOf [] ascentOutput) headerFile projectRoot)
        (map snd [(30%N, stderr "grep: root/a/b/bin: Permission denied");
                  (50%N, stdout (grepLine "root/a/b/c/d/z.m" ascentLine))])
   /\ processGrepResult (grepLine "root/a/b/c/y.m" ascentLine) headerFile
        (searchRegex (host := hostOf [] ascentOutput) headerFile projectRoot)
      = Normal (Some "root/a/b/c/y.m")
   /\ Rx.emissions (grepProcess (host := hostOf [] noMatchOutput) headerFile projectRoot)
      = [(30%N, stderr "grep: root/a/b/bin: Permission denied")]
          ++ (90%N, exit 1) :: []
   /\ Forall (quiet (host := hostOf [] noMatchOutput) headerFile projectRoot)
        (map snd [(30%N, stderr "grep: root/a/b/bin: Permission denied")]))
  /\ findIncludingSourceFile (host := hostOf [] ascentOutput) headerFile projectRoot
     = Normal (Rx.mkObservable [(70%N, Some "root/a/b/c/y.m")] (Rx.Completed 70%N))
  /\ findIncludingSourceFile (host := hostOf [] noMatchOutput) headerFile projectRoot
     = Normal (Rx.mkObservable [(90%N, None)] (Rx.Completed 90%N)).
Proof.
  assert (H1 : Rx.emissions (grepProcess (host := hostOf [] ascentOutput)
                               headerFile projectRoot)
   = [(30%N, stderr "grep: root/a/b/bin: Permission denied");
      (50%N, stdout (grepLine "root/a/b/c/d/z.m" ascentLine))]
       ++ (70%N, stdout (grepLine "root/a/b/c/y.m" ascentLine)) :: [(90%N, exit 0)])
    by (vm_compute; reflexivity).
  assert (H2 : Forall (quiet (host := hostOf [] ascentOutput) headerFile projectRoot)
        (map snd [(30%N, stderr "grep: root/a/b/bin: Permission denied");
                  (50%N, stdout (grepLine "root/a/b/c/d/z.m" ascentLine))]))
    by (repeat constructor; vm_compute; reflexivity).
  assert (H3 : processGrepResult (grepLine "root/a/b/c/y.m" ascentLine) headerFile
        (searchRegex (host := hostOf [] ascentOutput) headerFile projectRoot)
      = Normal (Some "root/a/b/c/y.m")) by (vm_compute; reflexivity).
  assert (H4 : Rx.emissions (grepProcess (host := hostOf [] noMatchOutput)
                               headerFile projectRoot)
      = [(30%N, stderr "grep: root/a/b/bin: Permission denied")]
          ++ (90%N, exit 1) :: []) by (vm_compute; reflexivity).
  assert (H5 : Forall (quiet (host := hostOf [] noMatchOutput) headerFile projectRoot)
        (map snd [(30%N, stderr "grep: root/a/b/bin: Permission denied")]))
    by (repeat constructor; vm_compute; reflexivity).
  split; [auto 6|]. split.
  - destruct (C5_one_result_then_complete (host := hostOf [] ascentOutput)
                headerFile projectRoot) as (result & Hresult & _ & _ & Hfound & _).
    rewrite Hresult. f_equal. exact (Hfound _ _ _ _ _ H1 H2 H3).
  - destruct (C5_one_result_then_complete (host := hostOf [] noMatchOutput)
                headerFile projectRoot) as (result & Hresult & _ & _ & _ & Hexit).
    rewrite Hresult. f_equal. exact (Hexit _ _ _ _ H4 H5).
Defined.

(** The theorem of C6 at the file [root/a/b/deep/z.m]. *)
Lemma C6_witness :
  (isSourceFile "root/a/b/deep/z.m" = true
   /\ String_indexOf NUL "root/a/b/deep/z.m" = None)
  /\ processGrepResult (grepLine "root/a/b/deep/z.m" rootRelativeLine) headerFile
       (searchRegex (host := hostOf [] rootRelativeOutput) headerFile projectRoot)
     = Normal (Some "root/a/b/deep/z.m").
Proof.
  assert (H1 : isSourceFile "root/a/b/deep/z.m" = true) by (vm_compute; reflexivity).
  assert (H2 : String_indexOf NUL "root/a/b/deep/z.m" = None) by (vm_compute; reflexivity).
  split; [auto|].
  exact (proj1 (proj2 (C6_root_relative_include_is_accepted
                         (host := hostOf [] rootRelativeOutput)
                         "root/a/b/deep/z.m" H1 H2))).
Defined.

(** The theorem of C4 on a [grep] that complains, prints a line that is
    rejected, and has a match only after the time limit, and on one
    that cannot be spawned. *)
Lemma C4_witness :
  (findIncludingSourceFile (host := hostOf [] Samples.lateMatch) headerFile projectRoot
   = Normal (Rx.mkObservable [(16000%N, Some "root/a/b/c/y.m")] (Rx.Completed 16000%N))
   /\ searchFileWithBasename (host := hostOf [] Samples.lateMatch)
        (nuclideUri.dirname headerFile) (getFileBasename headerFile) isSourceFile
      = Resolved None
   /\ Forall (fun m => N.le INCLUDE_SEARCH_TIMEOUT (fst m)
                       \/ quiet (host := hostOf [] Samples.lateMatch)
                            headerFile projectRoot (snd m))
        (Rx.emissions (grepProcess (host := hostOf [] Samples.lateMatch)
                         headerFile projectRoot))
   /\ match Rx.ending (grepProcess (host := hostOf [] Samples.lateMatch)
                         headerFile projectRoot) with
      | Rx.Completed t | Rx.Failed t _ => N.le INCLUDE_SEARCH_TIMEOUT t
      | Rx.Unfinished => True
      end
   /\ findIncludingSourceFile (host := hostOf [] spawnFailure) headerFile projectRoot
      = Normal (Rx.mkObservable []
                  (Rx.Failed 1%N (Error "ProcessSystemError: spawn grep ENOENT")))
   /\ searchFileWithBasename (host := hostOf [] spawnFailure)
        (nuclideUri.dirname headerFile) (getFileBasename headerFile) isSourceFile
      = Resolved None
   /\ Rx.ending (Rx.mkObservable (A := option string) []
                   (Rx.Failed 1%N (Error "ProcessSystemError: spawn grep ENOENT")))
      = Rx.Failed 1%N (Error "ProcessSystemError: spawn grep ENOENT"))
  /\ findSourceFileForHeader (host := hostOf [] Samples.lateMatch) headerFile projectRoot
     = Resolved None
  /\ findSourceFileForHeader (host := hostOf [] spawnFailure) headerFile projectRoot
     = Resolved None.
Proof.
  assert (H0 : findIncludingSourceFile (host := hostOf [] Samples.lateMatch)
                 headerFile projectRoot
               = Normal (Rx.mkObservable [(16000%N, Some "root/a/b/c/y.m")]
                           (Rx.Completed 16000%N))) by (vm_compute; reflexivity).
  assert (H1 : searchFileWithBasename (host := hostOf [] Samples.lateMatch)
                 (nuclideUri.dirname headerFile) (getFileBasename headerFile) isSourceFile
               = Resolved None) by (vm_compute; reflexivity).
  assert (H2 : Forall (fun m => N.le INCLUDE_SEARCH_TIMEOUT (fst m)
                                \/ quiet (host := hostOf [] Samples.lateMatch)
                                     headerFile projectRoot (snd m))
                 (Rx.emissions (grepProcess (host := hostOf [] Samples.lateMatch)
                                  headerFile projectRoot))).
  { apply Forall_cons; [right; vm_compute; reflexivity|].
    apply Forall_cons; [right; vm_compute; reflexivity|].
    apply Forall_cons; [left; vm_compute; discriminate|].
    apply Forall_nil. }
  assert (H3 : match Rx.ending (grepProcess (host := hostOf [] Samples.lateMatch)
                                  headerFile projectRoot) with
               | Rx.Completed t | Rx.Failed t _ => N.le INCLUDE_SEARCH_TIMEOUT t
               | Rx.Unfinished => True
               end) by exact I.
  assert (H4 : findIncludingSourceFile (host := hostOf [] spawnFailure)
                 headerFile projectRoot
               = Normal (Rx.mkObservable []
                           (Rx.Failed 1%N (Error "ProcessSystemError: spawn grep ENOENT"))))
    by (vm_compute; reflexivity).
  assert (H5 : searchFileWithBasename (host := hostOf [] spawnFailure)
                 (nuclideUri.dirname headerFile) (getFileBasename headerFile) isSourceFile
               = Resolved None) by (vm_compute; reflexivity).
  assert (H6 : Rx.ending (Rx.mkObservable (A := option string) []
                            (Rx.Failed 1%N (Error "ProcessSystemError: spawn grep ENOENT")))
               = Rx.Failed 1%N (Error "ProcessSystemError: spawn grep ENOENT"))
    by reflexivity.
  split; [auto 8|]. split.
  - exact (proj1 (proj2 (proj2 (proj2 (C4_timeout_and_failure_resolve_to_null
                                         (host := hostOf [] Samples.lateMatch)
                                         headerFile projectRoot _ H0) H1)))
             H2 H3).
  - exact (proj1 (proj2 (proj2 (C4_timeout_and_failure_resolve_to_null
                                  (host := hostOf [] spawnFailure)
                                  headerFile projectRoot _ H4) H5))
             _ _ H6).
Defined.

End ConcreteSearches.

(* ===================================================================== *)
(** ** The directory probe, in full                                       *)
(* ===================================================================== *)

Section ProbeResults.
Context {utils : Utils} {host : Host}.

Lemma selects_iff basename condition file :
  selects basename condition file = true
  <-> condition file = true /\ getFileBasename file = basename.
Proof. unfold selects. now rewrite andb_true_iff, String.eqb_eq. Qed.

Lemma selects_false basename condition file :
  selects basename condition file = false
  <-> ~ (condition file = true /\ getFileBasename file = basename).
Proof. rewrite <- selects_iff. now destruct (selects basename condition file). Qed.

Lemma searchFiles_none dir basename condition files :
  searchFiles dir basename condition files = Normal None
  <-> Forall (fun f => selects basename condition f = false) files.
Proof.
  induction files as [|file files IH]; simpl.
  - split; [constructor | reflexivity].
  - destruct (selects basename condition file) eqn:Hs; simpl.
    + split; [discriminate|]. intros H. inversion H; congruence.
    + rewrite IH. split; [now constructor | intros H; now inversion H].
Qed.

Lemma searchFiles_some_first dir basename condition files found :
  searchFiles dir basename condition files = Normal (Some found) ->
  exists before file after,
    files = before ++ file :: after /\
    Forall (fun f => selects basename condition f = false) before /\
    selects basename condition file = true /\
    found = nuclideUri.path_join [dir; file].
Proof.
  induction files as [|file files IH]; simpl; [discriminate|].
  destruct (selects basename condition file) eqn:Hs; simpl.
  - intros [= <-]. exists [], file, files. repeat split; auto.
  - intros H. destruct (IH H) as (before & f & after & -> & Hb & Hf & ->).
    exists (file :: before), f, after. repeat split; auto.
Qed.

(** X1.  [searchFileWithBasename] resolves to [null] exactly when the
    directory lists no entry that passes the condition and has the
    basename looked for; a directory that cannot be listed has no entry
    at all. *)
Theorem X1_probe_is_null_iff_no_entry_is_selected :
  forall (dir basename : string) (condition : string -> bool),
    searchFileWithBasename dir basename condition = Resolved None
    <-> (forall files,
            listing dir = Some files ->
            Forall (fun file => ~ (condition file = true /\ getFileBasename file = basename))
                   files).
Proof.
  intros dir basename condition. rewrite searchFileWithBasename_unfold.
  destruct (listing dir) as [files|].
  - split.
    + intros H files' [= <-].
      destruct (searchFiles dir basename condition files) as [found|e] eqn:Hs;
        simpl in H; [|discriminate].
      injection H as ->. apply searchFiles_none in Hs.
      eapply Forall_impl; [|exact Hs]. intros f. apply selects_false.
    + intros H. specialize (H files eq_refl).
      assert (Hs : searchFiles dir basename condition files = Normal None).
      { apply searchFiles_none. eapply Forall_impl; [|exact H].
        intros f. apply selects_false. }
      now rewrite Hs.
  - split; [intros _ files; discriminate | reflexivity].
Qed.

(** X2.  A path that [searchFileWithBasename] resolves to is the
    directory joined with the first entry, in the order of the listing,
    that passes the condition and has the basename looked for: every
    entry before it fails one of the two tests. *)
Theorem X2_probe_returns_the_first_selected_entry :
  forall (dir basename : string) (condition : string -> bool) (found : string),
    searchFileWithBasename dir basename condition = Resolved (Some found) ->
    exists before file after,
      listing dir = Some (before ++ file :: after)
      /\ Forall (fun f => ~ (condition f = true /\ getFileBasename f = basename)) before
      /\ condition file = true
      /\ getFileBasename file = basename
      /\ found = nuclideUri.path_join [dir; file].
Proof.
  intros dir basename condition found. rewrite searchFileWithBasename_unfold.
  destruct (searchFiles dir basename condition
              match listing dir with Some files => files | None => [] end)
    as [r|e] eqn:Hs; simpl; [|discriminate].
  intros [= ->].
  destruct (searchFiles_some_first _ _ _ _ _ Hs) as (before & file & after & Hl & Hb & Hf & ->).
  apply selects_iff in Hf. destruct Hf as [Hc Hn].
  exists before, file, after. repeat split; auto.
  - destruct (listing dir) as [files|]; [now rewrite Hl|].
    now destruct before.
  - eapply Forall_impl; [|exact Hb]. intros f. apply selects_false.
Qed.

End ProbeResults.

(* ===================================================================== *)
(** ** Frameworks, in full                                                *)
(* ===================================================================== *)

Lemma Array_findIndex_none {A} (p : A -> bool) l :
  Array_findIndex p l = None <-> Forall (fun y => p y = false) l.
Proof.
  induction l as [|x l IH]; simpl.
  - split; [constructor | reflexivity].
  - destruct (p x) eqn:Hp.
    + split; [discriminate|]. intros H. inversion H; congruence.
    + destruct (Array_findIndex p l); simpl.
      * split; [discriminate|]. intros H. inversion H; subst.
        now apply IH in H3.
      * split; [|reflexivity]. intros _. constructor; [assumption | now apply IH].
Qed.

(** X3.  [getFrameworkStructure] returns [null] exactly for a directory
    none of whose segments is [Sources] (the comparison is exact:
    [sources] or [Sources2] do not count). *)
Theorem X3_framework_is_null_iff_no_Sources_segment :
  forall dir : string,
    getFrameworkStructure dir = Normal None <-> ~ In "Sources" (nuclideUri.split dir).
Proof.
  intros dir. unfold getFrameworkStructure.
  destruct (Array_findIndex (fun folderName => String.eqb folderName "Sources")
              (rev (nuclideUri.split dir))) as [i|] eqn:Hi.
  - split.
    + intros H. exfalso.
      destruct (nuclideUri.join _) in H; simpl in H; [|discriminate].
      destruct (if Nat.eqb _ 0 then _ else _) in H; simpl in H; discriminate.
    + intros Hn. apply not_Sources_rev in Hn.
      apply Array_findIndex_none in Hn. congruence.
  - split; [|reflexivity]. intros _ Hin.
    apply Array_findIndex_none in Hi. rewrite Forall_forall in Hi.
    specialize (Hi "Sources"). rewrite <- in_rev in Hi. now specialize (Hi Hin).
Qed.

Section FrameworkResults.
Context {utils : Utils} {host : Host}.

(** X4.  For a directory with a segment before its last [Sources]
    segment, the framework name is that segment, the framework path is
    the join of the segments before [Sources], and a header folder is
    probed at [frameworkPath/<folder>/frameworkName/frameworkSubFolder]:
    the name appears twice in the probed path. *)
Theorem X4_framework_is_named_by_the_segment_before_Sources :
  forall (dir : string) (before after : list string),
    nuclideUri.split dir = before ++ "Sources" :: after ->
    ~ In "Sources" after ->
    before <> [] ->
    exists st,
      getFrameworkStructure dir = Normal (Some st)
      /\ frameworkName st = last before ""
      /\ frameworkPath st = nuclideUri.path_join before
      /\ forall basename headerFolder,
           searchHeaderFolder st basename headerFolder
           = searchFileWithBasename
               (nuclideUri.path_join
                  [nuclideUri.path_join before; headerFolder; last before "";
                   frameworkSubFolder st])
               basename isHeaderFile.
Proof.
  intros dir before after Hsplit Hafter Hbefore. eexists.
  split; [now apply (getFrameworkStructure_segments dir before after)|].
  split; [reflexivity|]. split; [reflexivity|].
  intros basename headerFolder. now rewrite searchHeaderFolder_unfold.
Qed.

(** X5.  When neither the directory of the source nor the [Headers]
    folder of its framework has a header for it, the result is that of
    the probe of the [PrivateHeaders] folder, [null] included. *)
Theorem X5_PrivateHeaders_is_the_fallback :
  forall (src : string) (st : FrameworkStructure),
    searchFileWithBasename (nuclideUri.dirname src) (getFileBasename src) isHeaderFile
    = Resolved None ->
    getFrameworkStructure (nuclideUri.dirname src) = Normal (Some st) ->
    searchHeaderFolder st (getFileBasename src) "Headers" = Resolved None ->
    getRelatedHeaderForSourceFromFramework src
    = searchHeaderFolder st (getFileBasename src) "PrivateHeaders"
    /\ getRelatedHeaderForSource src
       = searchHeaderFolder st (getFileBasename src) "PrivateHeaders".
Proof.
  intros src st Hdir Hst Hheaders.
  destruct (searchHeaderFolder_resolves st (getFileBasename src) "PrivateHeaders")
    as [inPrivate Hprivate].
  pose proof (fromFramework_probes src st None inPrivate Hst Hheaders Hprivate) as H.
  rewrite Hprivate. split; [exact H|].
  unfold getRelatedHeaderForSource. rewrite Hdir. exact H.
Qed.

(** X6.  A source file without a header in its directory and without a
    [Sources] segment in the path of its directory has no related
    header: no other directory is probed. *)
Theorem X6_no_header_outside_a_framework :
  forall src : string,
    searchFileWithBasename (nuclideUri.dirname src) (getFileBasename src) isHeaderFile
    = Resolved None ->
    ~ In "Sources" (nuclideUri.split (nuclideUri.dirname src)) ->
    getRelatedHeaderForSourceFromFramework src = Resolved None
    /\ getRelatedHeaderForSource src = Resolved None.
Proof.
  intros src Hdir Hn.
  assert (Hst : getFrameworkStructure (nuclideUri.dirname src) = Normal None).
  { apply not_Sources_rev in Hn. apply Array_findIndex_none in Hn.
    unfold getFrameworkStructure. now rewrite Hn. }
  assert (H : getRelatedHeaderForSourceFromFramework src = Resolved None).
  { unfold getRelatedHeaderForSourceFromFramework. now rewrite Hst. }
  split; [exact H|]. unfold getRelatedHeaderForSource. now rewrite Hdir.
Qed.

End FrameworkResults.

(* ===================================================================== *)
(** ** The tree search, in full                                           *)
(* ===================================================================== *)

Module RxResults.
Import Rx.

Lemma flatMapFrom_In {A B} (project : A -> Completion (Sync B)) es e t b :
  In (t, b) (emissions (flatMapFrom project es e)) ->
  exists a bs, In (t, a) es /\ project a = Normal bs /\ In b bs.
Proof.
  induction es as [|[t0 a0] es IH]; simpl; [contradiction|].
  destruct (project a0) as [bs|err] eqn:Hp; simpl; [|contradiction].
  intros H. apply in_app_or in H. destruct H as [H|H].
  - apply in_map_iff in H. destruct H as (b' & [= <- <-] & Hb).
    exists a0, bs. auto.
  - destruct (IH H) as (a & bs' & Ha & Hpa & Hb). exists a, bs'. auto.
Qed.

Lemma take1_In {A} (o : Observable A) x :
  In x (emissions (take 1 o)) -> In x (emissions o).
Proof.
  destruct (RxFacts.take1_cases o) as [[-> _]|(t & v & rest & He & ->)]; simpl.
  - contradiction.
  - intros [<-|[]]. rewrite He. now left.
Qed.

Lemma catch_In {A} (o : Observable A) selector t a :
  In (t, a) (emissions (catch o selector)) ->
  In (t, a) (emissions o) \/ exists e, In a (selector e).
Proof.
  unfold catch. destruct (ending o) as [t'|t' e|]; simpl; auto.
  intros H. apply in_app_or in H. destruct H as [H|H]; [now left|].
  apply in_map_iff in H. destruct H as (a' & [= <- <-] & Ha). right. now exists e.
Qed.

Lemma timeoutFrom_In {A} due (es : list (Time * A)) :
  forall last e x, In x (emissions (timeoutFrom due last es e)) -> In x es.
Proof.
  induction es as [|[t a] es IH]; intros last e x; simpl.
  - destruct e; simpl; auto.
  - destruct (inTime due last t); simpl; [|contradiction].
    intros [<-|H]; [now left | right; now apply (IH t e)].
Qed.

Lemma last_In {A} (l : list A) d x : last l d = x -> x <> d -> In x l.
Proof.
  induction l as [|y l IH]; simpl; [congruence|].
  destruct l as [|z l]; [intros <- _; now left|].
  intros H Hx. right. now apply IH.
Qed.

(** What [toPromise] resolves to after [catch(() => Observable.of(null))]
    is a value that was delivered, when it is not [null]. *)
Lemma toPromise_catch_some {A} (o : Observable (option A)) f :
  toPromise None (catch o (fun _ => Observable_of None)) = Resolved (Some f) ->
  exists t, In (t, Some f) (emissions o).
Proof.
  unfold toPromise, catch.
  destruct (ending o) as [t|t e|] eqn:He; simpl; rewrite ?He; simpl; [| |discriminate].
  - intros [= H]. apply last_In in H; [|discriminate].
    apply in_map_iff in H. destruct H as ([t' v] & Hv & Hin). simpl in Hv. subst v.
    now exists t'.
  - rewrite map_app. unfold Observable_of. cbn [map snd]. rewrite last_last. discriminate.
Qed.

(** On an observable that delivers one value and completes with it,
    the time limit is a test on the time of the value. *)
Lemma timeout_single {A} due t (v : A) :
  (0 < due)%N ->
  timeout due (mkObservable [(t, v)] (Completed t))
  = if N.ltb t due then mkObservable [(t, v)] (Completed t)
    else mkObservable [] (Failed due TimeoutError).
Proof.
  intros Hdue. unfold timeout. cbn [timeoutFrom emissions ending]. unfold inTime, emit.
  rewrite N.add_0_l. destruct (N.ltb t due) eqn:Ht; [|reflexivity].
  assert (Hlt : N.ltb t (N.add t due) = true) by (apply N.ltb_lt; lia).
  cbn [emissions ending]. now rewrite Hlt.
Qed.

End RxResults.

Lemma String_indexOf_split c s :
  forall i,
    String_indexOf c s = Some i ->
    s = (String_substr 0 i s ++ String c (String_substr_from (i + 1) s))%string
    /\ String_indexOf c (String_substr 0 i s) = None.
Proof.
  unfold String_substr.
  induction s as [|c' s IH]; intros i; simpl; [discriminate|].
  destruct (Ascii.eqb c' c) eqn:Hc.
  - intros [= <-]. apply Ascii.eqb_eq in Hc. subst c'. simpl. now destruct s.
  - destruct (String_indexOf c s) as [j|] eqn:Hj; simpl; [|discriminate].
    intros [= <-]. destruct (IH j eq_refl) as [Hs Hn].
    simpl. rewrite Hc, Hn. simpl. split; [|reflexivity].
    f_equal. exact Hs.
Qed.

Section SearchResults.
Context {utils : Utils} {host : Host}.

(** X7.  The pattern text that [findIncludingSourceFile] hands to [grep]
    is, for every header and project root, a well-formed pattern:
    [new RegExp] does not throw on it, and in the pattern it yields the
    file name of the header and its path relative to the root are
    literal texts, whatever characters they hold. *)
Theorem X7_include_pattern_is_well_formed :
  forall (headerFile projectRoot : string),
    RegExp.new (nth 2 (grepArguments headerFile projectRoot) "")
    = Normal (includeRegex (nuclideUri.relative cwd projectRoot headerFile)
                           (nuclideUri.basename headerFile))
    /\ exists found, findIncludingSourceFile headerFile projectRoot = Normal found.
Proof.
  intros headerFile projectRoot. split.
  - unfold grepArguments. cbn [nth]. apply new_includePattern.
  - eexists. apply findIncludingSourceFile_returns.
Qed.

(** X10.  A file name that [processGrepResult] returns is the text of
    the result before its first NUL, it is a source file, the text after
    the NUL matches the pattern, and, when group 2 took part in the
    match, the include path of group 1 resolved against the directory of
    the file is the header. *)
Theorem X10_processGrepResult_returns_a_verified_source_file :
  forall (result headerFile : string) (regex : RegExp.Pattern) (filename : string),
    processGrepResult result headerFile regex = Normal (Some filename) ->
    exists line m,
      result = grepLine filename line
      /\ String_indexOf NUL filename = None
      /\ isSourceFile filename = true
      /\ RegExp.exec regex line = Some m
      /\ (RegExp.group m 2 <> None ->
          exists include,
            RegExp.group m 1 = Some include
            /\ nuclideUri.normalize
                 (nuclideUri.path_join [nuclideUri.dirname filename; include])
               = headerFile).
Proof.
  intros result headerFile regex filename. unfold processGrepResult.
  destruct (String_indexOf NUL result) as [i|] eqn:Hi; [|discriminate].
  destruct (String_indexOf_split _ _ _ Hi) as [Hsplit Hnul].
  destruct (isSourceFile (String_substr 0 i result)) eqn:Hsrc; simpl negb; cbv iota;
    [|discriminate].
  destruct (RegExp.exec regex (String_substr_from (i + 1) result)) as [m|] eqn:Hm;
    [|discriminate].
  intros H.
  assert (Hname : String_substr 0 i result = filename
                  /\ (RegExp.group m 2 <> None ->
                      exists include,
                        RegExp.group m 1 = Some include
                        /\ nuclideUri.normalize
                             (nuclideUri.path_join
                                [nuclideUri.dirname (String_substr 0 i result); include])
                           = headerFile)).
  { destruct (RegExp.group m 2) as [g2|]; [|split; [congruence | congruence]].
    destruct (RegExp.group m 1) as [include|]; simpl in H; [|discriminate].
    destruct (String.eqb _ headerFile) eqn:Heq; simpl in H; [|discriminate].
    apply String.eqb_eq in Heq. split; [congruence|].
    intros _. now exists include. }
  destruct Hname as [Hname Hverified]. rewrite Hname in *.
  exists (String_substr_from (i + 1) result), m. repeat split; auto.
Qed.

Lemma onMessage_some headerFile regex message values file :
  onMessage headerFile regex message = Normal values ->
  In (Some file) values ->
  exists data,
    message = stdout data /\ processGrepResult data headerFile regex = Normal (Some file).
Proof.
  destruct message as [data|data|code|err]; simpl.
  - destruct (processGrepResult data headerFile regex) as [[f|]|e] eqn:Hgrep; simpl;
      [| |discriminate]; intros [= <-]; simpl; [|contradiction].
    intros [[= <-]|[]]. now exists data.
  - intros [= <-] [].
  - intros [= <-] [[=]|[]].
  - discriminate.
Qed.

(** A file that the observable of [findIncludingSourceFile] delivers
    comes from a line of [grep] that [processGrepResult] accepted. *)
Lemma findIncludingSourceFile_sound headerFile projectRoot found t file :
  findIncludingSourceFile headerFile projectRoot = Normal found ->
  In (t, Some file) (Rx.emissions found) ->
  exists data,
    In (t, stdout data) (Rx.emissions (grepProcess headerFile projectRoot))
    /\ processGrepResult data headerFile (searchRegex headerFile projectRoot)
       = Normal (Some file).
Proof.
  rewrite findIncludingSourceFile_returns. intros [= <-] Hin.
  apply RxResults.take1_In in Hin. apply RxResults.flatMapFrom_In in Hin.
  destruct Hin as (message & values & Hmsg & Hon & Hfile).
  destruct (onMessage_some _ _ _ _ _ Hon Hfile) as (data & -> & Hgrep).
  exists data. split; [|exact Hgrep].
  apply RxResults.catch_In in Hmsg. destruct Hmsg as [H|[e [H|[]]]]; [exact H | discriminate].
Qed.

(** X8.  A file that [findSourceFileForHeader] resolves to is the source
    file found in the directory of the header, or a file that [grep]
    printed, with a line that [processGrepResult] accepted, before
    [INCLUDE_SEARCH_TIMEOUT]. *)
Theorem X8_findSourceFileForHeader_result_is_found_or_accepted :
  forall (header projectRoot file : string),
    findSourceFileForHeader header projectRoot = Resolved (Some file) ->
    searchFileWithBasename (nuclideUri.dirname header) (getFileBasename header) isSourceFile
    = Resolved (Some file)
    \/ exists t data,
         In (t, stdout data) (Rx.emissions (grepProcess header projectRoot))
         /\ processGrepResult data header (searchRegex header projectRoot)
            = Normal (Some file)
         /\ (t < INCLUDE_SEARCH_TIMEOUT)%N.
Proof.
  intros header projectRoot file. unfold findSourceFileForHeader.
  destruct (searchFileWithBasename (nuclideUri.dirname header) (getFileBasename header)
              isSourceFile) as [[s|]|e|]; simpl; try discriminate.
  - intros [= ->]. now left.
  - destruct (findIncludingSourceFile header projectRoot) as [found|e] eqn:Hfound;
      simpl; [|discriminate].
    intros H. right. apply RxResults.toPromise_catch_some in H. destruct H as [t Hin].
    assert (Hshape : found = Rx.take 1
               (Rx.flatMap
                  (Rx.catch (grepProcess header projectRoot)
                            (fun err => Rx.Observable_of (error err)))
                  (onMessage header (searchRegex header projectRoot)))).
    { rewrite findIncludingSourceFile_returns in Hfound. congruence. }
    assert (Htime : (t < INCLUDE_SEARCH_TIMEOUT)%N /\ In (t, Some file) (Rx.emissions found)).
    { rewrite Hshape in *.
      match type of Hin with
      | In _ (Rx.emissions (Rx.timeout _ (Rx.take 1 ?o))) =>
          destruct (RxFacts.take1_cases o) as [[Ht He]|(t' & v & rest & He & Ht)];
            rewrite Ht in *
      end.
      - exfalso. unfold Rx.timeout in Hin. simpl in Hin.
        match type of Hin with
        | In _ (Rx.emissions (match ?e with _ => _ end)) => destruct e
        end; simpl in Hin; contradiction.
      - rewrite RxResults.timeout_single in Hin by reflexivity.
        destruct (N.ltb t' INCLUDE_SEARCH_TIMEOUT) eqn:Hlt; simpl in Hin; [|contradiction].
        destruct Hin as [[= <- ->]|[]]. apply N.ltb_lt in Hlt.
        split; [exact Hlt | now left]. }
    destruct Htime as [Htime Hin'].
    destruct (findIncludingSourceFile_sound _ _ _ _ _ Hfound Hin') as (data & Hdata & Hgrep).
    exists t, data. auto.
Qed.

(** X9.  When the directory of the header has no source file for it and
    the first message of [grep] that is not quiet is a line that
    [processGrepResult] accepts, [findSourceFileForHeader] resolves to
    the file of that line if the line arrives before
    [INCLUDE_SEARCH_TIMEOUT], and to [null] otherwise. *)
Theorem X9_findSourceFileForHeader_returns_a_match_made_in_time :
  forall (header projectRoot : string) before t data file after,
    searchFileWithBasename (nuclideUri.dirname header) (getFileBasename header) isSourceFile
    = Resolved None ->
    Rx.emissions (grepProcess header projectRoot) = before ++ (t, stdout data) :: after ->
    Forall (quiet header projectRoot) (map snd before) ->
    processGrepResult data header (searchRegex header projectRoot) = Normal (Some file) ->
    findSourceFileForHeader header projectRoot
    = Resolved (if N.ltb t INCLUDE_SEARCH_TIMEOUT then Some file else None).
Proof.
  intros header projectRoot before t data file after Hdir Hout Hquiet Hgrep.
  unfold findSourceFileForHeader. rewrite Hdir. simpl await.
  rewrite (findIncludingSourceFile_first header projectRoot before t (stdout data) after
             (Some file) Hout Hquiet)
    by (simpl; now rewrite Hgrep).
  simpl async. simpl await.
  rewrite RxResults.timeout_single by reflexivity.
  destruct (N.ltb t INCLUDE_SEARCH_TIMEOUT); reflexivity.
Qed.

(** X11.  When the process observable fails after quiet messages only
    (the command cannot be spawned, say), the observable of
    [findIncludingSourceFile] fails with an [Error] whose message is the
    failure turned into a string, and delivers nothing, not even
    [null]. *)
Theorem X11_a_failed_process_fails_the_search :
  forall (headerFile projectRoot : string) (t : Rx.Time) (e : JsError),
    Rx.ending (grepProcess headerFile projectRoot) = Rx.Failed t e ->
    Forall (quiet headerFile projectRoot)
           (map snd (Rx.emissions (grepProcess headerFile projectRoot))) ->
    exists found,
      findIncludingSourceFile headerFile projectRoot = Normal found
      /\ Rx.emissions found = []
      /\ Rx.ending found = Rx.Failed t (Error (String_of_error e))
      /\ Rx.toPromise None found = Rejected (Error (String_of_error e)).
Proof.
  intros headerFile projectRoot t e Hend Hquiet. eexists.
  split; [now apply (findIncludingSourceFile_failure headerFile projectRoot t e)|].
  repeat split.
Qed.

End SearchResults.

(* ===================================================================== *)
(** ** Includes by file name                                              *)
(* ===================================================================== *)

Module RegExpResults.
Import RegExp.

Lemma clearCaptures_nil cs : clearCaptures [] cs = cs.
Proof.
  unfold clearCaptures. induction cs as [|e cs IH]; [reflexivity|].
  change (e :: filter (fun e0 => negb (existsb (Nat.eqb (fst e0)) [])) cs = e :: cs).
  now rewrite IH.
Qed.

Lemma step1_keeps_captures ok x k st :
  step1 ok x k = Some st -> exists y, k y = Some st /\ captures y = captures x.
Proof.
  unfold step1. destruct (rest x) as [|c tl]; [discriminate|].
  destruct (ok c); [|discriminate]. intros H. eexists. split; [exact H | reflexivity].
Qed.

Lemma repeat_keeps_captures body :
  (forall x k st, body x k = Some st -> exists y, k y = Some st /\ captures y = captures x) ->
  forall fuel x k st,
    repeat body [] fuel x k = Some st -> exists y, k y = Some st /\ captures y = captures x.
Proof.
  intros Hbody. induction fuel as [|fuel IH]; intros x k st; cbn [repeat].
  - intros H. now exists x.
  - match goal with
    | |- orElse ?a _ = _ -> _ => destruct a as [s0|] eqn:Ha
    end; simpl.
    + intros [= ->]. apply Hbody in Ha. destruct Ha as (y & Hy & Hc).
      destruct (Nat.eqb (index y) (index x)); [discriminate|].
      apply IH in Hy. destruct Hy as (y' & Hk & Hc').
      exists y'. split; [exact Hk|]. rewrite Hc', Hc. simpl. apply clearCaptures_nil.
    + intros H. now exists x.
Qed.

(** A pattern without a group hands to its continuation the captures it
    was given. *)
Lemma matcher_keeps_captures r :
  groupsOf r = [] ->
  forall x k st,
    matcher r x k = Some st -> exists y, k y = Some st /\ captures y = captures x.
Proof.
  induction r as [|c| | |cs| | |r1 IH1 r2 IH2|r1 IH1 r2 IH2|r IH|r IH|n r IH];
    intros Hg x k st; cbn [matcher]; try (apply step1_keeps_captures).
  - intros H. now exists x.
  - destruct (Nat.eqb (index x) 0); [|discriminate]. intros H. now exists x.
  - destruct (rest x); [|discriminate]. intros H. now exists x.
  - simpl in Hg. apply app_eq_nil in Hg. destruct Hg as [Hg1 Hg2].
    intros H. apply (IH1 Hg1) in H. destruct H as (y & H & Hc).
    apply (IH2 Hg2) in H. destruct H as (y' & H & Hc').
    exists y'. split; [exact H | congruence].
  - simpl in Hg. apply app_eq_nil in Hg. destruct Hg as [Hg1 Hg2].
    destruct (matcher r1 x k) as [s0|] eqn:H1; simpl.
    + intros [= ->]. now apply (IH1 Hg1).
    + now apply (IH2 Hg2).
  - simpl in Hg. rewrite Hg. apply repeat_keeps_captures. now apply IH.
  - simpl in Hg. rewrite Hg. intros H. apply (IH Hg) in H. destruct H as (y & H & Hc).
    apply (repeat_keeps_captures _ (IH Hg)) in H. destruct H as (y' & H & Hc').
    exists y'. split; [exact H|]. rewrite Hc', Hc. simpl. apply clearCaptures_nil.
  - discriminate.
Qed.

Lemma groupsOf_literalThen s r : groupsOf (literalThen s r) = groupsOf r.
Proof. induction s as [|c s IH]; simpl; [reflexivity | exact IH]. Qed.

Lemma matcher_Star_stop r x k :
  (forall y k', rest y = rest x -> matcher r y k' = None) ->
  matcher (Star r) x k = k x.
Proof.
  intros H. cbn [matcher repeat]. now rewrite H.
Qed.

(** The group [(../)] needs a [/] in what is left of the input. *)
Lemma matcher_ascent_absent x k :
  ~ In "/"%char (rest x) ->
  matcher (Group 2 (Seq Dot (Seq Dot (Seq (Char "/") Empty)))) x k = None.
Proof.
  intros Hout. cbn [matcher]. unfold step1.
  destruct (rest x) as [|a [|b [|c tl]]]; cbn [rest index captures];
    try reflexivity;
    destruct (negb (isLineTerminator a)); try reflexivity;
    destruct (negb (isLineTerminator b)); try reflexivity.
  destruct (Ascii.eqb "/" c) eqn:Hc; [|reflexivity].
  apply Ascii.eqb_eq in Hc. subst c. exfalso. apply Hout. simpl. auto.
Qed.

End RegExpResults.

Lemma basename_has_no_separator p : ~ In "/"%char (chars (nuclideUri.basename p)).
Proof.
  unfold nuclideUri.basename. rewrite chars_str. intros Hin.
  pose proof (FixtureFacts.takeWhile_forallb nuclideUri.notSep
                (nuclideUri.dropWhile nuclideUri.isSep (rev (chars p)))) as H.
  rewrite <- nuclideUriFacts.forallb_rev in H. rewrite forallb_forall in H.
  specialize (H _ Hin). discriminate.
Qed.

(** The include of a header by its file name alone matches the pattern
    with group 2 unset, whatever the path of the header relative to the
    project root is. *)
Lemma exec_bare_include rel base :
  ~ In "/"%char (chars base) ->
  exists m,
    RegExp.exec (includeRegex rel base) (bareInclude base) = Some m
    /\ RegExp.group m 2 = None.
Proof.
  intros Hbase.
  assert (Hrest : ~ In "/"%char (chars base ++ [ascii_of_nat 34])).
  { intros H. apply in_app_or in H. destruct H as [H|[H|[]]]; [auto | discriminate]. }
  unfold RegExp.exec, includeRegex.
  change (chars (bareInclude base))
    with (chars "#include" ++ " "%char :: ascii_of_nat 34 :: chars (base ++ dquote))%list.
  rewrite chars_app. change (chars dquote) with [ascii_of_nat 34].
  match goal with
  | |- exists m, option_map _ (RegExp.search ?r 0 ?i) = _ /\ _ =>
      assert (H : exists st,
                 RegExp.search r 0 i = Some st
                 /\ RegExp.capture 2 (RegExp.captures st) = None)
  end.
  { match goal with
    | |- exists st, RegExp.search ?r 0 ?i = _ /\ _ =>
        assert (H : exists st,
                   RegExp.matcher r (RegExp.mkState 0 i []) Some = Some st
                   /\ RegExp.capture 2 (RegExp.captures st) = None)
    end.
    2:{ destruct H as (st & H & Hc). exists st.
        split; [now apply RegExpFacts.search_at_start | exact Hc]. }
    rewrite RegExpFacts.matcher_Seq, RegExpFacts.matcher_Bol by reflexivity.
    rewrite RegExpFacts.matcher_Seq, RegExpFacts.matcher_Star_Space_stop by reflexivity.
    rewrite (RegExpFacts.matcher_literalThen
               _ _ _ _ (" "%char :: ascii_of_nat 34 :: chars base ++ [ascii_of_nat 34]))
      by reflexivity.
    cbn [RegExp.index RegExp.rest RegExp.captures].
    rewrite RegExpFacts.matcher_Seq.
    rewrite (RegExpFacts.matcher_Plus_Space_one
               _ _ " "%char (ascii_of_nat 34 :: chars base ++ [ascii_of_nat 34]))
      by reflexivity.
    cbn [RegExp.index RegExp.rest RegExp.captures].
    rewrite RegExpFacts.matcher_Seq.
    rewrite (RegExpFacts.matcher_Class _ _ _ (ascii_of_nat 34)
               (chars base ++ [ascii_of_nat 34])) by reflexivity.
    cbn [RegExp.index RegExp.rest RegExp.captures].
    rewrite RegExpFacts.matcher_Seq, RegExpFacts.matcher_Group.
    cbn [RegExp.index RegExp.rest RegExp.captures].
    match goal with
    | |- exists st, RegExp.matcher (RegExp.Alt ?r1 ?r2) ?x ?k = _ /\ _ =>
        change (RegExp.matcher (RegExp.Alt r1 r2) x k)
          with (RegExp.orElse (RegExp.matcher r1 x k) (fun _ => RegExp.matcher r2 x k));
        destruct (RegExp.matcher r1 x k) as [st|] eqn:Hfirst
    end.
    - (* the first branch matched: the header is named like its path *)
      exists st. split; [reflexivity|].
      apply RegExpResults.matcher_keeps_captures in Hfirst;
        [|now rewrite RegExpResults.groupsOf_literalThen].
      destruct Hfirst as (y & Hy & Hcy). cbn [RegExp.captures] in Hcy.
      apply RegExpResults.matcher_keeps_captures in Hy; [|reflexivity].
      destruct Hy as (y' & [= <-] & Hcy'). rewrite Hcy'. cbn [RegExp.captures].
      rewrite Hcy. reflexivity.
    - (* the second branch, with no ascent *)
      cbn [RegExp.orElse].
      rewrite RegExpFacts.matcher_Seq.
      rewrite RegExpResults.matcher_Star_stop
        by (intros y k' Hy; apply RegExpResults.matcher_ascent_absent; now rewrite Hy).
      rewrite (RegExpFacts.matcher_literalThen _ _ _ _ [ascii_of_nat 34]) by reflexivity.
      rewrite RegExpFacts.matcher_Empty.
      cbn [RegExp.index RegExp.rest RegExp.captures].
      rewrite RegExpFacts.matcher_Seq.
      rewrite (RegExpFacts.matcher_Class _ _ _ (ascii_of_nat 34) []) by reflexivity.
      cbn [RegExp.index RegExp.rest RegExp.captures].
      rewrite RegExpFacts.matcher_Seq, RegExpFacts.matcher_Star_Space_stop by reflexivity.
      rewrite RegExpFacts.matcher_Seq, RegExpFacts.matcher_Eol by reflexivity.
      rewrite RegExpFacts.matcher_Empty.
      eexists. split; reflexivity. }
  destruct H as (st & -> & Hc). exists (RegExp.captures st).
  split; [reflexivity|]. unfold RegExp.group. now rewrite Hc.
Qed.

Section BareIncludes.
Context {utils : Utils} {host : Host}.

(** X12.  A line that includes a file named like the header, by that
    name alone, is accepted for every source file, wherever the file
    is: group 2 is unset, so the include is not resolved against the
    directory of the file, although it may be another header of that
    name that the file includes. *)
Theorem X12_include_by_name_is_accepted_unverified :
  forall (headerFile projectRoot filename : string),
    isSourceFile filename = true ->
    String_indexOf NUL filename = None ->
    processGrepResult (grepLine filename (bareInclude (nuclideUri.basename headerFile)))
                      headerFile (searchRegex headerFile projectRoot)
    = Normal (Some filename).
Proof.
  intros headerFile projectRoot filename Hsource Hnul.
  unfold processGrepResult.
  rewrite (String_indexOf_grepLine _ _ Hnul), String_substr_grepLine,
    String_substr_from_grepLine.
  rewrite Hsource. simpl negb. cbv iota. unfold searchRegex.
  destruct (exec_bare_include (nuclideUri.relative cwd projectRoot headerFile)
              (nuclideUri.basename headerFile) (basename_has_no_separator headerFile))
    as (m & -> & ->).
  reflexivity.
Qed.

End BareIncludes.

(* ===================================================================== *)
(** ** The features of the package                                        *)
(* ===================================================================== *)

Module PackageResults.
Import Package.

Lemma Array_map_In {A B} (f : A -> Result B) l :
  forall ys,
    Array_map f l = Return ys ->
    forall y, In y ys <-> exists x, In x l /\ f x = Return y.
Proof.
  induction l as [|x l IH]; intros ys; simpl.
  - intros [= <-] y. split; [contradiction | intros (x & [] & _)].
  - destruct (f x) as [y0|err] eqn:Hx; [|discriminate].
    destruct (Array_map f l) as [ys0|err]; [|discriminate].
    intros [= <-] y. simpl. rewrite (IH ys0 eq_refl y). split.
    + intros [<-|(x' & Hin & Hf)]; [exists x; auto | exists x'; auto].
    + intros (x' & [<-|Hin] & Hf); [left; congruence | right; now exists x'].
Qed.

Lemma Array_map_raises {A B} (f : A -> Result B) before x after err :
  Forall (fun b => exists y, f b = Return y) before ->
  f x = Raise err ->
  Array_map f (before ++ x :: after) = Raise err.
Proof.
  intros Hbefore Hx. induction Hbefore as [|b before [y Hb] _ IH]; simpl.
  - now rewrite Hx.
  - now rewrite Hb, IH.
Qed.

Lemma Array_map_raised {A B} (f : A -> Result B) l err :
  Array_map f l = Raise err -> exists x, In x l /\ f x = Raise err.
Proof.
  induction l as [|x l IH]; simpl; [discriminate|].
  destruct (f x) as [y|err0] eqn:Hx.
  - destruct (Array_map f l) as [ys|err0]; [discriminate|].
    intros [= ->]. destruct (IH eq_refl) as (x' & Hin & Hf). exists x'. auto.
  - intros [= ->]. exists x. auto.
Qed.

Lemma filter_Boolean_In {A} (l : list (option A)) x :
  In x (filter_Boolean l) <-> In (Some x) l.
Proof.
  induction l as [|[y|] l IH]; simpl.
  - reflexivity.
  - rewrite IH. split; intros [H|H]; auto; left; congruence.
  - rewrite IH. split; [auto | intros [[=]|H]; exact H].
Qed.

Lemma not_available name names :
  existsb (String.eqb name) names = false -> ~ In name names.
Proof.
  intros H Hin. assert (Ht : existsb (String.eqb name) names = true).
  { apply existsb_exists. exists name. split; [exact Hin | apply String.eqb_refl]. }
  congruence.
Qed.

Section Body.
Context {Json : Type} (node : Node Json).

Lemma readFeature_some featureDir item d p :
  readFeature node featureDir item = Return (Some (mkFeature d p))
  <-> d = nuclideUri.path_join [featureDir; item]
      /\ exists pkgJson,
           readFileSync node (nuclideUri.path_join [d; "package.json"]) = Return pkgJson
           /\ JSON_parse node pkgJson = Return p.
Proof.
  unfold readFeature, readPackage. split.
  - destruct (readFileSync node _) as [pkgJson|err] eqn:Hread.
    + destruct (JSON_parse node pkgJson) as [p'|err] eqn:Hparse.
      * intros [= <- <-]. split; [reflexivity|]. now exists pkgJson.
      * destruct (negb (hasCode err "ENOENT")); discriminate.
    + destruct (negb (hasCode err "ENOENT")); discriminate.
  - intros (-> & pkgJson & Hread & Hparse). now rewrite Hread, Hparse.
Qed.

Lemma readFeature_raises featureDir item err :
  readFeature node featureDir item = Raise err ->
  readPackage node (nuclideUri.path_join [featureDir; item]) = Raise err
  /\ hasCode err "ENOENT" = false.
Proof.
  unfold readFeature.
  destruct (readPackage node _) as [feature|err0]; [discriminate|].
  destruct (hasCode err0 "ENOENT") eqn:Hcode; simpl; [discriminate|].
  intros [= ->]. auto.
Qed.

End Body.

End PackageResults.

Section PackageBody.
Import Package PackageResults.
Context {Json : Type} (node : Node Json).

(** X13.  When the module body makes its loader, [nuclide] is not among
    the available packages, the loader is made for [atom-ide-ui], and
    its features are exactly the entries of [pkg] whose [package.json]
    was read and parsed, each with its directory and the parsed value:
    an entry without a [package.json] is not a feature. *)
Theorem X13_features_are_the_entries_with_a_package_json :
  forall (pkgName : string) (features : list (Feature Json)),
    main node = Loaded pkgName features ->
    pkgName = "atom-ide-ui"
    /\ ~ In "nuclide" (availablePackageNames node)
    /\ exists items,
         readdirSync node (featureDir node) = Return items
         /\ forall d p,
              In (mkFeature d p) features
              <-> exists item pkgJson,
                    In item items
                    /\ d = nuclideUri.path_join [featureDir node; item]
                    /\ readFileSync node (nuclideUri.path_join [d; "package.json"])
                       = Return pkgJson
                    /\ JSON_parse node pkgJson = Return p.
Proof.
  intros pkgName features. unfold main.
  destruct (existsb (String.eqb "nuclide") (availablePackageNames node)) eqn:Hdup;
    [discriminate|].
  destruct (readdirSync node (featureDir node)) as [items|err] eqn:Hitems; [|discriminate].
  destruct (Array_map (readFeature node (featureDir node)) items) as [found|err] eqn:Hmap;
    [|discriminate].
  intros [= <- <-]. split; [reflexivity|].
  split; [now apply not_available|].
  exists items. split; [reflexivity|]. intros d p.
  rewrite filter_Boolean_In, (Array_map_In _ _ _ Hmap). split.
  - intros (item & Hin & Hread). apply readFeature_some in Hread.
    destruct Hread as (Hd & pkgJson & Hfile & Hparse). now exists item, pkgJson.
  - intros (item & pkgJson & Hin & Hd & Hfile & Hparse). exists item.
    split; [exact Hin|]. apply readFeature_some. split; [exact Hd|]. now exists pkgJson.
Qed.

(** X14.  When [nuclide] is not available and the [package.json] of an
    entry of [pkg] cannot be read, or does not parse, for a reason other
    than [ENOENT] (the entry is a plain file, say, and the code
    [ENOTDIR]), the module body throws that exception, provided no entry
    before it threw: no loader is made, whatever the other entries
    are. *)
Theorem X14_an_unreadable_package_json_aborts_the_loading :
  forall (before : list string) (item : string) (after : list string) (err : Exception),
    ~ In "nuclide" (availablePackageNames node) ->
    readdirSync node (featureDir node) = Return (before ++ item :: after) ->
    Forall (fun entry => exists feature,
                readFeature node (featureDir node) entry = Return feature) before ->
    (readFileSync node
       (nuclideUri.path_join [nuclideUri.path_join [featureDir node; item]; "package.json"])
     = Raise err
     \/ exists pkgJson,
          readFileSync node
            (nuclideUri.path_join [nuclideUri.path_join [featureDir node; item]; "package.json"])
          = Return pkgJson
          /\ JSON_parse node pkgJson = Raise err) ->
    hasCode err "ENOENT" = false ->
    main node = Thrown err.
Proof.
  intros before item after err Hdup Hitems Hbefore Hitem Hcode. unfold main.
  destruct (existsb (String.eqb "nuclide") (availablePackageNames node)) eqn:Hex.
  - exfalso. apply existsb_exists in Hex. destruct Hex as (name & Hin & Heq).
    apply String.eqb_eq in Heq. subst name. contradiction.
  - rewrite Hitems.
    rewrite (Array_map_raises _ before item after err Hbefore); [reflexivity|].
    unfold readFeature, readPackage.
    destruct Hitem as [->|(pkgJson & -> & ->)]; now rewrite Hcode.
Qed.

(** X15.  An exception of the module body is the one [readdirSync] threw
    for [pkg], or one thrown for the [package.json] of an entry, and
    then it is never an [ENOENT]: a missing [package.json] passes in
    silence. *)
Theorem X15_a_missing_package_json_never_aborts_the_loading :
  forall err : Exception,
    main node = Thrown err ->
    readdirSync node (featureDir node) = Raise err
    \/ exists items item,
         readdirSync node (featureDir node) = Return items
         /\ In item items
         /\ readPackage node (nuclideUri.path_join [featureDir node; item]) = Raise err
         /\ hasCode err "ENOENT" = false.
Proof.
  intros err. unfold main.
  destruct (existsb (String.eqb "nuclide") (availablePackageNames node)); [discriminate|].
  destruct (readdirSync node (featureDir node)) as [items|err0]; [|intros [= ->]; now left].
  destruct (Array_map (readFeature node (featureDir node)) items) as [found|err0] eqn:Hmap;
    [discriminate|].
  intros [= ->]. right. apply Array_map_raised in Hmap. destruct Hmap as (item & Hin & Hraise).
  apply readFeature_raises in Hraise. destruct Hraise as [Hpackage Hcode].
  exists items, item. auto.
Qed.

End PackageBody.

(* ===================================================================== *)
(** ** The delimiters of an include                                       *)
(* ===================================================================== *)

(** The two delimiters of the pattern are independent classes: the path
    relative to the root matches between any of [dquote] and [<] and any
    of [dquote] and [>]. *)
Lemma exec_root_relative_delimited rel base opening closing :
  In opening [ascii_of_nat 34; "<"%char] ->
  In closing [ascii_of_nat 34; ">"%char] ->
  RegExp.exec (includeRegex rel base)
              ("#include " ++ String opening (rel ++ String closing ""))
  = Some [(1, chars rel)].
Proof.
  intros Hopen Hclose.
  assert (Hspace : RegExp.isWhiteSpace opening = false)
    by (destruct Hopen as [<-|[<-|[]]]; reflexivity).
  assert (Hopening : existsb (Ascii.eqb opening) (chars dquote ++ ["<"%char]) = true)
    by (destruct Hopen as [<-|[<-|[]]]; reflexivity).
  assert (Hclosing : existsb (Ascii.eqb closing) (chars dquote ++ [">"%char]) = true)
    by (destruct Hclose as [<-|[<-|[]]]; reflexivity).
  unfold RegExp.exec, includeRegex.
  change (chars ("#include " ++ String opening (rel ++ String closing "")))
    with (chars "#include" ++ " "%char :: opening :: chars (rel ++ String closing ""))%list.
  rewrite chars_app. change (chars (String closing "")) with [closing].
  match goal with
  | |- option_map _ (RegExp.search ?r 0 ?i) = _ =>
      assert (H : exists idx,
                 RegExp.search r 0 i = Some (RegExp.mkState idx [] [(1, chars rel)]))
  end.
  { eexists. apply RegExpFacts.search_at_start.
    rewrite RegExpFacts.matcher_Seq, RegExpFacts.matcher_Bol by reflexivity.
    rewrite RegExpFacts.matcher_Seq, RegExpFacts.matcher_Star_Space_stop by reflexivity.
    rewrite (RegExpFacts.matcher_literalThen
               _ _ _ _ (" "%char :: opening :: chars rel ++ [closing])) by reflexivity.
    cbn [RegExp.index RegExp.rest RegExp.captures].
    rewrite RegExpFacts.matcher_Seq.
    rewrite (RegExpFacts.matcher_Plus_Space_one
               _ _ " "%char (opening :: chars rel ++ [closing]))
      by (reflexivity || exact Hspace).
    cbn [RegExp.index RegExp.rest RegExp.captures].
    rewrite RegExpFacts.matcher_Seq.
    rewrite (RegExpFacts.matcher_Class _ _ _ opening (chars rel ++ [closing]))
      by (reflexivity || exact Hopening).
    cbn [RegExp.index RegExp.rest RegExp.captures].
    rewrite RegExpFacts.matcher_Seq, RegExpFacts.matcher_Group.
    apply RegExpFacts.matcher_Alt_left.
    rewrite (RegExpFacts.matcher_literalThen _ _ _ _ [closing]) by reflexivity.
    rewrite RegExpFacts.matcher_Empty.
    cbn [RegExp.index RegExp.rest RegExp.captures].
    rewrite RegExpFacts.matcher_Seq.
    rewrite (RegExpFacts.matcher_Class _ _ _ closing []) by (reflexivity || exact Hclosing).
    cbn [RegExp.index RegExp.rest RegExp.captures].
    rewrite RegExpFacts.matcher_Seq, RegExpFacts.matcher_Star_Space_stop by reflexivity.
    rewrite RegExpFacts.matcher_Seq, RegExpFacts.matcher_Eol by reflexivity.
    rewrite RegExpFacts.matcher_Empty.
    match goal with
    | |- context [firstn ?n _] => replace n with (List.length (chars rel)) by lia
    end.
    rewrite firstn_upto. reflexivity. }
  destruct H as [idx ->]. reflexivity.
Qed.

Section Delimiters.
Context {utils : Utils} {host : Host}.

(** X16.  An include of the header by its path relative to the project
    root is accepted for every source file whichever delimiters it is
    written with: quotes, angle brackets, or one of each, the pattern
    not asking the closing delimiter to pair with the opening one. *)
Theorem X16_delimiters_need_not_pair :
  forall (headerFile projectRoot filename : string) (opening closing : ascii),
    isSourceFile filename = true ->
    String_indexOf NUL filename = None ->
    In opening [ascii_of_nat 34; "<"%char] ->
    In closing [ascii_of_nat 34; ">"%char] ->
    processGrepResult
      (grepLine filename
         ("#include "
            ++ String opening
                 (nuclideUri.relative cwd projectRoot headerFile ++ String closing "")))
      headerFile (searchRegex headerFile projectRoot)
    = Normal (Some filename).
Proof.
  intros headerFile projectRoot filename opening closing Hsource Hnul Hopen Hclose.
  unfold processGrepResult.
  rewrite (String_indexOf_grepLine _ _ Hnul), String_substr_grepLine,
    String_substr_from_grepLine.
  rewrite Hsource. simpl negb. cbv iota. unfold searchRegex.
  rewrite (exec_root_relative_delimited _ _ _ _ Hopen Hclose). reflexivity.
Qed.

End Delimiters.

(* ===================================================================== *)
(** ** Where the values of the tree search come from                       *)
(* ===================================================================== *)

Section DeliveredValues.
Context {utils : Utils} {host : Host}.

Lemma onMessage_null headerFile regex message values :
  onMessage headerFile regex message = Normal values ->
  In None values ->
  exists code, message = exit code.
Proof.
  destruct message as [data|data|code|err]; simpl.
  - destruct (processGrepResult data headerFile regex) as [[f|]|e]; simpl;
      [| |discriminate]; intros [= <-]; simpl; [|contradiction].
    intros [[=]|[]].
  - intros [= <-] [].
  - intros _ _. now exists code.
  - discriminate.
Qed.

(** X17.  Every value that the observable of [findIncludingSourceFile]
    delivers answers a message of the process that arrived at that
    time: a file answers a line of [grep] that [processGrepResult]
    accepted with that file, and [null] answers the [exit] message.
    Nothing is delivered for output on [stderr] or for a rejected
    line. *)
Theorem X17_every_delivered_value_answers_a_message :
  forall (headerFile projectRoot : string) (found : Rx.Observable (option string))
         (t : Rx.Time) (value : option string),
    findIncludingSourceFile headerFile projectRoot = Normal found ->
    In (t, value) (Rx.emissions found) ->
    match value with
    | Some file =>
        exists data,
          In (t, stdout data) (Rx.emissions (grepProcess headerFile projectRoot))
          /\ processGrepResult data headerFile (searchRegex headerFile projectRoot)
             = Normal (Some file)
    | None =>
        exists code, In (t, exit code) (Rx.emissions (grepProcess headerFile projectRoot))
    end.
Proof.
  intros headerFile projectRoot found t [file|] Hfound Hin.
  - now apply (findIncludingSourceFile_sound headerFile projectRoot found).
  - rewrite findIncludingSourceFile_returns in Hfound. injection Hfound as <-.
    apply RxResults.take1_In in Hin. apply RxResults.flatMapFrom_In in Hin.
    destruct Hin as (message & values & Hmsg & Hon & Hnull).
    destruct (onMessage_null _ _ _ _ Hon Hnull) as (code & ->).
    exists code.
    apply RxResults.catch_In in Hmsg. destruct Hmsg as [H|[e [H|[]]]]; [exact H | discriminate].
Qed.

End DeliveredValues.

Section DuplicatePackage.
Import Package.
Context {Json : Type} (node : Node Json).

(** X18.  The module body ends with the warning about the duplicate
    package exactly when [nuclide] is among the available packages; it
    then reads nothing and makes no loader, whatever [pkg] holds. *)
Theorem X18_the_warning_is_for_nuclide_only :
  (exists n, main node = Warned n) <-> In "nuclide" (availablePackageNames node).
Proof.
  unfold main.
  destruct (existsb (String.eqb "nuclide") (availablePackageNames node)) eqn:Hdup.
  - split; [|intros _; eexists; reflexivity]. intros _.
    apply existsb_exists in Hdup. destruct Hdup as (name & Hin & Heq).
    apply String.eqb_eq in Heq. now subst name.
  - split.
    + intros [n H]. destruct (readdirSync node (featureDir node)); [|discriminate].
      destruct (Array_map _ _); discriminate.
    + intros Hin. exfalso. now apply (PackageResults.not_available _ _ Hdup).
Qed.

End DuplicatePackage.

(* ===================================================================== *)
(** ** The results above, on concrete trees and outputs                   *)
(* ===================================================================== *)

Section ConcreteResults.
Import Fixture Samples.

Lemma X1_witness :
  listing (Host := onTree sideBySide) "proj" = Some ["Foo.m"; "Foo.h"; "Foo.hpp"; "Bar.h"]
  /\ searchFileWithBasename (host := onTree sideBySide) "proj" "Baz" isHeaderFile
     = Resolved None.
Proof.
  split; [vm_compute; reflexivity|].
  apply (proj2 (X1_probe_is_null_iff_no_entry_is_selected
                  (host := onTree sideBySide) "proj" "Baz" isHeaderFile)).
  intros files H. vm_compute in H. injection H as <-.
  repeat constructor; intros [H1 H2]; vm_compute in H1, H2; discriminate.
Defined.

Lemma X2_witness :
  searchFileWithBasename (host := onTree sideBySide) "proj" "Foo" isHeaderFile
  = Resolved (Some "proj/Foo.h")
  /\ exists before file after,
       listing (Host := onTree sideBySide) "proj" = Some (before ++ file :: after)
       /\ Forall (fun f => ~ (isHeaderFile f = true /\ getFileBasename f = "Foo")) before
       /\ isHeaderFile file = true
       /\ getFileBasename file = "Foo"
       /\ "proj/Foo.h" = nuclideUri.path_join ["proj"; file].
Proof.
  assert (H : searchFileWithBasename (host := onTree sideBySide) "proj" "Foo" isHeaderFile
              = Resolved (Some "proj/Foo.h")) by (vm_compute; reflexivity).
  split; [exact H|].
  exact (X2_probe_returns_the_first_selected_entry
           (host := onTree sideBySide) "proj" "Foo" isHeaderFile "proj/Foo.h" H).
Defined.

Lemma X3_witness :
  ~ In "Sources" (nuclideUri.split "proj/sources/Sources2/lib")
  /\ getFrameworkStructure "proj/sources/Sources2/lib" = Normal None.
Proof.
  assert (H : ~ In "Sources" (nuclideUri.split "proj/sources/Sources2/lib")).
  { vm_compute. intros [H|[H|[H|[H|[]]]]]; discriminate. }
  split; [exact H|].
  exact (proj2 (X3_framework_is_null_iff_no_Sources_segment "proj/sources/Sources2/lib") H).
Defined.

Lemma X4_witness :
  (nuclideUri.split "App/Fwk/Sources/Sub/Sources/Deep"
   = ["App"; "Fwk"; "Sources"; "Sub"] ++ "Sources" :: ["Deep"]
   /\ ~ In "Sources" ["Deep"]
   /\ ["App"; "Fwk"; "Sources"; "Sub"] <> [])
  /\ exists st,
       getFrameworkStructure "App/Fwk/Sources/Sub/Sources/Deep" = Normal (Some st)
       /\ frameworkName st = "Sub"
       /\ frameworkPath st = "App/Fwk/Sources/Sub".
Proof.
  assert (H1 : nuclideUri.split "App/Fwk/Sources/Sub/Sources/Deep"
               = ["App"; "Fwk"; "Sources"; "Sub"] ++ "Sources" :: ["Deep"])
    by (vm_compute; reflexivity).
  assert (H2 : ~ In "Sources" ["Deep"]) by (intros [H|[]]; discriminate).
  assert (H3 : ["App"; "Fwk"; "Sources"; "Sub"] <> []) by discriminate.
  split; [auto|].
  destruct (X4_framework_is_named_by_the_segment_before_Sources
              (host := onTree []) "App/Fwk/Sources/Sub/Sources/Deep"
              ["App"; "Fwk"; "Sources"; "Sub"] ["Deep"] H1 H2 H3)
    as (st & Hst & Hname & Hpath & _).
  exists st. auto.
Defined.

Lemma X5_witness :
  (searchFileWithBasename (host := onTree privateLayout)
     (nuclideUri.dirname "App/Fwk/Sources/Sub/Foo.m")
     (getFileBasename "App/Fwk/Sources/Sub/Foo.m") isHeaderFile
   = Resolved None
   /\ getFrameworkStructure (nuclideUri.dirname "App/Fwk/Sources/Sub/Foo.m")
      = Normal (Some appFwk)
   /\ searchHeaderFolder (host := onTree privateLayout) appFwk
        (getFileBasename "App/Fwk/Sources/Sub/Foo.m") "Headers"
      = Resolved None)
  /\ searchHeaderFolder (host := onTree privateLayout) appFwk
       (getFileBasename "App/Fwk/Sources/Sub/Foo.m") "PrivateHeaders"
     = Resolved (Some "App/Fwk/PrivateHeaders/Fwk/Sub/Foo.h")
  /\ getRelatedHeaderForSource (host := onTree privateLayout) "App/Fwk/Sources/Sub/Foo.m"
     = searchHeaderFolder (host := onTree privateLayout) appFwk
         (getFileBasename "App/Fwk/Sources/Sub/Foo.m") "PrivateHeaders".
Proof.
  assert (H1 : searchFileWithBasename (host := onTree privateLayout)
                 (nuclideUri.dirname "App/Fwk/Sources/Sub/Foo.m")
                 (getFileBasename "App/Fwk/Sources/Sub/Foo.m") isHeaderFile
               = Resolved None) by (vm_compute; reflexivity).
  assert (H2 : getFrameworkStructure (nuclideUri.dirname "App/Fwk/Sources/Sub/Foo.m")
               = Normal (Some appFwk)) by (vm_compute; reflexivity).
  assert (H3 : searchHeaderFolder (host := onTree privateLayout) appFwk
                 (getFileBasename "App/Fwk/Sources/Sub/Foo.m") "Headers"
               = Resolved None) by (vm_compute; reflexivity).
  split; [auto|]. split; [vm_compute; reflexivity|].
  exact (proj2 (X5_PrivateHeaders_is_the_fallback
                  (host := onTree privateLayout) "App/Fwk/Sources/Sub/Foo.m" appFwk
                  H1 H2 H3)).
Defined.

Lemma X6_witness :
  (searchFileWithBasename (host := onTree sideBySide)
     (nuclideUri.dirname "proj/Baz.m") (getFileBasename "proj/Baz.m") isHeaderFile
   = Resolved None
   /\ ~ In "Sources" (nuclideUri.split (nuclideUri.dirname "proj/Baz.m")))
  /\ getRelatedHeaderForSource (host := onTree sideBySide) "proj/Baz.m" = Resolved None.
Proof.
  assert (H1 : searchFileWithBasename (host := onTree sideBySide)
                 (nuclideUri.dirname "proj/Baz.m") (getFileBasename "proj/Baz.m")
                 isHeaderFile
               = Resolved None) by (vm_compute; reflexivity).
  assert (H2 : ~ In "Sources" (nuclideUri.split (nuclideUri.dirname "proj/Baz.m"))).
  { vm_compute. intros [H|[]]; discriminate. }
  split; [auto|].
  exact (proj2 (X6_no_header_outside_a_framework
                  (host := onTree sideBySide) "proj/Baz.m" H1 H2)).
Defined.

Lemma X10_witness :
  processGrepResult (grepLine "root/a/b/c/y.m" ascentLine) headerFile
    (includeRegex "a/b/x.h" "x.h")
  = Normal (Some "root/a/b/c/y.m")
  /\ exists line m,
       grepLine "root/a/b/c/y.m" ascentLine = grepLine "root/a/b/c/y.m" line
       /\ String_indexOf NUL "root/a/b/c/y.m" = None
       /\ isSourceFile "root/a/b/c/y.m" = true
       /\ RegExp.exec (includeRegex "a/b/x.h" "x.h") line = Some m
       /\ (RegExp.group m 2 <> None ->
           exists include,
             RegExp.group m 1 = Some include
             /\ nuclideUri.normalize
                  (nuclideUri.path_join [nuclideUri.dirname "root/a/b/c/y.m"; include])
                = headerFile).
Proof.
  assert (H : processGrepResult (grepLine "root/a/b/c/y.m" ascentLine) headerFile
                (includeRegex "a/b/x.h" "x.h")
              = Normal (Some "root/a/b/c/y.m")) by (vm_compute; reflexivity).
  split; [exact H|].
  exact (X10_processGrepResult_returns_a_verified_source_file
           (grepLine "root/a/b/c/y.m" ascentLine) headerFile
           (includeRegex "a/b/x.h" "x.h") "root/a/b/c/y.m" H).
Defined.

Lemma X8_witness :
  findSourceFileForHeader (host := hostOf [] promptOutput) headerFile projectRoot
  = Resolved (Some "root/a/b/c/y.m")
  /\ (searchFileWithBasename (host := hostOf [] promptOutput)
        (nuclideUri.dirname headerFile) (getFileBasename headerFile) isSourceFile
      = Resolved (Some "root/a/b/c/y.m")
      \/ exists t data,
           In (t, stdout data)
              (Rx.emissions (grepProcess (host := hostOf [] promptOutput)
                               headerFile projectRoot))
           /\ processGrepResult data headerFile
                (searchRegex (host := hostOf [] promptOutput) headerFile projectRoot)
              = Normal (Some "root/a/b/c/y.m")
           /\ (t < INCLUDE_SEARCH_TIMEOUT)%N).
Proof.
  assert (H : findSourceFileForHeader (host := hostOf [] promptOutput) headerFile projectRoot
              = Resolved (Some "root/a/b/c/y.m")) by (vm_compute; reflexivity).
  split; [exact H|].
  exact (X8_findSourceFileForHeader_result_is_found_or_accepted
           (host := hostOf [] promptOutput) headerFile projectRoot "root/a/b/c/y.m" H).
Defined.

Lemma X9_witness :
  (searchFileWithBasename (host := hostOf [] promptOutput)
     (nuclideUri.dirname headerFile) (getFileBasename headerFile) isSourceFile
   = Resolved None
   /\ Rx.emissions (grepProcess (host := hostOf [] promptOutput) headerFile projectRoot)
      = [(30%N, stderr "grep: root/a/b/bin: Permission denied")]
          ++ (70%N, stdout (grepLine "root/a/b/c/y.m" ascentLine)) :: [(90%N, exit 0)]
   /\ Forall (quiet (host := hostOf [] promptOutput) headerFile projectRoot)
        (map snd [(30%N, stderr "grep: root/a/b/bin: Permission denied")])
   /\ processGrepResult (grepLine "root/a/b/c/y.m" ascentLine) headerFile
        (searchRegex (host := hostOf [] promptOutput) headerFile projectRoot)
      = Normal (Some "root/a/b/c/y.m"))
  /\ findSourceFileForHeader (host := hostOf [] promptOutput) headerFile projectRoot
     = Resolved (Some "root/a/b/c/y.m").
Proof.
  assert (H1 : searchFileWithBasename (host := hostOf [] promptOutput)
                 (nuclideUri.dirname headerFile) (getFileBasename headerFile) isSourceFile
               = Resolved None) by (vm_compute; reflexivity).
  assert (H2 : Rx.emissions (grepProcess (host := hostOf [] promptOutput)
                               headerFile projectRoot)
               = [(30%N, stderr "grep: root/a/b/bin: Permission denied")]
                   ++ (70%N, stdout (grepLine "root/a/b/c/y.m" ascentLine))
                   :: [(90%N, exit 0)]) by (vm_compute; reflexivity).
  assert (H3 : Forall (quiet (host := hostOf [] promptOutput) headerFile projectRoot)
                 (map snd [(30%N, stderr "grep: root/a/b/bin: Permission denied")])).
  { repeat constructor. }
  assert (H4 : processGrepResult (grepLine "root/a/b/c/y.m" ascentLine) headerFile
                 (searchRegex (host := hostOf [] promptOutput) headerFile projectRoot)
               = Normal (Some "root/a/b/c/y.m")) by (vm_compute; reflexivity).
  split; [auto|].
  exact (X9_findSourceFileForHeader_returns_a_match_made_in_time
           (host := hostOf [] promptOutput) headerFile projectRoot
           [(30%N, stderr "grep: root/a/b/bin: Permission denied")] 70%N
           (grepLine "root/a/b/c/y.m" ascentLine) "root/a/b/c/y.m" [(90%N, exit 0)]
           H1 H2 H3 H4).
Defined.

Lemma X11_witness :
  (Rx.ending (grepProcess (host := hostOf [] spawnFailure) headerFile projectRoot)
   = Rx.Failed 1%N (ProcessError "spawn grep ENOENT")
   /\ Forall (quiet (host := hostOf [] spawnFailure) headerFile projectRoot)
        (map snd (Rx.emissions (grepProcess (host := hostOf [] spawnFailure)
                                  headerFile projectRoot))))
  /\ exists found,
       findIncludingSourceFile (host := hostOf [] spawnFailure) headerFile projectRoot
       = Normal found
       /\ Rx.emissions found = []
       /\ Rx.ending found
          = Rx.Failed 1%N (Error (String_of_error (ProcessError "spawn grep ENOENT")))
       /\ Rx.toPromise None found
          = Rejected (Error (String_of_error (ProcessError "spawn grep ENOENT"))).
Proof.
  assert (H1 : Rx.ending (grepProcess (host := hostOf [] spawnFailure)
                            headerFile projectRoot)
               = Rx.Failed 1%N (ProcessError "spawn grep ENOENT")) by reflexivity.
  assert (H2 : Forall (quiet (host := hostOf [] spawnFailure) headerFile projectRoot)
                 (map snd (Rx.emissions (grepProcess (host := hostOf [] spawnFailure)
                                           headerFile projectRoot)))).
  { vm_compute. constructor. }
  split; [auto|].
  exact (X11_a_failed_process_fails_the_search
           (host := hostOf [] spawnFailure) headerFile projectRoot 1%N
           (ProcessError "spawn grep ENOENT") H1 H2).
Defined.

Lemma X12_witness :
  (isSourceFile "root/a/b/other/deep/z.m" = true
   /\ String_indexOf NUL "root/a/b/other/deep/z.m" = None)
  /\ nuclideUri.basename headerFile = "x.h"
  /\ processGrepResult
       (grepLine "root/a/b/other/deep/z.m" (bareInclude (nuclideUri.basename headerFile)))
       headerFile (searchRegex (host := hostOf [] silent) headerFile projectRoot)
     = Normal (Some "root/a/b/other/deep/z.m").
Proof.
  assert (H1 : isSourceFile "root/a/b/other/deep/z.m" = true) by (vm_compute; reflexivity).
  assert (H2 : String_indexOf NUL "root/a/b/other/deep/z.m" = None)
    by (vm_compute; reflexivity).
  split; [auto|]. split; [vm_compute; reflexivity|].
  exact (X12_include_by_name_is_accepted_unverified
           (host := hostOf [] silent) headerFile projectRoot "root/a/b/other/deep/z.m"
           H1 H2).
Defined.

Lemma X16_witness :
  (isSourceFile "root/a/b/deep/z.m" = true
   /\ String_indexOf NUL "root/a/b/deep/z.m" = None
   /\ In "<"%char [ascii_of_nat 34; "<"%char]
   /\ In (ascii_of_nat 34) [ascii_of_nat 34; ">"%char])
  /\ nuclideUri.relative (cwd (Host := hostOf [] silent)) projectRoot headerFile = "a/b/x.h"
  /\ processGrepResult
       (grepLine "root/a/b/deep/z.m"
          ("#include "
             ++ String "<"
                  (nuclideUri.relative (cwd (Host := hostOf [] silent)) projectRoot headerFile
                     ++ String (ascii_of_nat 34) "")))
       headerFile (searchRegex (host := hostOf [] silent) headerFile projectRoot)
     = Normal (Some "root/a/b/deep/z.m").
Proof.
  assert (H1 : isSourceFile "root/a/b/deep/z.m" = true) by (vm_compute; reflexivity).
  assert (H2 : String_indexOf NUL "root/a/b/deep/z.m" = None) by (vm_compute; reflexivity).
  assert (H3 : In "<"%char [ascii_of_nat 34; "<"%char]) by (simpl; auto).
  assert (H4 : In (ascii_of_nat 34) [ascii_of_nat 34; ">"%char]) by (simpl; auto).
  split; [auto|]. split; [vm_compute; reflexivity|].
  exact (X16_delimiters_need_not_pair
           (host := hostOf [] silent) headerFile projectRoot "root/a/b/deep/z.m"
           "<"%char (ascii_of_nat 34) H1 H2 H3 H4).
Defined.

Lemma X17_witness :
  (findIncludingSourceFile (host := hostOf [] noMatchOutput) headerFile projectRoot
   = Normal (Rx.mkObservable [(90%N, None)] (Rx.Completed 90%N))
   /\ In (90%N, None) (Rx.emissions (Rx.mkObservable [(90%N, @None string)]
                                       (Rx.Completed 90%N))))
  /\ exists code,
       In (90%N, exit code)
          (Rx.emissions (grepProcess (host := hostOf [] noMatchOutput)
                           headerFile projectRoot)).
Proof.
  assert (H1 : findIncludingSourceFile (host := hostOf [] noMatchOutput)
                 headerFile projectRoot
               = Normal (Rx.mkObservable [(90%N, None)] (Rx.Completed 90%N)))
    by (vm_compute; reflexivity).
  assert (H2 : In (90%N, None) (Rx.emissions (Rx.mkObservable [(90%N, @None string)]
                                                (Rx.Completed 90%N))))
    by (simpl; auto).
  split; [auto|].
  exact (X17_every_delivered_value_answers_a_message
           (host := hostOf [] noMatchOutput) headerFile projectRoot _ 90%N None H1 H2).
Defined.

End ConcreteResults.

Section ConcretePackages.
Import Package.

Lemma X13_witness :
  main standalone
  = Loaded "atom-ide-ui"
      [mkFeature "/app/pkg/alpha" "{1}"; mkFeature "/app/pkg/gamma" "{3}"]
  /\ ~ In "nuclide" (availablePackageNames standalone)
  /\ readFileSync standalone "/app/pkg/beta/package.json" = Raise noEntry.
Proof.
  assert (H : main standalone
              = Loaded "atom-ide-ui"
                  [mkFeature "/app/pkg/alpha" "{1}"; mkFeature "/app/pkg/gamma" "{3}"])
    by (vm_compute; reflexivity).
  split; [exact H|].
  split; [|vm_compute; reflexivity].
  exact (proj1 (proj2 (X13_features_are_the_entries_with_a_package_json
                         standalone _ _ H))).
Defined.

Lemma X14_witness :
  (~ In "nuclide" (availablePackageNames withFile)
   /\ readdirSync withFile (featureDir withFile) = Return (["alpha"] ++ "beta" :: ["gamma"])
   /\ Forall (fun entry => exists feature,
                  readFeature withFile (featureDir withFile) entry = Return feature)
             ["alpha"]
   /\ readFileSync withFile
        (nuclideUri.path_join
           [nuclideUri.path_join [featureDir withFile; "beta"]; "package.json"])
      = Raise notDirectory
   /\ hasCode notDirectory "ENOENT" = false)
  /\ main withFile = Thrown notDirectory.
Proof.
  assert (H1 : ~ In "nuclide" (availablePackageNames withFile)).
  { vm_compute. intros [H|[]]; discriminate. }
  assert (H2 : readdirSync withFile (featureDir withFile)
               = Return (["alpha"] ++ "beta" :: ["gamma"])) by (vm_compute; reflexivity).
  assert (H3 : Forall (fun entry => exists feature,
                           readFeature withFile (featureDir withFile) entry = Return feature)
                      ["alpha"]).
  { repeat constructor. eexists. vm_compute. reflexivity. }
  assert (H4 : readFileSync withFile
                 (nuclideUri.path_join
                    [nuclideUri.path_join [featureDir withFile; "beta"]; "package.json"])
               = Raise notDirectory) by (vm_compute; reflexivity).
  assert (H5 : hasCode notDirectory "ENOENT" = false) by (vm_compute; reflexivity).
  split; [auto 6|].
  exact (X14_an_unreadable_package_json_aborts_the_loading
           withFile ["alpha"] "beta" ["gamma"] notDirectory H1 H2 H3 (or_introl H4) H5).
Defined.

Lemma X15_witness :
  main malformed = Thrown (Plain (SyntaxError "Unexpected token in JSON at position 0"))
  /\ (readdirSync malformed (featureDir malformed)
      = Raise (Plain (SyntaxError "Unexpected token in JSON at position 0"))
      \/ exists items item,
           readdirSync malformed (featureDir malformed) = Return items
           /\ In item items
           /\ readPackage malformed (nuclideUri.path_join [featureDir malformed; item])
              = Raise (Plain (SyntaxError "Unexpected token in JSON at position 0"))
           /\ hasCode (Plain (SyntaxError "Unexpected token in JSON at position 0")) "ENOENT"
              = false).
Proof.
  assert (H : main malformed
              = Thrown (Plain (SyntaxError "Unexpected token in JSON at position 0")))
    by (vm_compute; reflexivity).
  split; [exact H|].
  exact (X15_a_missing_package_json_never_aborts_the_loading malformed _ H).
Defined.

Lemma X18_witness :
  In "nuclide" (availablePackageNames bundled)
  /\ exists n, main bundled = Warned n.
Proof.
  assert (H : In "nuclide" (availablePackageNames bundled)) by (simpl; auto).
  split; [exact H|].
  exact (proj2 (X18_the_warning_is_for_nuclide_only bundled) H).
Defined.

End ConcretePackages.
